(** * BCM2835 Unicam capture driver: format registry, layout and frame scheduler

    A shallow embedding of [drivers/media/platform/bcm2835/bcm2835-unicam.c].

    Conventions.
    - C integers are [Z]; [u32] and [s32] write out the wrap-around of
      [unsigned int]/[u32] and of [int].
    - A [struct unicam_buffer *] is a [bufptr]; [None] is the NULL pointer.
      The fields the driver reads and writes through such a pointer live in
      the [bufs] store of the device.
    - The circular list [dma_queue.active] is a [list bufptr], head first.
    - [struct unicam_cfg] holds the memory-mapped registers as cells
      indexed by their symbolic offset: a read returns the cell, a write
      replaces it.  What the receiver does to its status registers between
      two interrupts is an input ([raise_irq]).
    - [vb2_buffer_done] appends to the [done] log of the device: the log is
      what the consumer of the buffers observes.
    - A call that dereferences something that is not a buffer has no
      defined result: such functions return [option], [None] being the
      fault.  The one exception is the start of a stream on an empty
      list, which the driver does not exclude: there the list head stands
      in for the first entry ([active_head_entry]) and the function goes
      on.
    - The results of the calls into the sensor sub-device, runtime PM and
      the clock framework are fields of [v4l2_subdev] and
      [unicam_platform]; delays and log messages are left out.
    - Constants and helpers of headers that are not part of this file
      ([vc4-regs-unicam.h], the V4L2 and media-bus UAPI, errno,
      [v4l_bound_align_image]) are the fields of the classes [Vc4Regs],
      [Uapi] and [MediaCore]; every theorem holds for all their values. *)

From Stdlib Require Import ZArith List Bool Lia Ascii Permutation.
Import ListNotations.
Local Open Scope Z_scope.

(** ** Machine integers *)

Definition u32 (x : Z) : Z := x mod 2 ^ 32.

Definition s32 (x : Z) : Z := (x + 2 ^ 31) mod 2 ^ 32 - 2 ^ 31.

(** [ALIGN(x, a)] of [include/linux/kernel.h] at type [unsigned int]:
    [((x) + (a - 1)) & ~(a - 1)]. *)
Definition ALIGN (x a : Z) : Z :=
  u32 (Z.land (u32 (x + (a - 1))) (Z.lnot (a - 1))).

(** [__ffs(word)]: index of the least significant set bit. *)
Definition __ffs (word : Z) : Z := Z.log2 (Z.land word (- word)).

(** [get_field]: the expression is computed at type [u32] and returned as
    [int]. *)
Definition get_field (value mask : Z) : Z :=
  s32 (Z.shiftr (Z.land value mask) (__ffs mask)).

Definition set_field (val field mask : Z) : Z :=
  let val := Z.land val (u32 (Z.lnot mask)) in
  Z.lor val (Z.land (u32 (Z.shiftl field (__ffs mask))) mask).

(** ** Constants of the headers *)

(** Errno values, pixel-format fourccs, media-bus codes and the CSI-2
    bus-configuration flags. *)
Class Uapi : Type := {
  EINVAL : Z;
  ENOIOCTLCMD : Z;
  V4L2_MBUS_CSI2_LANE_MASK : Z;
  V4L2_MBUS_CSI2_CONTINUOUS_CLOCK : Z;
  V4L2_PIX_FMT_YUYV : Z;
  V4L2_PIX_FMT_UYVY : Z;
  V4L2_PIX_FMT_YVYU : Z;
  V4L2_PIX_FMT_VYUY : Z;
  V4L2_PIX_FMT_RGB565 : Z;
  V4L2_PIX_FMT_RGB565X : Z;
  V4L2_PIX_FMT_RGB555 : Z;
  V4L2_PIX_FMT_RGB555X : Z;
  V4L2_PIX_FMT_RGB24 : Z;
  V4L2_PIX_FMT_BGR24 : Z;
  V4L2_PIX_FMT_RGB32 : Z;
  V4L2_PIX_FMT_SBGGR8 : Z;
  V4L2_PIX_FMT_SGBRG8 : Z;
  V4L2_PIX_FMT_SGRBG8 : Z;
  V4L2_PIX_FMT_SRGGB8 : Z;
  V4L2_PIX_FMT_SBGGR10P : Z;
  V4L2_PIX_FMT_SGBRG10P : Z;
  V4L2_PIX_FMT_SGRBG10P : Z;
  V4L2_PIX_FMT_SRGGB10P : Z;
  V4L2_PIX_FMT_SBGGR10 : Z;
  V4L2_PIX_FMT_SGBRG10 : Z;
  V4L2_PIX_FMT_SGRBG10 : Z;
  V4L2_PIX_FMT_SRGGB10 : Z;
  V4L2_PIX_FMT_SBGGR12P : Z;
  V4L2_PIX_FMT_SGBRG12P : Z;
  V4L2_PIX_FMT_SGRBG12P : Z;
  V4L2_PIX_FMT_SRGGB12P : Z;
  V4L2_PIX_FMT_SBGGR12 : Z;
  V4L2_PIX_FMT_SGBRG12 : Z;
  V4L2_PIX_FMT_SGRBG12 : Z;
  V4L2_PIX_FMT_SRGGB12 : Z;
  V4L2_PIX_FMT_SBGGR14P : Z;
  V4L2_PIX_FMT_SGBRG14P : Z;
  V4L2_PIX_FMT_SGRBG14P : Z;
  V4L2_PIX_FMT_SRGGB14P : Z;
  V4L2_PIX_FMT_GREY : Z;
  V4L2_PIX_FMT_Y10P : Z;
  V4L2_PIX_FMT_Y10 : Z;
  V4L2_PIX_FMT_Y12 : Z;
  MEDIA_BUS_FMT_YUYV8_2X8 : Z;
  MEDIA_BUS_FMT_UYVY8_2X8 : Z;
  MEDIA_BUS_FMT_YVYU8_2X8 : Z;
  MEDIA_BUS_FMT_VYUY8_2X8 : Z;
  MEDIA_BUS_FMT_YUYV8_1X16 : Z;
  MEDIA_BUS_FMT_UYVY8_1X16 : Z;
  MEDIA_BUS_FMT_YVYU8_1X16 : Z;
  MEDIA_BUS_FMT_VYUY8_1X16 : Z;
  MEDIA_BUS_FMT_RGB565_2X8_LE : Z;
  MEDIA_BUS_FMT_RGB565_2X8_BE : Z;
  MEDIA_BUS_FMT_RGB555_2X8_PADHI_LE : Z;
  MEDIA_BUS_FMT_RGB555_2X8_PADHI_BE : Z;
  MEDIA_BUS_FMT_RGB888_1X24 : Z;
  MEDIA_BUS_FMT_BGR888_1X24 : Z;
  MEDIA_BUS_FMT_ARGB8888_1X32 : Z;
  MEDIA_BUS_FMT_SBGGR8_1X8 : Z;
  MEDIA_BUS_FMT_SGBRG8_1X8 : Z;
  MEDIA_BUS_FMT_SGRBG8_1X8 : Z;
  MEDIA_BUS_FMT_SRGGB8_1X8 : Z;
  MEDIA_BUS_FMT_SBGGR10_1X10 : Z;
  MEDIA_BUS_FMT_SGBRG10_1X10 : Z;
  MEDIA_BUS_FMT_SGRBG10_1X10 : Z;
  MEDIA_BUS_FMT_SRGGB10_1X10 : Z;
  MEDIA_BUS_FMT_SBGGR12_1X12 : Z;
  MEDIA_BUS_FMT_SGBRG12_1X12 : Z;
  MEDIA_BUS_FMT_SGRBG12_1X12 : Z;
  MEDIA_BUS_FMT_SRGGB12_1X12 : Z;
  MEDIA_BUS_FMT_SBGGR14_1X14 : Z;
  MEDIA_BUS_FMT_SGBRG14_1X14 : Z;
  MEDIA_BUS_FMT_SGRBG14_1X14 : Z;
  MEDIA_BUS_FMT_SRGGB14_1X14 : Z;
  MEDIA_BUS_FMT_Y8_1X8 : Z;
  MEDIA_BUS_FMT_Y10_1X10 : Z;
  MEDIA_BUS_FMT_Y12_1X12 : Z
}.

(** Bit masks and field values of [vc4-regs-unicam.h]. *)
Class Vc4Regs : Type := {
  (* UNICAM_CTRL *)
  UNICAM_CPE : Z;
  UNICAM_MEM : Z;
  UNICAM_CPR : Z;
  UNICAM_CPM_MASK : Z;
  UNICAM_CPM_CSI2 : Z;
  UNICAM_CPM_CCP2 : Z;
  UNICAM_SOE : Z;
  UNICAM_DCM_MASK : Z;
  UNICAM_DCM_STROBE : Z;
  UNICAM_PFT_MASK : Z;
  UNICAM_OET_MASK : Z;
  (* UNICAM_STA *)
  UNICAM_IS : Z;
  UNICAM_PI0 : Z;
  UNICAM_STA_MASK_ALL : Z;
  (* UNICAM_ANA *)
  UNICAM_AR : Z;
  UNICAM_DDL : Z;
  UNICAM_CTATADJ_MASK : Z;
  UNICAM_PTATADJ_MASK : Z;
  (* UNICAM_PRI *)
  UNICAM_PE : Z;
  UNICAM_PT_MASK : Z;
  UNICAM_NP_MASK : Z;
  UNICAM_PP_MASK : Z;
  UNICAM_BS_MASK : Z;
  UNICAM_BL_MASK : Z;
  (* UNICAM_CLK *)
  UNICAM_CLE : Z;
  UNICAM_CLLPE : Z;
  UNICAM_CLHSE : Z;
  UNICAM_CLTRE : Z;
  (* UNICAM_CLT *)
  UNICAM_CLT1_MASK : Z;
  UNICAM_CLT2_MASK : Z;
  (* UNICAM_DATn *)
  UNICAM_DLE : Z;
  UNICAM_DLLPE : Z;
  UNICAM_DLHSE : Z;
  UNICAM_DLTRE : Z;
  (* UNICAM_DLT *)
  UNICAM_DLT1_MASK : Z;
  UNICAM_DLT2_MASK : Z;
  UNICAM_DLT3_MASK : Z;
  (* UNICAM_CMP0 *)
  UNICAM_PCE : Z;
  UNICAM_GI : Z;
  UNICAM_CPH : Z;
  UNICAM_PCVC_MASK : Z;
  UNICAM_PCDT_MASK : Z;
  (* UNICAM_ICTL *)
  UNICAM_FSIE : Z;
  UNICAM_FEIE : Z;
  UNICAM_FCM : Z;
  UNICAM_TFC : Z;
  UNICAM_LIP_MASK : Z;
  UNICAM_LCIE_MASK : Z;
  (* UNICAM_ISTA *)
  UNICAM_FSI : Z;
  UNICAM_FEI : Z;
  UNICAM_LCI : Z;
  UNICAM_ISTA_MASK_ALL : Z;
  (* UNICAM_IPIPE *)
  UNICAM_PUM_MASK : Z;
  UNICAM_PUM_NONE : Z;
  UNICAM_PUM_UNPACK8 : Z;
  UNICAM_PUM_UNPACK10 : Z;
  UNICAM_PUM_UNPACK12 : Z;
  UNICAM_PUM_UNPACK14 : Z;
  UNICAM_PUM_UNPACK16 : Z;
  UNICAM_PPM_MASK : Z;
  UNICAM_PPM_NONE : Z;
  UNICAM_PPM_PACK16 : Z;
  UNICAM_DEBL_MASK : Z;
  (* UNICAM_DCS *)
  UNICAM_EDL_MASK : Z;
  (* UNICAM_MISC *)
  UNICAM_FL0 : Z;
  UNICAM_FL1 : Z
}.

(** The symbolic register offsets the driver uses. *)
Inductive unicam_reg : Type :=
| UNICAM_CTRL | UNICAM_STA | UNICAM_ANA | UNICAM_PRI | UNICAM_CLK
| UNICAM_CLT | UNICAM_DAT0 | UNICAM_DAT1 | UNICAM_DAT2 | UNICAM_DAT3
| UNICAM_DLT | UNICAM_CMP0 | UNICAM_ICTL | UNICAM_ISTA | UNICAM_IDI0
| UNICAM_IPIPE | UNICAM_IBSA0 | UNICAM_IBEA0 | UNICAM_IBLS
| UNICAM_IHWIN | UNICAM_IVWIN | UNICAM_DCS | UNICAM_MISC.

Definition unicam_reg_eq_dec (a b : unicam_reg) : {a = b} + {a <> b}.
Proof. decide equality. Defined.

(** ** Driver constants *)

Definition MAX_ENUM_MBUS_CODE : Z := 128.
Definition BPL_ALIGNMENT : Z := 16.
Definition MAX_BYTESPERLINE : Z := Z.shiftl 1 16 - BPL_ALIGNMENT.
Definition MAX_WIDTH : Z := MAX_BYTESPERLINE / 4.
Definition MAX_HEIGHT : Z := MAX_WIDTH.
Definition MIN_WIDTH : Z := 16.
Definition MIN_HEIGHT : Z := 16.
Definition HEIGHT_ALIGNMENT : Z := 16.

(** ** Data model *)

(** [struct unicam_fmt]. *)
Record unicam_fmt : Type := {
  fourcc : Z;
  repacked_fourcc : Z;
  code : Z;
  depth : Z;
  csi_dt : Z;
  check_variants : Z
}.

(** The states a buffer is handed back with ([enum vb2_buffer_state]). *)
Inductive vb2_buffer_state : Type :=
| VB2_BUF_STATE_QUEUED
| VB2_BUF_STATE_DONE
| VB2_BUF_STATE_ERROR.

Definition bufptr : Type := nat.

(** What the driver reads and writes through a [struct unicam_buffer *]:
    [vb.field], [vb.sequence], [vb.vb2_buf.timestamp], and the address
    [vb2_dma_contig_plane_dma_addr(&buf->vb.vb2_buf, 0)] returns. *)
Record vb2_v4l2_buffer : Type := {
  vb_field : Z;
  vb_sequence : Z;
  vb_timestamp : Z;
  plane_dma_addr : Z
}.

(** One call of [vb2_buffer_done]: the buffer, the state it is tagged with
    and its fields at that moment. *)
Record completion : Type := {
  c_buf : bufptr;
  c_state : vb2_buffer_state;
  c_vb : vb2_v4l2_buffer
}.

(** The fields of [struct v4l2_pix_format] the layout computation uses. *)
Record v4l2_pix_format : Type := {
  width : Z;
  height : Z;
  pixelformat : Z;
  bytesperline : Z;
  sizeimage : Z
}.

Inductive v4l2_mbus_type : Type :=
| V4L2_MBUS_UNKNOWN
| V4L2_MBUS_PARALLEL
| V4L2_MBUS_BT656
| V4L2_MBUS_CSI1
| V4L2_MBUS_CCP2
| V4L2_MBUS_CSI2_DPHY
| V4L2_MBUS_CSI2_CPHY.

(** The sensor sub-device, by the results of the operations the driver
    calls with [v4l2_subdev_call]: [enum_mbus_code] maps the index to the
    return value and the code left in the structure; [g_mbus_config] gives
    the return value and the flags; [s_stream] maps the enable argument to
    the return value. *)
Record v4l2_subdev : Type := {
  enum_mbus_code : Z -> Z * Z;
  has_g_mbus_config : bool;
  g_mbus_config : Z * Z;
  s_stream : Z -> Z
}.

(** Results of the runtime-PM and clock calls of the platform. *)
Record unicam_platform : Type := {
  pm_runtime_get_sync : Z;
  clk_set_rate : Z -> Z;
  clk_prepare_enable : Z
}.

(** [struct unicam_cfg]: the peripheral registers, by symbolic offset, and
    the clock-gating register. *)
Record unicam_cfg : Type := {
  base : unicam_reg -> Z;
  clk_gate_base : Z
}.

(** [struct unicam_device], with the buffer store ([bufs]) and the
    completion log ([done]). *)
Record unicam_device : Type := {
  sequence : Z;
  sensor : v4l2_subdev;
  cur_frm : option bufptr;
  next_frm : option bufptr;
  fmt : unicam_fmt;
  v_fmt : v4l2_pix_format;
  m_fmt_field : Z;
  virtual_channel : Z;
  bus_type : v4l2_mbus_type;
  bus_flags : Z;
  max_data_lanes : Z;
  active_data_lanes : Z;
  dma_queue : list bufptr;
  streaming : Z;
  cfg : unicam_cfg;
  bufs : bufptr -> vb2_v4l2_buffer;
  done : list completion;
  platform : unicam_platform;
  pm_usage : Z;
  clk_enabled : Z
}.

Definition set_sequence (v : Z) (d : unicam_device) : unicam_device :=
  {| sequence := v; sensor := sensor d; cur_frm := cur_frm d;
     next_frm := next_frm d; fmt := fmt d; v_fmt := v_fmt d;
     m_fmt_field := m_fmt_field d; virtual_channel := virtual_channel d;
     bus_type := bus_type d; bus_flags := bus_flags d;
     max_data_lanes := max_data_lanes d;
     active_data_lanes := active_data_lanes d; dma_queue := dma_queue d;
     streaming := streaming d; cfg := cfg d;
     bufs := bufs d; done := done d; platform := platform d;
     pm_usage := pm_usage d; clk_enabled := clk_enabled d |}.

Definition set_cur_frm (v : option bufptr) (d : unicam_device) : unicam_device :=
  {| sequence := sequence d; sensor := sensor d; cur_frm := v;
     next_frm := next_frm d; fmt := fmt d; v_fmt := v_fmt d;
     m_fmt_field := m_fmt_field d; virtual_channel := virtual_channel d;
     bus_type := bus_type d; bus_flags := bus_flags d;
     max_data_lanes := max_data_lanes d;
     active_data_lanes := active_data_lanes d; dma_queue := dma_queue d;
     streaming := streaming d; cfg := cfg d;
     bufs := bufs d; done := done d; platform := platform d;
     pm_usage := pm_usage d; clk_enabled := clk_enabled d |}.

Definition set_next_frm (v : option bufptr) (d : unicam_device) : unicam_device :=
  {| sequence := sequence d; sensor := sensor d; cur_frm := cur_frm d;
     next_frm := v; fmt := fmt d; v_fmt := v_fmt d;
     m_fmt_field := m_fmt_field d; virtual_channel := virtual_channel d;
     bus_type := bus_type d; bus_flags := bus_flags d;
     max_data_lanes := max_data_lanes d;
     active_data_lanes := active_data_lanes d; dma_queue := dma_queue d;
     streaming := streaming d; cfg := cfg d;
     bufs := bufs d; done := done d; platform := platform d;
     pm_usage := pm_usage d; clk_enabled := clk_enabled d |}.

Definition set_active_data_lanes (v : Z) (d : unicam_device) : unicam_device :=
  {| sequence := sequence d; sensor := sensor d; cur_frm := cur_frm d;
     next_frm := next_frm d; fmt := fmt d; v_fmt := v_fmt d;
     m_fmt_field := m_fmt_field d; virtual_channel := virtual_channel d;
     bus_type := bus_type d; bus_flags := bus_flags d;
     max_data_lanes := max_data_lanes d;
     active_data_lanes := v; dma_queue := dma_queue d;
     streaming := streaming d; cfg := cfg d;
     bufs := bufs d; done := done d; platform := platform d;
     pm_usage := pm_usage d; clk_enabled := clk_enabled d |}.

Definition set_dma_queue (v : list bufptr) (d : unicam_device) : unicam_device :=
  {| sequence := sequence d; sensor := sensor d; cur_frm := cur_frm d;
     next_frm := next_frm d; fmt := fmt d; v_fmt := v_fmt d;
     m_fmt_field := m_fmt_field d; virtual_channel := virtual_channel d;
     bus_type := bus_type d; bus_flags := bus_flags d;
     max_data_lanes := max_data_lanes d;
     active_data_lanes := active_data_lanes d; dma_queue := v;
     streaming := streaming d; cfg := cfg d;
     bufs := bufs d; done := done d; platform := platform d;
     pm_usage := pm_usage d; clk_enabled := clk_enabled d |}.

Definition set_streaming (v : Z) (d : unicam_device) : unicam_device :=
  {| sequence := sequence d; sensor := sensor d; cur_frm := cur_frm d;
     next_frm := next_frm d; fmt := fmt d; v_fmt := v_fmt d;
     m_fmt_field := m_fmt_field d; virtual_channel := virtual_channel d;
     bus_type := bus_type d; bus_flags := bus_flags d;
     max_data_lanes := max_data_lanes d;
     active_data_lanes := active_data_lanes d; dma_queue := dma_queue d;
     streaming := v; cfg := cfg d;
     bufs := bufs d; done := done d; platform := platform d;
     pm_usage := pm_usage d; clk_enabled := clk_enabled d |}.

Definition set_cfg (v : unicam_cfg) (d : unicam_device) : unicam_device :=
  {| sequence := sequence d; sensor := sensor d; cur_frm := cur_frm d;
     next_frm := next_frm d; fmt := fmt d; v_fmt := v_fmt d;
     m_fmt_field := m_fmt_field d; virtual_channel := virtual_channel d;
     bus_type := bus_type d; bus_flags := bus_flags d;
     max_data_lanes := max_data_lanes d;
     active_data_lanes := active_data_lanes d; dma_queue := dma_queue d;
     streaming := streaming d; cfg := v;
     bufs := bufs d; done := done d; platform := platform d;
     pm_usage := pm_usage d; clk_enabled := clk_enabled d |}.

Definition set_bufs (v : bufptr -> vb2_v4l2_buffer) (d : unicam_device) : unicam_device :=
  {| sequence := sequence d; sensor := sensor d; cur_frm := cur_frm d;
     next_frm := next_frm d; fmt := fmt d; v_fmt := v_fmt d;
     m_fmt_field := m_fmt_field d; virtual_channel := virtual_channel d;
     bus_type := bus_type d; bus_flags := bus_flags d;
     max_data_lanes := max_data_lanes d;
     active_data_lanes := active_data_lanes d; dma_queue := dma_queue d;
     streaming := streaming d; cfg := cfg d;
     bufs := v; done := done d; platform := platform d;
     pm_usage := pm_usage d; clk_enabled := clk_enabled d |}.

Definition set_done (v : list completion) (d : unicam_device) : unicam_device :=
  {| sequence := sequence d; sensor := sensor d; cur_frm := cur_frm d;
     next_frm := next_frm d; fmt := fmt d; v_fmt := v_fmt d;
     m_fmt_field := m_fmt_field d; virtual_channel := virtual_channel d;
     bus_type := bus_type d; bus_flags := bus_flags d;
     max_data_lanes := max_data_lanes d;
     active_data_lanes := active_data_lanes d; dma_queue := dma_queue d;
     streaming := streaming d; cfg := cfg d;
     bufs := bufs d; done := v; platform := platform d;
     pm_usage := pm_usage d; clk_enabled := clk_enabled d |}.

Definition set_pm_usage (v : Z) (d : unicam_device) : unicam_device :=
  {| sequence := sequence d; sensor := sensor d; cur_frm := cur_frm d;
     next_frm := next_frm d; fmt := fmt d; v_fmt := v_fmt d;
     m_fmt_field := m_fmt_field d; virtual_channel := virtual_channel d;
     bus_type := bus_type d; bus_flags := bus_flags d;
     max_data_lanes := max_data_lanes d;
     active_data_lanes := active_data_lanes d; dma_queue := dma_queue d;
     streaming := streaming d; cfg := cfg d;
     bufs := bufs d; done := done d; platform := platform d;
     pm_usage := v; clk_enabled := clk_enabled d |}.

Definition set_clk_enabled (v : Z) (d : unicam_device) : unicam_device :=
  {| sequence := sequence d; sensor := sensor d; cur_frm := cur_frm d;
     next_frm := next_frm d; fmt := fmt d; v_fmt := v_fmt d;
     m_fmt_field := m_fmt_field d; virtual_channel := virtual_channel d;
     bus_type := bus_type d; bus_flags := bus_flags d;
     max_data_lanes := max_data_lanes d;
     active_data_lanes := active_data_lanes d; dma_queue := dma_queue d;
     streaming := streaming d; cfg := cfg d;
     bufs := bufs d; done := done d; platform := platform d;
     pm_usage := pm_usage d; clk_enabled := v |}.

(** [v4l_bound_align_image] of the V4L2 core ([v4l2-common.c]): from
    [w wmin wmax walign h hmin hmax halign salign] to the adjusted width
    and height. *)
Class MediaCore : Type := {
  v4l_bound_align_image : Z -> Z -> Z -> Z -> Z -> Z -> Z -> Z -> Z -> Z * Z
}.

Section Driver.

Context {uapi : Uapi} {regs : Vc4Regs} {core : MediaCore}.

(** ** The format table *)

Definition formats : list unicam_fmt := [
  (* YUV Formats *)
  {| fourcc := V4L2_PIX_FMT_YUYV; repacked_fourcc := 0;
     code := MEDIA_BUS_FMT_YUYV8_2X8; depth := 16; csi_dt := 0x1e;
     check_variants := 1 |};
  {| fourcc := V4L2_PIX_FMT_UYVY; repacked_fourcc := 0;
     code := MEDIA_BUS_FMT_UYVY8_2X8; depth := 16; csi_dt := 0x1e;
     check_variants := 1 |};
  {| fourcc := V4L2_PIX_FMT_YVYU; repacked_fourcc := 0;
     code := MEDIA_BUS_FMT_YVYU8_2X8; depth := 16; csi_dt := 0x1e;
     check_variants := 1 |};
  {| fourcc := V4L2_PIX_FMT_VYUY; repacked_fourcc := 0;
     code := MEDIA_BUS_FMT_VYUY8_2X8; depth := 16; csi_dt := 0x1e;
     check_variants := 1 |};
  {| fourcc := V4L2_PIX_FMT_YUYV; repacked_fourcc := 0;
     code := MEDIA_BUS_FMT_YUYV8_1X16; depth := 16; csi_dt := 0x1e;
     check_variants := 0 |};
  {| fourcc := V4L2_PIX_FMT_UYVY; repacked_fourcc := 0;
     code := MEDIA_BUS_FMT_UYVY8_1X16; depth := 16; csi_dt := 0x1e;
     check_variants := 0 |};
  {| fourcc := V4L2_PIX_FMT_YVYU; repacked_fourcc := 0;
     code := MEDIA_BUS_FMT_YVYU8_1X16; depth := 16; csi_dt := 0x1e;
     check_variants := 0 |};
  {| fourcc := V4L2_PIX_FMT_VYUY; repacked_fourcc := 0;
     code := MEDIA_BUS_FMT_VYUY8_1X16; depth := 16; csi_dt := 0x1e;
     check_variants := 0 |};
  (* RGB Formats *)
  {| fourcc := V4L2_PIX_FMT_RGB565; repacked_fourcc := 0;
     code := MEDIA_BUS_FMT_RGB565_2X8_LE; depth := 16; csi_dt := 0x22;
     check_variants := 0 |};
  {| fourcc := V4L2_PIX_FMT_RGB565X; repacked_fourcc := 0;
     code := MEDIA_BUS_FMT_RGB565_2X8_BE; depth := 16; csi_dt := 0x22;
     check_variants := 0 |};
  {| fourcc := V4L2_PIX_FMT_RGB555; repacked_fourcc := 0;
     code := MEDIA_BUS_FMT_RGB555_2X8_PADHI_LE; depth := 16; csi_dt := 0x21;
     check_variants := 0 |};
  {| fourcc := V4L2_PIX_FMT_RGB555X; repacked_fourcc := 0;
     code := MEDIA_BUS_FMT_RGB555_2X8_PADHI_BE; depth := 16; csi_dt := 0x21;
     check_variants := 0 |};
  {| fourcc := V4L2_PIX_FMT_RGB24; repacked_fourcc := 0;
     code := MEDIA_BUS_FMT_RGB888_1X24; depth := 24; csi_dt := 0x24;
     check_variants := 0 |};
  {| fourcc := V4L2_PIX_FMT_BGR24; repacked_fourcc := 0;
     code := MEDIA_BUS_FMT_BGR888_1X24; depth := 24; csi_dt := 0x24;
     check_variants := 0 |};
  {| fourcc := V4L2_PIX_FMT_RGB32; repacked_fourcc := 0;
     code := MEDIA_BUS_FMT_ARGB8888_1X32; depth := 32; csi_dt := 0x0;
     check_variants := 0 |};
  (* Bayer Formats *)
  {| fourcc := V4L2_PIX_FMT_SBGGR8; repacked_fourcc := 0;
     code := MEDIA_BUS_FMT_SBGGR8_1X8; depth := 8; csi_dt := 0x2a;
     check_variants := 0 |};
  {| fourcc := V4L2_PIX_FMT_SGBRG8; repacked_fourcc := 0;
     code := MEDIA_BUS_FMT_SGBRG8_1X8; depth := 8; csi_dt := 0x2a;
     check_variants := 0 |};
  {| fourcc := V4L2_PIX_FMT_SGRBG8; repacked_fourcc := 0;
     code := MEDIA_BUS_FMT_SGRBG8_1X8; depth := 8; csi_dt := 0x2a;
     check_variants := 0 |};
  {| fourcc := V4L2_PIX_FMT_SRGGB8; repacked_fourcc := 0;
     code := MEDIA_BUS_FMT_SRGGB8_1X8; depth := 8; csi_dt := 0x2a;
     check_variants := 0 |};
  {| fourcc := V4L2_PIX_FMT_SBGGR10P; repacked_fourcc := V4L2_PIX_FMT_SBGGR10;
     code := MEDIA_BUS_FMT_SBGGR10_1X10; depth := 10; csi_dt := 0x2b;
     check_variants := 0 |};
  {| fourcc := V4L2_PIX_FMT_SGBRG10P; repacked_fourcc := V4L2_PIX_FMT_SGBRG10;
     code := MEDIA_BUS_FMT_SGBRG10_1X10; depth := 10; csi_dt := 0x2b;
     check_variants := 0 |};
  {| fourcc := V4L2_PIX_FMT_SGRBG10P; repacked_fourcc := V4L2_PIX_FMT_SGRBG10;
     code := MEDIA_BUS_FMT_SGRBG10_1X10; depth := 10; csi_dt := 0x2b;
     check_variants := 0 |};
  {| fourcc := V4L2_PIX_FMT_SRGGB10P; repacked_fourcc := V4L2_PIX_FMT_SRGGB10;
     code := MEDIA_BUS_FMT_SRGGB10_1X10; depth := 10; csi_dt := 0x2b;
     check_variants := 0 |};
  {| fourcc := V4L2_PIX_FMT_SBGGR12P; repacked_fourcc := V4L2_PIX_FMT_SBGGR12;
     code := MEDIA_BUS_FMT_SBGGR12_1X12; depth := 12; csi_dt := 0x2c;
     check_variants := 0 |};
  {| fourcc := V4L2_PIX_FMT_SGBRG12P; repacked_fourcc := V4L2_PIX_FMT_SGBRG12;
     code := MEDIA_BUS_FMT_SGBRG12_1X12; depth := 12; csi_dt := 0x2c;
     check_variants := 0 |};
  {| fourcc := V4L2_PIX_FMT_SGRBG12P; repacked_fourcc := V4L2_PIX_FMT_SGRBG12;
     code := MEDIA_BUS_FMT_SGRBG12_1X12; depth := 12; csi_dt := 0x2c;
     check_variants := 0 |};
  {| fourcc := V4L2_PIX_FMT_SRGGB12P; repacked_fourcc := V4L2_PIX_FMT_SRGGB12;
     code := MEDIA_BUS_FMT_SRGGB12_1X12; depth := 12; csi_dt := 0x2c;
     check_variants := 0 |};
  {| fourcc := V4L2_PIX_FMT_SBGGR14P; repacked_fourcc := 0;
     code := MEDIA_BUS_FMT_SBGGR14_1X14; depth := 14; csi_dt := 0x2d;
     check_variants := 0 |};
  {| fourcc := V4L2_PIX_FMT_SGBRG14P; repacked_fourcc := 0;
     code := MEDIA_BUS_FMT_SGBRG14_1X14; depth := 14; csi_dt := 0x2d;
     check_variants := 0 |};
  {| fourcc := V4L2_PIX_FMT_SGRBG14P; repacked_fourcc := 0;
     code := MEDIA_BUS_FMT_SGRBG14_1X14; depth := 14; csi_dt := 0x2d;
     check_variants := 0 |};
  {| fourcc := V4L2_PIX_FMT_SRGGB14P; repacked_fourcc := 0;
     code := MEDIA_BUS_FMT_SRGGB14_1X14; depth := 14; csi_dt := 0x2d;
     check_variants := 0 |};
  (* Greyscale formats *)
  {| fourcc := V4L2_PIX_FMT_GREY; repacked_fourcc := 0;
     code := MEDIA_BUS_FMT_Y8_1X8; depth := 8; csi_dt := 0x2a;
     check_variants := 0 |};
  {| fourcc := V4L2_PIX_FMT_Y10P; repacked_fourcc := V4L2_PIX_FMT_Y10;
     code := MEDIA_BUS_FMT_Y10_1X10; depth := 10; csi_dt := 0x2b;
     check_variants := 0 |};
  (* NB There is no packed V4L2 fourcc for this format. *)
  {| fourcc := 0; repacked_fourcc := V4L2_PIX_FMT_Y12;
     code := MEDIA_BUS_FMT_Y12_1X12; depth := 12; csi_dt := 0x2c;
     check_variants := 0 |}
].

(** ** Format setup functions *)

(** The loop of [find_format_by_code], over the entries not yet visited. *)
Fixpoint find_format_by_code_from (tbl : list unicam_fmt) (c : Z)
  : option unicam_fmt :=
  match tbl with
  | [] => None
  | f :: rest =>
      if code f =? c then Some f else find_format_by_code_from rest c
  end.

Definition find_format_by_code (c : Z) : option unicam_fmt :=
  find_format_by_code_from formats c.

(** The loop of [check_mbus_format]: [remaining] is
    [MAX_ENUM_MBUS_CODE - i], so [i < MAX_ENUM_MBUS_CODE] is
    [remaining <> 0]. *)
Fixpoint check_mbus_format_from (sd : v4l2_subdev) (format : unicam_fmt)
    (remaining : nat) (ret i : Z) : Z :=
  match remaining with
  | O => 0
  | S remaining' =>
      if negb (ret =? 0) then 0
      else
        let '(ret', mbus_code) := enum_mbus_code sd (u32 i) in
        if (ret' =? 0) && (mbus_code =? code format) then 1
        else check_mbus_format_from sd format remaining' ret' (i + 1)
  end.

Definition check_mbus_format (dev : unicam_device) (format : unicam_fmt) : Z :=
  check_mbus_format_from (sensor dev) format
    (Z.to_nat MAX_ENUM_MBUS_CODE) 0 0.

(** The loop of [find_format_by_pix], over the entries not yet visited. *)
Fixpoint find_format_by_pix_from (tbl : list unicam_fmt)
    (dev : unicam_device) (pix : Z) : option unicam_fmt :=
  match tbl with
  | [] => None
  | f :: rest =>
      if (fourcc f =? pix) || (repacked_fourcc f =? pix) then
        if negb (check_variants f =? 0)
           && (check_mbus_format dev f =? 0)
        then find_format_by_pix_from rest dev pix
        else Some f
      else find_format_by_pix_from rest dev pix
  end.

Definition find_format_by_pix (dev : unicam_device) (pix : Z)
  : option unicam_fmt :=
  find_format_by_pix_from formats dev pix.

Definition bytes_per_line (w : Z) (f : unicam_fmt) (v4l2_fourcc : Z) : Z :=
  if v4l2_fourcc =? repacked_fourcc f then
    (* Repacking always goes to 16bpp *)
    ALIGN (u32 (Z.shiftl w 1)) BPL_ALIGNMENT
  else
    ALIGN (Z.shiftr (u32 (w * depth f)) 3) BPL_ALIGNMENT.

Definition unicam_calc_format_size_bpl (f : unicam_fmt) (pix : v4l2_pix_format)
  : v4l2_pix_format :=
  let '(w, h) :=
    v4l_bound_align_image (width pix) MIN_WIDTH MAX_WIDTH 2
                          (height pix) MIN_HEIGHT MAX_HEIGHT 0 0 in
  let min_bytesperline := bytes_per_line w f (pixelformat pix) in
  let bpl :=
    if (min_bytesperline <? bytesperline pix)
       && (bytesperline pix <=? MAX_BYTESPERLINE)
    then ALIGN (bytesperline pix) BPL_ALIGNMENT
    else min_bytesperline in
  (* Align height up for compatibility with other hardware blocks *)
  {| width := w; height := h; pixelformat := pixelformat pix;
     bytesperline := bpl;
     sizeimage := u32 (ALIGN h HEIGHT_ALIGNMENT * bpl) |}.

(** The loop of [get_first_supported_format].  It has no bound in the
    source, so the model takes [fuel]: [None] is fuel exhausted,
    [Some r] is the pointer returned ([Some None] for NULL).  [ret] is
    the value of the variable when the loop condition is evaluated; [j] is
    an [int] and [mbus_code.index] a [u32]. *)
Fixpoint get_first_supported_format_from (sd : v4l2_subdev) (fuel : nat)
    (ret j : Z) : option (option unicam_fmt) :=
  match fuel with
  | O => None
  | S fuel' =>
      if negb (ret =? - EINVAL) && negb (ret =? - ENOIOCTLCMD) then
        let '(ret', mbus_code) := enum_mbus_code sd (u32 j) in
        if ret' <? 0 then
          get_first_supported_format_from sd fuel' ret' (s32 (j + 1))
        else
          match find_format_by_code mbus_code with
          | Some f => Some (Some f)
          | None =>
              get_first_supported_format_from sd fuel' ret' (s32 (j + 1))
          end
      else Some None
  end.

(** [ret] is declared without initialiser and read by the first test of
    the loop condition: [ret0] is the value that read yields. *)
Definition get_first_supported_format (dev : unicam_device) (ret0 : Z)
    (fuel : nat) : option (option unicam_fmt) :=
  get_first_supported_format_from (sensor dev) fuel ret0 0.

(** ** Sequencing of calls that may fault *)

Definition bind {A B : Type} (m : option A) (k : A -> option B) : option B :=
  match m with
  | Some a => k a
  | None => None
  end.

Notation "x <- m ;; k" := (bind m (fun x => k))
  (at level 61, m at next level, right associativity).

(** Equality of two [struct unicam_buffer *]. *)
Definition ptr_eqb (a b : option bufptr) : bool :=
  match a, b with
  | None, None => true
  | Some x, Some y => Nat.eqb x y
  | _, _ => false
  end.

(** ** Hardware access *)

Definition reg_read (dev : unicam_cfg) (offset : unicam_reg) : Z :=
  base dev offset.

Definition reg_write (dev : unicam_cfg) (offset : unicam_reg) (val : Z)
  : unicam_cfg :=
  {| base := fun r => if unicam_reg_eq_dec r offset then u32 val
                      else base dev r;
     clk_gate_base := clk_gate_base dev |}.

Definition clk_write (dev : unicam_cfg) (val : Z) : unicam_cfg :=
  {| base := base dev;
     clk_gate_base := u32 (Z.lor val 0x5a000000) |}.

Definition reg_write_field (dev : unicam_cfg) (offset : unicam_reg)
    (field mask : Z) : unicam_cfg :=
  let val := reg_read dev offset in
  reg_write dev offset (set_field val field mask).

(** ** Buffers *)

Definition vb2_buffer_done (dev : unicam_device) (buf : bufptr)
    (state : vb2_buffer_state) : unicam_device :=
  set_done (done dev ++ [{| c_buf := buf; c_state := state;
                            c_vb := bufs dev buf |}]) dev.

Definition store_buf (dev : unicam_device) (buf : bufptr)
    (vb : vb2_v4l2_buffer) : unicam_device :=
  set_bufs (fun p => if Nat.eqb p buf then vb else bufs dev p) dev.

Definition unicam_buffer_queue (dev : unicam_device) (buf : bufptr)
  : unicam_device :=
  set_dma_queue (dma_queue dev ++ [buf]) dev.

Definition unicam_wr_dma_addr (dev : unicam_device) (dmaaddr : Z)
  : unicam_device :=
  let dmaaddr := u32 dmaaddr in
  let c := reg_write (cfg dev) UNICAM_IBSA0 dmaaddr in
  let c := reg_write c UNICAM_IBEA0 (dmaaddr + sizeimage (v_fmt dev)) in
  set_cfg c dev.

(** [list_entry(dma_q->active.next, ...)] of an empty list is the list
    head itself, not a buffer: the fault. *)
Definition unicam_schedule_next_buffer (dev : unicam_device)
  : option unicam_device :=
  match dma_queue dev with
  | [] => None
  | buf :: rest =>
      let dev := set_next_frm (Some buf) dev in
      let dev := set_dma_queue rest dev in
      let addr := plane_dma_addr (bufs dev buf) in
      Some (unicam_wr_dma_addr dev addr)
  end.

Definition unicam_process_buffer_complete (dev : unicam_device)
  : option unicam_device :=
  match cur_frm dev with
  | None => None
  | Some cur =>
      let vb := bufs dev cur in
      let dev := store_buf dev cur
                   {| vb_field := m_fmt_field dev;
                      vb_sequence := sequence dev;
                      vb_timestamp := vb_timestamp vb;
                      plane_dma_addr := plane_dma_addr vb |} in
      let dev := set_sequence (u32 (sequence dev + 1)) dev in
      let dev := vb2_buffer_done dev cur VB2_BUF_STATE_DONE in
      Some (set_cur_frm (next_frm dev) dev)
  end.

(** ** The interrupt handler *)

Inductive irqreturn_t : Type := IRQ_NONE | IRQ_HANDLED | IRQ_WAKE_THREAD.

(** The values the handler reads into [int sta] and [int ista]. *)
Definition isr_sta (dev : unicam_device) : Z :=
  s32 (reg_read (cfg dev) UNICAM_STA).
Definition isr_ista (dev : unicam_device) : Z :=
  s32 (reg_read (cfg dev) UNICAM_ISTA).

(** [sta && (UNICAM_IS | UNICAM_PI0)]: the logical conjunction of the
    source. *)
Definition isr_serviced (dev : unicam_device) : bool :=
  negb (isr_sta dev =? 0) && negb (Z.lor UNICAM_IS UNICAM_PI0 =? 0).

(** [ista & UNICAM_FSI]. *)
Definition isr_frame_start (dev : unicam_device) : bool :=
  negb (Z.land (isr_ista dev) UNICAM_FSI =? 0).

(** [ista & UNICAM_FEI || sta & UNICAM_PI0]. *)
Definition isr_frame_end (dev : unicam_device) : bool :=
  negb (Z.land (isr_ista dev) UNICAM_FEI =? 0)
  || negb (Z.land (isr_sta dev) UNICAM_PI0 =? 0).

(** [ista & (UNICAM_FSI | UNICAM_LCI)]. *)
Definition isr_schedule (dev : unicam_device) : bool :=
  negb (Z.land (isr_ista dev) (Z.lor UNICAM_FSI UNICAM_LCI) =? 0).

(** The block under [if (ista & UNICAM_FSI)]: the timestamp of the buffer
    being filled; [now] is the value of [ktime_get_ns()]. *)
Definition isr_timestamp (dev : unicam_device) (now : Z) : unicam_device :=
  match cur_frm dev with
  | Some cur =>
      let vb := bufs dev cur in
      store_buf dev cur
        {| vb_field := vb_field vb; vb_sequence := vb_sequence vb;
           vb_timestamp := now; plane_dma_addr := plane_dma_addr vb |}
  | None => dev
  end.

(** The block under [if (ista & UNICAM_FEI || sta & UNICAM_PI0)]. *)
Definition isr_complete (dev : unicam_device) : option unicam_device :=
  match cur_frm dev with
  | Some _ =>
      if negb (ptr_eqb (cur_frm dev) (next_frm dev))
      then unicam_process_buffer_complete dev
      else Some dev
  | None => Some dev
  end.

(** The block under [if (ista & (UNICAM_FSI | UNICAM_LCI))]. *)
Definition isr_next_buffer (dev : unicam_device) : option unicam_device :=
  match dma_queue dev with
  | _ :: _ =>
      if ptr_eqb (cur_frm dev) (next_frm dev)
      then unicam_schedule_next_buffer dev
      else Some dev
  | [] => Some dev
  end.

(** The block under [if (reg_read(..., UNICAM_ICTL) & UNICAM_FCM)]. *)
Definition isr_leave_trigger_mode (dev : unicam_device) : unicam_device :=
  if negb (Z.land (reg_read (cfg dev) UNICAM_ICTL) UNICAM_FCM =? 0) then
    (* Switch out of trigger mode if selected *)
    let c := reg_write_field (cfg dev) UNICAM_ICTL 1 UNICAM_TFC in
    let c := reg_write_field c UNICAM_ICTL 0 UNICAM_FCM in
    set_cfg c dev
  else dev.

(** [unicam_isr]. *)
Definition unicam_isr (dev0 : unicam_device) (now : Z)
  : option (irqreturn_t * unicam_device) :=
  (* Don't service interrupts if not streaming. *)
  if streaming dev0 =? 0 then Some (IRQ_HANDLED, dev0)
  else
    let sta := isr_sta dev0 in
    let ista := isr_ista dev0 in
    (* Write value back to clear the interrupts *)
    let c := reg_write (cfg dev0) UNICAM_STA sta in
    let c := reg_write c UNICAM_ISTA ista in
    let dev := set_cfg c dev0 in
    if negb (isr_serviced dev0) then Some (IRQ_HANDLED, dev)
    else
      let dev := if isr_frame_start dev0 then isr_timestamp dev now else dev in
      dev <- (if isr_frame_end dev0 then isr_complete dev else Some dev) ;;
      dev <- (if isr_schedule dev0 then isr_next_buffer dev else Some dev) ;;
      Some (IRQ_HANDLED, isr_leave_trigger_mode dev).

(** ** Receiver start and stop *)

Definition unicam_wr_dma_config (dev : unicam_device) (stride : Z)
  : unicam_device :=
  set_cfg (reg_write (cfg dev) UNICAM_IBLS stride) dev.

Definition unicam_set_packing_config (dev : unicam_device) : unicam_device :=
  let unpack_pack :=
    if pixelformat (v_fmt dev) =? fourcc (fmt dev) then
      (UNICAM_PUM_NONE, UNICAM_PPM_NONE)
    else
      let unpack :=
        if depth (fmt dev) =? 8 then UNICAM_PUM_UNPACK8
        else if depth (fmt dev) =? 10 then UNICAM_PUM_UNPACK10
        else if depth (fmt dev) =? 12 then UNICAM_PUM_UNPACK12
        else if depth (fmt dev) =? 14 then UNICAM_PUM_UNPACK14
        else if depth (fmt dev) =? 16 then UNICAM_PUM_UNPACK16
        else UNICAM_PUM_NONE in
      (* Repacking is always to 16bpp *)
      (unpack, UNICAM_PPM_PACK16) in
  let val := 0 in
  let val := set_field val 2 UNICAM_DEBL_MASK in
  let val := set_field val (fst unpack_pack) UNICAM_PUM_MASK in
  let val := set_field val (snd unpack_pack) UNICAM_PPM_MASK in
  set_cfg (reg_write (cfg dev) UNICAM_IPIPE val) dev.

Definition is_csi2 (dev : unicam_device) : bool :=
  match bus_type dev with
  | V4L2_MBUS_CSI2_DPHY => true
  | _ => false
  end.

Definition unicam_cfg_image_id (dev : unicam_device) : unicam_device :=
  let c := cfg dev in
  set_cfg
    (if is_csi2 dev then
       (* CSI2 mode *)
       reg_write c UNICAM_IDI0
         (Z.lor (u32 (Z.shiftl (virtual_channel dev) 6)) (csi_dt (fmt dev)))
     else
       (* CCP2 mode *)
       reg_write c UNICAM_IDI0 (Z.lor 0x80 (csi_dt (fmt dev))))
    dev.

(** The loop [for (i = 0; i < dev->active_data_lanes; i++) val = val << 2 | 1]. *)
Fixpoint lane_clock_bits (lanes : nat) (val : Z) : Z :=
  match lanes with
  | O => val
  | S lanes' => lane_clock_bits lanes' (u32 (Z.lor (Z.shiftl val 2) 1))
  end.

Definition unicam_start_rx (dev : unicam_device) (addr : Z) : unicam_device :=
  let c := cfg dev in
  let line_int_freq := s32 (Z.shiftr (height (v_fmt dev)) 2) in
  let line_int_freq := if line_int_freq <? 128 then 128 else line_int_freq in
  (* Enable lane clocks *)
  let val := lane_clock_bits (Z.to_nat (active_data_lanes dev)) 1 in
  let c := clk_write c val in
  (* Basic init *)
  let c := reg_write c UNICAM_CTRL UNICAM_MEM in
  (* Enable analogue control, and leave in reset. *)
  let val := UNICAM_AR in
  let val := set_field val 7 UNICAM_CTATADJ_MASK in
  let val := set_field val 7 UNICAM_PTATADJ_MASK in
  let c := reg_write c UNICAM_ANA val in
  (* Come out of reset *)
  let c := reg_write_field c UNICAM_ANA 0 UNICAM_AR in
  (* Peripheral reset *)
  let c := reg_write_field c UNICAM_CTRL 1 UNICAM_CPR in
  let c := reg_write_field c UNICAM_CTRL 0 UNICAM_CPR in
  let c := reg_write_field c UNICAM_CTRL 0 UNICAM_CPE in
  (* Enable Rx control. *)
  let val := reg_read c UNICAM_CTRL in
  let val :=
    if is_csi2 dev then
      set_field (set_field val UNICAM_CPM_CSI2 UNICAM_CPM_MASK)
                UNICAM_DCM_STROBE UNICAM_DCM_MASK
    else
      set_field (set_field val UNICAM_CPM_CCP2 UNICAM_CPM_MASK)
                (bus_flags dev) UNICAM_DCM_MASK in
  (* Packet framer timeout *)
  let val := set_field val 0xf UNICAM_PFT_MASK in
  let val := set_field val 128 UNICAM_OET_MASK in
  let c := reg_write c UNICAM_CTRL val in
  let c := reg_write c UNICAM_IHWIN 0 in
  let c := reg_write c UNICAM_IVWIN 0 in
  (* AXI bus access QoS setup *)
  let val := reg_read c UNICAM_PRI in
  let val := set_field val 0 UNICAM_BL_MASK in
  let val := set_field val 0 UNICAM_BS_MASK in
  let val := set_field val 0xe UNICAM_PP_MASK in
  let val := set_field val 8 UNICAM_NP_MASK in
  let val := set_field val 2 UNICAM_PT_MASK in
  let val := set_field val 1 UNICAM_PE in
  let c := reg_write c UNICAM_PRI val in
  let c := reg_write_field c UNICAM_ANA 0 UNICAM_DDL in
  (* Always start in trigger frame capture mode (UNICAM_FCM set) *)
  let val := Z.lor (Z.lor UNICAM_FSIE UNICAM_FEIE) UNICAM_FCM in
  let val := set_field val line_int_freq UNICAM_LCIE_MASK in
  let c := reg_write c UNICAM_ICTL val in
  let c := reg_write c UNICAM_STA UNICAM_STA_MASK_ALL in
  let c := reg_write c UNICAM_ISTA UNICAM_ISTA_MASK_ALL in
  (* tclk_term_en, tclk_settle, td_term_en, ths_settle, trx_enable *)
  let c := reg_write_field c UNICAM_CLT 2 UNICAM_CLT1_MASK in
  let c := reg_write_field c UNICAM_CLT 6 UNICAM_CLT2_MASK in
  let c := reg_write_field c UNICAM_DLT 2 UNICAM_DLT1_MASK in
  let c := reg_write_field c UNICAM_DLT 6 UNICAM_DLT2_MASK in
  let c := reg_write_field c UNICAM_DLT 0 UNICAM_DLT3_MASK in
  let c := reg_write_field c UNICAM_CTRL 0 UNICAM_SOE in
  (* Packet compare setup - required to avoid missing frame ends *)
  let val := 0 in
  let val := set_field val 1 UNICAM_PCE in
  let val := set_field val 1 UNICAM_GI in
  let val := set_field val 1 UNICAM_CPH in
  let val := set_field val 0 UNICAM_PCVC_MASK in
  let val := set_field val 1 UNICAM_PCDT_MASK in
  let c := reg_write c UNICAM_CMP0 val in
  (* Enable clock lane and set up terminations *)
  let val := 0 in
  let val :=
    if is_csi2 dev then
      (* CSI2 *)
      let val := set_field val 1 UNICAM_CLE in
      let val := set_field val 1 UNICAM_CLLPE in
      if negb (Z.land (bus_flags dev) V4L2_MBUS_CSI2_CONTINUOUS_CLOCK =? 0)
      then set_field (set_field val 1 UNICAM_CLTRE) 1 UNICAM_CLHSE
      else val
    else
      (* CCP2 *)
      let val := set_field val 1 UNICAM_CLE in
      let val := set_field val 1 UNICAM_CLHSE in
      set_field val 1 UNICAM_CLTRE in
  let c := reg_write c UNICAM_CLK val in
  (* Enable required data lanes with appropriate terminations. *)
  let val := 0 in
  let val :=
    if is_csi2 dev then
      (* CSI2 *)
      let val := set_field val 1 UNICAM_DLE in
      let val := set_field val 1 UNICAM_DLLPE in
      if negb (Z.land (bus_flags dev) V4L2_MBUS_CSI2_CONTINUOUS_CLOCK =? 0)
      then set_field (set_field val 1 UNICAM_DLTRE) 1 UNICAM_DLHSE
      else val
    else
      (* CCP2 *)
      let val := set_field val 1 UNICAM_DLE in
      let val := set_field val 1 UNICAM_DLHSE in
      set_field val 1 UNICAM_DLTRE in
  let c := reg_write c UNICAM_DAT0 val in
  let val := if active_data_lanes dev =? 1 then 0 else val in
  let c := reg_write c UNICAM_DAT1 val in
  let c :=
    if 2 <? max_data_lanes dev then
      (* Registers UNICAM_DAT2 and UNICAM_DAT3 only valid if the
         instance supports more than 2 data lanes. *)
      let val := if active_data_lanes dev =? 2 then 0 else val in
      let c := reg_write c UNICAM_DAT2 val in
      let val := if active_data_lanes dev =? 3 then 0 else val in
      reg_write c UNICAM_DAT3 val
    else c in
  let dev := set_cfg c dev in
  let dev := unicam_wr_dma_config dev (bytesperline (v_fmt dev)) in
  let dev := unicam_wr_dma_addr dev addr in
  let dev := unicam_set_packing_config dev in
  let dev := unicam_cfg_image_id dev in
  let c := cfg dev in
  (* Disabled embedded data *)
  let c := reg_write c UNICAM_DCS (set_field 0 0 UNICAM_EDL_MASK) in
  let val := reg_read c UNICAM_MISC in
  let val := set_field val 1 UNICAM_FL0 in
  let val := set_field val 1 UNICAM_FL1 in
  let c := reg_write c UNICAM_MISC val in
  (* Enable peripheral *)
  let c := reg_write_field c UNICAM_CTRL 1 UNICAM_CPE in
  (* Load image pointers *)
  let c := reg_write_field c UNICAM_ICTL 1 UNICAM_LIP_MASK in
  (* Enable trigger only for the first frame *)
  let c := reg_write_field c UNICAM_ICTL 1 UNICAM_TFC in
  set_cfg c dev.

Definition unicam_disable (dev : unicam_device) : unicam_device :=
  let c := cfg dev in
  (* Analogue lane control disable *)
  let c := reg_write_field c UNICAM_ANA 1 UNICAM_DDL in
  (* Stop the output engine *)
  let c := reg_write_field c UNICAM_CTRL 1 UNICAM_SOE in
  (* Disable the data lanes. *)
  let c := reg_write c UNICAM_DAT0 0 in
  let c := reg_write c UNICAM_DAT1 0 in
  let c :=
    if 2 <? max_data_lanes dev then
      reg_write (reg_write c UNICAM_DAT2 0) UNICAM_DAT3 0
    else c in
  (* Peripheral reset *)
  let c := reg_write_field c UNICAM_CTRL 1 UNICAM_CPR in
  let c := reg_write_field c UNICAM_CTRL 0 UNICAM_CPR in
  (* Disable peripheral *)
  let c := reg_write_field c UNICAM_CTRL 0 UNICAM_CPE in
  (* Disable all lane clocks *)
  let c := clk_write c 0 in
  set_cfg c dev.

(** ** Stream start and stop *)

Definition unicam_runtime_get (dev : unicam_device) : Z * unicam_device :=
  (pm_runtime_get_sync (platform dev), set_pm_usage (pm_usage dev + 1) dev).

Definition unicam_runtime_put (dev : unicam_device) : unicam_device :=
  set_pm_usage (pm_usage dev - 1) dev.

Definition clk_disable_unprepare (dev : unicam_device) : unicam_device :=
  set_clk_enabled (clk_enabled dev - 1) dev.

(** [list_for_each_entry_safe] over [dma_q->active] with [list_del] and
    [vb2_buffer_done] in its body. *)
Fixpoint release_queue (q : list bufptr) (state : vb2_buffer_state)
    (dev : unicam_device) : unicam_device :=
  match q with
  | [] => dev
  | buf :: rest =>
      let dev := set_dma_queue rest dev in
      let dev := vb2_buffer_done dev buf state in
      release_queue rest state dev
  end.

(** The code from the label [err_release_buffers] on. *)
Definition err_release_buffers (dev : unicam_device) (ret : Z)
  : option (Z * unicam_device) :=
  let dev := release_queue (dma_queue dev) VB2_BUF_STATE_QUEUED dev in
  match cur_frm dev, next_frm dev with
  | Some cur, Some next =>
      let dev :=
        if negb (ptr_eqb (cur_frm dev) (next_frm dev))
        then vb2_buffer_done dev next VB2_BUF_STATE_QUEUED
        else dev in
      let dev := vb2_buffer_done dev cur VB2_BUF_STATE_QUEUED in
      let dev := set_next_frm None dev in
      let dev := set_cur_frm None dev in
      Some (ret, dev)
  | _, _ => None
  end.

(** The code from the label [err_pm_put] on. *)
Definition err_pm_put (dev : unicam_device) (ret : Z)
  : option (Z * unicam_device) :=
  err_release_buffers (unicam_runtime_put dev) ret.

(** The code from the label [err_disable_unicam] on. *)
Definition err_disable_unicam (dev : unicam_device) (ret : Z)
  : option (Z * unicam_device) :=
  let dev := unicam_disable dev in
  let dev := clk_disable_unprepare dev in
  err_pm_put dev ret.

(** The block of [unicam_start_streaming] that settles
    [active_data_lanes]; the first component is [ret], negative when
    [g_mbus_config] failed. *)
Definition start_streaming_lanes (dev : unicam_device) : Z * unicam_device :=
  let dev := set_active_data_lanes (max_data_lanes dev) dev in
  if is_csi2 dev && has_g_mbus_config (sensor dev) then
    let ret := fst (g_mbus_config (sensor dev)) in
    let flags := snd (g_mbus_config (sensor dev)) in
    if ret <? 0 then (ret, dev)
    else
      let lanes :=
        Z.shiftr (Z.land flags V4L2_MBUS_CSI2_LANE_MASK)
                 (__ffs V4L2_MBUS_CSI2_LANE_MASK) in
      let dev := set_active_data_lanes lanes dev in
      (ret, if active_data_lanes dev =? 0
            then set_active_data_lanes (max_data_lanes dev) dev
            else dev)
  else (0, dev).

(** [list_entry(&dma_q->active, struct unicam_buffer, list)]: the list
    head taken for an entry.  This is what
    [list_entry(dma_q->active.next, ...)] yields on an empty list, whose
    head points to itself.  It is no buffer of the consumer: those are
    named from 1. *)
Definition active_head_entry : bufptr := O.

(** [unicam_start_streaming].  The function makes no test for an empty
    list: [buf] is the first entry, or [active_head_entry] when there is
    none, and [list_del] then unlinks nothing.  (The handler, by
    contrast, calls [unicam_schedule_next_buffer] only after
    [list_empty] has answered no.) *)
Definition unicam_start_streaming (dev : unicam_device)
  : option (Z * unicam_device) :=
  let buf := hd active_head_entry (dma_queue dev) in
  let rest := tl (dma_queue dev) in
  let dev := set_cur_frm (Some buf) dev in
  let dev := set_next_frm (Some buf) dev in
  let dev := set_dma_queue rest dev in
  let addr := plane_dma_addr (bufs dev buf) in
  let dev := set_sequence 0 dev in
  let ret := fst (unicam_runtime_get dev) in
  let dev := snd (unicam_runtime_get dev) in
  if ret <? 0 then err_release_buffers dev ret
  else
    let ret := fst (start_streaming_lanes dev) in
    let dev := snd (start_streaming_lanes dev) in
    if ret <? 0 then err_pm_put dev ret
    else if max_data_lanes dev <? active_data_lanes dev then
      err_pm_put dev (- EINVAL)
    else
      let ret := clk_set_rate (platform dev) (100 * 1000 * 1000) in
      if negb (ret =? 0) then err_pm_put dev ret
      else
        let ret := clk_prepare_enable (platform dev) in
        if negb (ret =? 0) then err_pm_put dev ret
        else
          let dev := set_clk_enabled (clk_enabled dev + 1) dev in
          let dev := set_streaming 1 dev in
          let dev := unicam_start_rx dev addr in
          let ret := s_stream (sensor dev) 1 in
          if ret <? 0 then err_disable_unicam dev ret
          else Some (0, dev).

(** [unicam_stop_streaming]; a failure of the source's stream-off is
    logged and nothing else. *)
Definition unicam_stop_streaming (dev : unicam_device) : option unicam_device :=
  let dev := unicam_disable dev in
  (* Release all active buffers *)
  let dev := release_queue (dma_queue dev) VB2_BUF_STATE_ERROR dev in
  match cur_frm dev, next_frm dev with
  | Some cur, Some next =>
      let dev :=
        if ptr_eqb (cur_frm dev) (next_frm dev) then
          vb2_buffer_done dev cur VB2_BUF_STATE_ERROR
        else
          let dev := vb2_buffer_done dev cur VB2_BUF_STATE_ERROR in
          vb2_buffer_done dev next VB2_BUF_STATE_ERROR in
      let dev := set_cur_frm None dev in
      let dev := set_next_frm None dev in
      let dev := clk_disable_unprepare dev in
      Some (unicam_runtime_put dev)
  | _, _ => None
  end.

(** ** Runs of the scheduler *)

(** What happens to a streaming device: the consumer queues a buffer, or
    the receiver raises its interrupt with the given status words. *)
Inductive event : Type :=
| EvQueue (buf : bufptr)
| EvIrq (sta ista now : Z).

(** The receiver latches its status words and raises the interrupt. *)
Definition raise_irq (dev : unicam_device) (sta ista : Z) : unicam_device :=
  set_cfg (reg_write (reg_write (cfg dev) UNICAM_STA sta) UNICAM_ISTA ista)
          dev.

Definition step (dev : unicam_device) (e : event) : option unicam_device :=
  match e with
  | EvQueue buf => Some (unicam_buffer_queue dev buf)
  | EvIrq sta ista now =>
      r <- unicam_isr (raise_irq dev sta ista) now ;;
      Some (snd r)
  end.

Fixpoint run (dev : unicam_device) (es : list event) : option unicam_device :=
  match es with
  | [] => Some dev
  | e :: es' => dev' <- step dev e ;; run dev' es'
  end.

(** A frame is dropped when the handler services a frame end while both
    slots hold the same buffer. *)
Definition frame_dropped (dev : unicam_device) : bool :=
  negb (streaming dev =? 0) && isr_serviced dev && isr_frame_end dev
  && ptr_eqb (cur_frm dev) (next_frm dev).

(** The frames dropped over a run. *)
Fixpoint drops (dev : unicam_device) (es : list event) : nat :=
  match es with
  | [] => O
  | e :: es' =>
      let here :=
        match e with
        | EvIrq sta ista _ =>
            if frame_dropped (raise_irq dev sta ista) then 1%nat else O
        | EvQueue _ => O
        end in
      match step dev e with
      | Some dev' => (here + drops dev' es')%nat
      | None => here
      end
  end.

End Driver.

(** ** A concrete set of header values

    The values the kernel headers give the constants, used where a
    statement is evaluated on concrete inputs. *)

(** [v4l2_fourcc(a, b, c, d)] of [videodev2.h]. *)
Definition v4l2_fourcc (a b c d : ascii) : Z :=
  Z.lor (Z.lor (Z.of_N (N_of_ascii a)) (Z.shiftl (Z.of_N (N_of_ascii b)) 8))
        (Z.lor (Z.shiftl (Z.of_N (N_of_ascii c)) 16)
               (Z.shiftl (Z.of_N (N_of_ascii d)) 24)).

Definition BIT (n : Z) : Z := Z.shiftl 1 n.

(** [GENMASK(h, l)]: the bits [l] to [h], both included. *)
Definition GENMASK (h l : Z) : Z := Z.shiftl (Z.ones (h - l + 1)) l.

Definition linux_uapi : Uapi := {|
  EINVAL := 22;
  ENOIOCTLCMD := 515;
  V4L2_MBUS_CSI2_LANE_MASK := 0xf;
  V4L2_MBUS_CSI2_CONTINUOUS_CLOCK := BIT 8;
  V4L2_PIX_FMT_YUYV := v4l2_fourcc "Y"%char "U"%char "Y"%char "V"%char;
  V4L2_PIX_FMT_UYVY := v4l2_fourcc "U"%char "Y"%char "V"%char "Y"%char;
  V4L2_PIX_FMT_YVYU := v4l2_fourcc "Y"%char "V"%char "Y"%char "U"%char;
  V4L2_PIX_FMT_VYUY := v4l2_fourcc "V"%char "Y"%char "U"%char "Y"%char;
  V4L2_PIX_FMT_RGB565 := v4l2_fourcc "R"%char "G"%char "B"%char "P"%char;
  V4L2_PIX_FMT_RGB565X := v4l2_fourcc "R"%char "G"%char "B"%char "R"%char;
  V4L2_PIX_FMT_RGB555 := v4l2_fourcc "R"%char "G"%char "B"%char "O"%char;
  V4L2_PIX_FMT_RGB555X := v4l2_fourcc "R"%char "G"%char "B"%char "Q"%char;
  V4L2_PIX_FMT_RGB24 := v4l2_fourcc "R"%char "G"%char "B"%char "3"%char;
  V4L2_PIX_FMT_BGR24 := v4l2_fourcc "B"%char "G"%char "R"%char "3"%char;
  V4L2_PIX_FMT_RGB32 := v4l2_fourcc "R"%char "G"%char "B"%char "4"%char;
  V4L2_PIX_FMT_SBGGR8 := v4l2_fourcc "B"%char "A"%char "8"%char "1"%char;
  V4L2_PIX_FMT_SGBRG8 := v4l2_fourcc "G"%char "B"%char "R"%char "G"%char;
  V4L2_PIX_FMT_SGRBG8 := v4l2_fourcc "G"%char "R"%char "B"%char "G"%char;
  V4L2_PIX_FMT_SRGGB8 := v4l2_fourcc "R"%char "G"%char "G"%char "B"%char;
  V4L2_PIX_FMT_SBGGR10P := v4l2_fourcc "p"%char "B"%char "A"%char "A"%char;
  V4L2_PIX_FMT_SGBRG10P := v4l2_fourcc "p"%char "G"%char "A"%char "A"%char;
  V4L2_PIX_FMT_SGRBG10P := v4l2_fourcc "p"%char "g"%char "A"%char "A"%char;
  V4L2_PIX_FMT_SRGGB10P := v4l2_fourcc "p"%char "R"%char "A"%char "A"%char;
  V4L2_PIX_FMT_SBGGR10 := v4l2_fourcc "B"%char "G"%char "1"%char "0"%char;
  V4L2_PIX_FMT_SGBRG10 := v4l2_fourcc "G"%char "B"%char "1"%char "0"%char;
  V4L2_PIX_FMT_SGRBG10 := v4l2_fourcc "B"%char "A"%char "1"%char "0"%char;
  V4L2_PIX_FMT_SRGGB10 := v4l2_fourcc "R"%char "G"%char "1"%char "0"%char;
  V4L2_PIX_FMT_SBGGR12P := v4l2_fourcc "p"%char "B"%char "C"%char "C"%char;
  V4L2_PIX_FMT_SGBRG12P := v4l2_fourcc "p"%char "G"%char "C"%char "C"%char;
  V4L2_PIX_FMT_SGRBG12P := v4l2_fourcc "p"%char "g"%char "C"%char "C"%char;
  V4L2_PIX_FMT_SRGGB12P := v4l2_fourcc "p"%char "R"%char "C"%char "C"%char;
  V4L2_PIX_FMT_SBGGR12 := v4l2_fourcc "B"%char "G"%char "1"%char "2"%char;
  V4L2_PIX_FMT_SGBRG12 := v4l2_fourcc "G"%char "B"%char "1"%char "2"%char;
  V4L2_PIX_FMT_SGRBG12 := v4l2_fourcc "B"%char "A"%char "1"%char "2"%char;
  V4L2_PIX_FMT_SRGGB12 := v4l2_fourcc "R"%char "G"%char "1"%char "2"%char;
  V4L2_PIX_FMT_SBGGR14P := v4l2_fourcc "p"%char "B"%char "E"%char "E"%char;
  V4L2_PIX_FMT_SGBRG14P := v4l2_fourcc "p"%char "G"%char "E"%char "E"%char;
  V4L2_PIX_FMT_SGRBG14P := v4l2_fourcc "p"%char "g"%char "E"%char "E"%char;
  V4L2_PIX_FMT_SRGGB14P := v4l2_fourcc "p"%char "R"%char "E"%char "E"%char;
  V4L2_PIX_FMT_GREY := v4l2_fourcc "G"%char "R"%char "E"%char "Y"%char;
  V4L2_PIX_FMT_Y10P := v4l2_fourcc "Y"%char "1"%char "0"%char "P"%char;
  V4L2_PIX_FMT_Y10 := v4l2_fourcc "Y"%char "1"%char "0"%char " "%char;
  V4L2_PIX_FMT_Y12 := v4l2_fourcc "Y"%char "1"%char "2"%char " "%char;
  MEDIA_BUS_FMT_YUYV8_2X8 := 0x2008;
  MEDIA_BUS_FMT_UYVY8_2X8 := 0x2006;
  MEDIA_BUS_FMT_YVYU8_2X8 := 0x2009;
  MEDIA_BUS_FMT_VYUY8_2X8 := 0x2007;
  MEDIA_BUS_FMT_YUYV8_1X16 := 0x2011;
  MEDIA_BUS_FMT_UYVY8_1X16 := 0x200f;
  MEDIA_BUS_FMT_YVYU8_1X16 := 0x2012;
  MEDIA_BUS_FMT_VYUY8_1X16 := 0x2010;
  MEDIA_BUS_FMT_RGB565_2X8_LE := 0x1008;
  MEDIA_BUS_FMT_RGB565_2X8_BE := 0x1007;
  MEDIA_BUS_FMT_RGB555_2X8_PADHI_LE := 0x1004;
  MEDIA_BUS_FMT_RGB555_2X8_PADHI_BE := 0x1003;
  MEDIA_BUS_FMT_RGB888_1X24 := 0x100a;
  MEDIA_BUS_FMT_BGR888_1X24 := 0x1013;
  MEDIA_BUS_FMT_ARGB8888_1X32 := 0x100d;
  MEDIA_BUS_FMT_SBGGR8_1X8 := 0x3001;
  MEDIA_BUS_FMT_SGBRG8_1X8 := 0x3013;
  MEDIA_BUS_FMT_SGRBG8_1X8 := 0x3002;
  MEDIA_BUS_FMT_SRGGB8_1X8 := 0x3014;
  MEDIA_BUS_FMT_SBGGR10_1X10 := 0x3007;
  MEDIA_BUS_FMT_SGBRG10_1X10 := 0x300e;
  MEDIA_BUS_FMT_SGRBG10_1X10 := 0x300a;
  MEDIA_BUS_FMT_SRGGB10_1X10 := 0x300f;
  MEDIA_BUS_FMT_SBGGR12_1X12 := 0x3008;
  MEDIA_BUS_FMT_SGBRG12_1X12 := 0x3010;
  MEDIA_BUS_FMT_SGRBG12_1X12 := 0x3011;
  MEDIA_BUS_FMT_SRGGB12_1X12 := 0x3012;
  MEDIA_BUS_FMT_SBGGR14_1X14 := 0x3019;
  MEDIA_BUS_FMT_SGBRG14_1X14 := 0x301a;
  MEDIA_BUS_FMT_SGRBG14_1X14 := 0x301b;
  MEDIA_BUS_FMT_SRGGB14_1X14 := 0x301c;
  MEDIA_BUS_FMT_Y8_1X8 := 0x2001;
  MEDIA_BUS_FMT_Y10_1X10 := 0x200a;
  MEDIA_BUS_FMT_Y12_1X12 := 0x2013
|}.

Definition vc4_regs_unicam : Vc4Regs := {|
  UNICAM_CPE := BIT 0;
  UNICAM_MEM := BIT 1;
  UNICAM_CPR := BIT 2;
  UNICAM_CPM_MASK := GENMASK 3 3;
  UNICAM_CPM_CSI2 := 0;
  UNICAM_CPM_CCP2 := 1;
  UNICAM_SOE := BIT 4;
  UNICAM_DCM_MASK := GENMASK 5 5;
  UNICAM_DCM_STROBE := 0;
  UNICAM_PFT_MASK := GENMASK 11 8;
  UNICAM_OET_MASK := GENMASK 20 12;
  UNICAM_IS := BIT 14;
  UNICAM_PI0 := BIT 15;
  UNICAM_STA_MASK_ALL := BIT 12 + BIT 2 + BIT 3 + BIT 4 + BIT 5 + BIT 6 + BIT 7 + BIT 9 + BIT 10 + BIT 13 + BIT 15;
  UNICAM_AR := BIT 2;
  UNICAM_DDL := BIT 3;
  UNICAM_CTATADJ_MASK := GENMASK 7 4;
  UNICAM_PTATADJ_MASK := GENMASK 11 8;
  UNICAM_PE := BIT 0;
  UNICAM_PT_MASK := GENMASK 2 1;
  UNICAM_NP_MASK := GENMASK 7 4;
  UNICAM_PP_MASK := GENMASK 11 8;
  UNICAM_BS_MASK := GENMASK 15 12;
  UNICAM_BL_MASK := GENMASK 17 16;
  UNICAM_CLE := BIT 0;
  UNICAM_CLLPE := BIT 2;
  UNICAM_CLHSE := BIT 3;
  UNICAM_CLTRE := BIT 4;
  UNICAM_CLT1_MASK := GENMASK 7 0;
  UNICAM_CLT2_MASK := GENMASK 15 8;
  UNICAM_DLE := BIT 0;
  UNICAM_DLLPE := BIT 2;
  UNICAM_DLHSE := BIT 3;
  UNICAM_DLTRE := BIT 4;
  UNICAM_DLT1_MASK := GENMASK 7 0;
  UNICAM_DLT2_MASK := GENMASK 15 8;
  UNICAM_DLT3_MASK := GENMASK 23 16;
  UNICAM_PCE := BIT 31;
  UNICAM_GI := BIT 9;
  UNICAM_CPH := BIT 8;
  UNICAM_PCVC_MASK := GENMASK 7 6;
  UNICAM_PCDT_MASK := GENMASK 5 0;
  UNICAM_FSIE := BIT 0;
  UNICAM_FEIE := BIT 1;
  UNICAM_FCM := BIT 3;
  UNICAM_TFC := BIT 4;
  UNICAM_LIP_MASK := GENMASK 6 5;
  UNICAM_LCIE_MASK := GENMASK 28 16;
  UNICAM_FSI := BIT 0;
  UNICAM_FEI := BIT 1;
  UNICAM_LCI := BIT 2;
  UNICAM_ISTA_MASK_ALL := BIT 0 + BIT 1 + BIT 2;
  UNICAM_PUM_MASK := GENMASK 2 0;
  UNICAM_PUM_NONE := 0;
  UNICAM_PUM_UNPACK8 := 3;
  UNICAM_PUM_UNPACK10 := 4;
  UNICAM_PUM_UNPACK12 := 5;
  UNICAM_PUM_UNPACK14 := 6;
  UNICAM_PUM_UNPACK16 := 7;
  UNICAM_PPM_MASK := GENMASK 9 7;
  UNICAM_PPM_NONE := 0;
  UNICAM_PPM_PACK16 := 5;
  UNICAM_DEBL_MASK := GENMASK 14 12;
  UNICAM_EDL_MASK := GENMASK 15 8;
  UNICAM_FL0 := BIT 6;
  UNICAM_FL1 := BIT 9
|}.

Definition clamp (x lo hi : Z) : Z := Z.min (Z.max x lo) hi.

(** Modelled from the spec: [v4l_bound_align_image] belongs to the V4L2
    core, whose source is not at hand.  The spec has it clamp width and
    height to the declared bounds and round the width to an even
    boundary. *)
Definition spec_bound_align_image
    (w wmin wmax walign h hmin hmax halign salign : Z) : Z * Z :=
  (2 * (clamp w wmin wmax / 2), clamp h hmin hmax).

Definition spec_core : MediaCore :=
  {| v4l_bound_align_image := spec_bound_align_image |}.

(** * Statements taken from the specification

    Where the driver departs from a sentence of its specification, the
    sentence is written down here as it stands, to be compared with what
    the driver does. *)

Section Specified.

Context {uapi : Uapi} {regs : Vc4Regs} {core : MediaCore}.

(** The stride rule as the specification words it: the request is kept
    exactly when it lies strictly between the minimum and the maximum and
    is aligned, and in every other case the result is the minimum. *)
Definition stride_rule_as_specified (f : unicam_fmt) (pix : v4l2_pix_format)
  : Prop :=
  let r := unicam_calc_format_size_bpl f pix in
  let m := bytes_per_line (width r) f (pixelformat pix) in
  let kept :=
    m < bytesperline pix < MAX_BYTESPERLINE
    /\ bytesperline pix mod BPL_ALIGNMENT = 0 in
  (kept -> bytesperline r = bytesperline pix)
  /\ (~ kept -> bytesperline r = m).


(** The source can produce the transport code [c]: some index below
    [MAX_ENUM_MBUS_CODE] yields it, and the enumeration has not reported
    an error before. *)
Definition source_produces (sd : v4l2_subdev) (c : Z) : Prop :=
  exists i, 0 <= i < MAX_ENUM_MBUS_CODE
    /\ enum_mbus_code sd i = (0, c)
    /\ forall j, 0 <= j < i -> fst (enum_mbus_code sd j) = 0.

(** The entry [f] answers to the pixel code [pix]. *)
Definition matches_pix (f : unicam_fmt) (pix : Z) : Prop :=
  fourcc f = pix \/ repacked_fourcc f = pix.

(** The call made by iteration [n] of the loop of
    [get_first_supported_format] (counting from [j]) ends the loop: it
    returns one of the two values the loop condition tests for, or a code
    the table has. *)
Definition stops_at (sd : v4l2_subdev) (j : Z) (n : nat) : Prop :=
  let '(ret, mbus_code) := enum_mbus_code sd (u32 (j + Z.of_nat n)) in
  ret = - EINVAL \/ ret = - ENOIOCTLCMD
  \/ (0 <= ret /\ find_format_by_code mbus_code <> None).

(** Some call of the enumeration returns [-EINVAL] or [-ENOIOCTLCMD]. *)
Definition source_exhausts (sd : v4l2_subdev) : Prop :=
  exists i, 0 <= i < 2 ^ 32
    /\ (fst (enum_mbus_code sd i) = - EINVAL
        \/ fst (enum_mbus_code sd i) = - ENOIOCTLCMD).

(** Termination as the specification words it: the fallback lookup
    returns only if the source reports exhaustion. *)
Definition terminates_only_on_exhaustion (dev : unicam_device) (ret0 : Z)
  : Prop :=
  (exists fuel r, get_first_supported_format dev ret0 fuel = Some r) ->
  source_exhausts (sensor dev).

(** The completions [l] are tagged Done and carry the sequence numbers
    [s], [s + 1], ... of an [unsigned int] counter. *)
Fixpoint numbered_from (s : Z) (l : list completion) : Prop :=
  match l with
  | [] => True
  | c :: l' =>
      c_state c = VB2_BUF_STATE_DONE
      /\ vb_sequence (c_vb c) = s
      /\ numbered_from (u32 (s + 1)) l'
  end.

(** The counter [s] after [n] increments. *)
Fixpoint advance (s : Z) (n : nat) : Z :=
  match n with
  | O => s
  | S n' => advance (u32 (s + 1)) n'
  end.

(** The sequence gap as the specification words it: between the
    completion [c1], made by the event [e1], and the next one [c2], made
    by the event [e2] after the events [es] that complete nothing, the
    sequence number grows by the frames dropped in between plus one. *)
Definition sequence_gap_as_specified (dev0 : unicam_device) (e1 : event)
    (es : list event) (e2 : event) : Prop :=
  forall dev1 dev2 dev3 c1 c2,
    step dev0 e1 = Some dev1 -> done dev1 = done dev0 ++ [c1] ->
    run dev1 es = Some dev2 -> done dev2 = done dev1 ->
    step dev2 e2 = Some dev3 -> done dev3 = done dev2 ++ [c2] ->
    vb_sequence (c_vb c2)
    = vb_sequence (c_vb c1) + Z.of_nat (drops dev1 es) + 1.

(** The entry [vb2_buffer_done] logs when [p] is handed back in
    [state]. *)
Definition returned (dev : unicam_device) (state : vb2_buffer_state)
    (p : bufptr) : completion :=
  {| c_buf := p; c_state := state; c_vb := bufs dev p |}.

(** The buffers the driver holds: those of the two slots and those of the
    queue. *)
Definition held (dev : unicam_device) (p : bufptr) : Prop :=
  cur_frm dev = Some p \/ next_frm dev = Some p \/ In p (dma_queue dev).

(** Every collaborator of [unicam_start_streaming] succeeds: runtime PM,
    the bus-configuration query, the lane count, the two clock calls and
    the source's stream-on. *)
Definition start_conditions (dev : unicam_device) : Prop :=
  0 <= pm_runtime_get_sync (platform dev)
  /\ 0 <= fst (start_streaming_lanes dev)
  /\ active_data_lanes (snd (start_streaming_lanes dev)) <= max_data_lanes dev
  /\ clk_set_rate (platform dev) (100 * 1000 * 1000) = 0
  /\ clk_prepare_enable (platform dev) = 0
  /\ 0 <= s_stream (sensor dev) 1.

(** Stream start as the specification words it: with two buffers queued,
    the first goes to the current slot and the second to the next slot. *)
Definition start_pops_two_as_specified (dev : unicam_device) : Prop :=
  forall a b q,
    dma_queue dev = a :: b :: q -> start_conditions dev ->
    exists dev',
      unicam_start_streaming dev = Some (0, dev')
      /\ cur_frm dev' = Some a /\ next_frm dev' = Some b
      /\ dma_queue dev' = q.


(** Recovery as the specification words it: with both slots on one buffer
    and [b] waiting, the next serviced frame boundary, frame start or
    frame end, moves [b] into the next slot and programs its address. *)
Definition recovery_at_frame_boundary_as_specified (dev : unicam_device)
    (sta ista now : Z) : Prop :=
  forall b q,
    streaming dev <> 0 -> cur_frm dev = next_frm dev ->
    dma_queue dev = b :: q ->
    isr_serviced (raise_irq dev sta ista) = true ->
    isr_frame_start (raise_irq dev sta ista) = true
    \/ isr_frame_end (raise_irq dev sta ista) = true ->
    exists dev',
      step dev (EvIrq sta ista now) = Some dev'
      /\ next_frm dev' = Some b
      /\ dma_queue dev' = q
      /\ base (cfg dev') UNICAM_IBSA0 = u32 (plane_dma_addr (bufs dev b)).

(** What a start returns, as the amended claim has it: the result of the
    first collaborator that fails, in the order of the calls (runtime PM,
    the bus-configuration query, the lane count, for which the error is
    -EINVAL, the clock rate, the clock enable, the source's stream-on),
    and 0 when none fails. *)
Definition start_result (dev : unicam_device) : Z :=
  if pm_runtime_get_sync (platform dev) <? 0
  then pm_runtime_get_sync (platform dev)
  else if fst (start_streaming_lanes dev) <? 0
  then fst (start_streaming_lanes dev)
  else if max_data_lanes dev
          <? active_data_lanes (snd (start_streaming_lanes dev))
  then - EINVAL
  else if negb (clk_set_rate (platform dev) (100 * 1000 * 1000) =? 0)
  then clk_set_rate (platform dev) (100 * 1000 * 1000)
  else if negb (clk_prepare_enable (platform dev) =? 0)
  then clk_prepare_enable (platform dev)
  else if s_stream (sensor dev) 1 <? 0
  then s_stream (sensor dev) 1
  else 0.

(** The bytes a line of [w] pixels takes at [d] bits a pixel. *)
Definition line_bytes (w d : Z) : Z := (w * d + 7) / 8.

(** The stride postcondition as the specification words it: for a format
    of the table and a stored width within the bounds, the stride is a
    multiple of the alignment and at least the bytes the width takes at
    the depth of the format, twice that when repacking is active. *)
Definition stride_sufficient_as_specified (f : unicam_fmt)
    (pix : v4l2_pix_format) : Prop :=
  let r := unicam_calc_format_size_bpl f pix in
  In f formats ->
  MIN_WIDTH <= width r <= MAX_WIDTH ->
  bytesperline r mod BPL_ALIGNMENT = 0
  /\ (if pixelformat pix =? repacked_fourcc f
      then 2 * line_bytes (width r) (depth f)
      else line_bytes (width r) (depth f)) <= bytesperline r.
End Specified.

(** * Concrete inputs

    A two-lane CSI-2 device with a sensor that enumerates one code, and
    the states the statements below are evaluated on.  Buffers are named
    1, 2, 3. *)

Section Inputs.

#[local] Existing Instance linux_uapi.
#[local] Existing Instance vc4_regs_unicam.
#[local] Existing Instance spec_core.

(** A sensor that enumerates [c] at index 0 and then reports -EINVAL. *)
Definition sensor_with_code (c : Z) : v4l2_subdev :=
  {| enum_mbus_code := fun i => if i =? 0 then (0, c) else (- EINVAL, 0);
     has_g_mbus_config := false;
     g_mbus_config := (0, 0);
     s_stream := fun _ => 0 |}.

(** A sensor that answers every index with the code [c] and never
    reports an error. *)
Definition sensor_repeating (c : Z) : v4l2_subdev :=
  {| enum_mbus_code := fun _ => (0, c);
     has_g_mbus_config := false;
     g_mbus_config := (0, 0);
     s_stream := fun _ => 0 |}.

Definition platform_ok : unicam_platform :=
  {| pm_runtime_get_sync := 0;
     clk_set_rate := fun _ => 0;
     clk_prepare_enable := 0 |}.

Definition fmt_yuyv_2x8 : unicam_fmt :=
  {| fourcc := V4L2_PIX_FMT_YUYV; repacked_fourcc := 0;
     code := MEDIA_BUS_FMT_YUYV8_2X8; depth := 16; csi_dt := 0x1e;
     check_variants := 1 |}.

Definition fmt_yuyv_1x16 : unicam_fmt :=
  {| fourcc := V4L2_PIX_FMT_YUYV; repacked_fourcc := 0;
     code := MEDIA_BUS_FMT_YUYV8_1X16; depth := 16; csi_dt := 0x1e;
     check_variants := 0 |}.

Definition fmt_sbggr8 : unicam_fmt :=
  {| fourcc := V4L2_PIX_FMT_SBGGR8; repacked_fourcc := 0;
     code := MEDIA_BUS_FMT_SBGGR8_1X8; depth := 8; csi_dt := 0x2a;
     check_variants := 0 |}.

(** The device after probe: not streaming, nothing queued. *)
Definition dev_idle : unicam_device :=
  {| sequence := 0;
     sensor := sensor_with_code MEDIA_BUS_FMT_YUYV8_1X16;
     cur_frm := None;
     next_frm := None;
     fmt := fmt_yuyv_1x16;
     v_fmt := {| width := 640; height := 480;
                 pixelformat := V4L2_PIX_FMT_YUYV;
                 bytesperline := 1280; sizeimage := 614400 |};
     m_fmt_field := 1;
     virtual_channel := 0;
     bus_type := V4L2_MBUS_CSI2_DPHY;
     bus_flags := 0;
     max_data_lanes := 2;
     active_data_lanes := 0;
     dma_queue := [];
     streaming := 0;
     cfg := {| base := fun _ => 0; clk_gate_base := 0 |};
     bufs := fun p => {| vb_field := 0; vb_sequence := 0; vb_timestamp := 0;
                         plane_dma_addr := 0x10000000
                                           + 0x100000 * Z.of_nat p |};
     done := [];
     platform := platform_ok;
     pm_usage := 0;
     clk_enabled := 0 |}.

(** Two buffers queued before the stream is started. *)
Definition dev_two_queued : unicam_device :=
  unicam_buffer_queue (unicam_buffer_queue dev_idle 1%nat) 2%nat.

(** Streaming with buffer 1 in both slots and an empty queue. *)
Definition dev_starved : unicam_device :=
  set_streaming 1
    (set_next_frm (Some 1%nat) (set_cur_frm (Some 1%nat) dev_idle)).

(** As [dev_starved], with buffer 2 queued. *)
Definition dev_waiting : unicam_device :=
  unicam_buffer_queue dev_starved 2%nat.

(** Streaming with buffer 1 current and buffer 2 next. *)
Definition dev_running : unicam_device :=
  set_streaming 1
    (set_next_frm (Some 2%nat) (set_cur_frm (Some 1%nat) dev_idle)).

(** Status words: the interrupt-status bit alone in [UNICAM_STA], and one
    of frame start and frame end in [UNICAM_ISTA]. *)
Definition sta_irq : Z := UNICAM_IS.
Definition ista_frame_start : Z := UNICAM_FSI.
Definition ista_frame_end : Z := UNICAM_FEI.

(** Buffer 1 completes, a frame is dropped, buffer 3 is queued and armed,
    buffer 2 completes. *)
Definition ev_first_end : event := EvIrq sta_irq ista_frame_end 100.
Definition ev_between : list event :=
  [EvIrq sta_irq ista_frame_end 200;
   EvQueue 3%nat;
   EvIrq sta_irq ista_frame_start 300].
Definition ev_second_end : event := EvIrq sta_irq ista_frame_end 400.

Definition state_or (d : unicam_device) (r : option unicam_device)
  : unicam_device :=
  match r with
  | Some d' => d'
  | None => d
  end.

Definition dev_after_first : unicam_device :=
  state_or dev_idle (step dev_running ev_first_end).
Definition dev_after_between : unicam_device :=
  state_or dev_idle (run dev_after_first ev_between).
Definition dev_after_second : unicam_device :=
  state_or dev_idle (step dev_after_between ev_second_end).

Definition blank_completion : completion :=
  {| c_buf := O; c_state := VB2_BUF_STATE_QUEUED;
     c_vb := bufs dev_idle O |}.

(** A request of 17 bytes per line for a 16-pixel line of 8-bit samples. *)
Definition pix_misaligned : v4l2_pix_format :=
  {| width := 16; height := 16; pixelformat := V4L2_PIX_FMT_SBGGR8;
     bytesperline := 17; sizeimage := 0 |}.

(** A 640x480 request with no stride. *)
Definition pix_vga : v4l2_pix_format :=
  {| width := 640; height := 480; pixelformat := V4L2_PIX_FMT_YUYV;
     bytesperline := 0; sizeimage := 0 |}.

(** A device whose sensor answers every index with a code of the table. *)
Definition dev_repeating : unicam_device :=
  {| sequence := 0;
     sensor := sensor_repeating MEDIA_BUS_FMT_YUYV8_2X8;
     cur_frm := None; next_frm := None;
     fmt := fmt_yuyv_2x8; v_fmt := v_fmt dev_idle;
     m_fmt_field := 1; virtual_channel := 0;
     bus_type := V4L2_MBUS_CSI2_DPHY; bus_flags := 0;
     max_data_lanes := 2; active_data_lanes := 0;
     dma_queue := []; streaming := 0;
     cfg := cfg dev_idle; bufs := bufs dev_idle; done := [];
     platform := platform_ok; pm_usage := 0; clk_enabled := 0 |}.

End Inputs.

(** * More of the driver *)

Section DriverQueries.

Context {uapi : Uapi} {regs : Vc4Regs} {core : MediaCore}.

(** One of the two tests of the loop body of [unicam_enum_fmt_vid_cap]:
    for a non-zero [fcc], either the running [index] is the wanted one and
    [fcc] is the answer ([inl]), or the index moves on ([inr]). *)
Definition enum_fmt_visit (fcc index want : Z) : Z + Z :=
  if negb (fcc =? 0) then
    if u32 index =? want then inl fcc else inr (index + 1)
  else inr index.

(** The loop of [unicam_enum_fmt_vid_cap]: [remaining] is
    [MAX_ENUM_MBUS_CODE - i]; the result is the value returned and the
    content of [f->pixelformat]. *)
Fixpoint unicam_enum_fmt_vid_cap_from (sd : v4l2_subdev) (remaining : nat)
    (ret i index want pixfmt : Z) : Z * Z :=
  match remaining with
  | O => (0, pixfmt)
  | S remaining' =>
      if negb (ret =? 0) then (0, pixfmt)
      else
        let '(ret', mbus_code) := enum_mbus_code sd (u32 i) in
        if ret' <? 0 then (- EINVAL, pixfmt)
        else
          match find_format_by_code mbus_code with
          | Some f =>
              match enum_fmt_visit (fourcc f) index want with
              | inl fcc => (0, fcc)
              | inr index =>
                  match enum_fmt_visit (repacked_fourcc f) index want with
                  | inl fcc => (0, fcc)
                  | inr index =>
                      unicam_enum_fmt_vid_cap_from sd remaining' ret'
                        (i + 1) index want pixfmt
                  end
              end
          | None =>
              unicam_enum_fmt_vid_cap_from sd remaining' ret' (i + 1)
                index want pixfmt
          end
  end.

(** [unicam_enum_fmt_vid_cap]: [want] is [f->index] and [pixfmt] the
    content of [f->pixelformat] on entry. *)
Definition unicam_enum_fmt_vid_cap (dev : unicam_device) (want pixfmt : Z)
  : Z * Z :=
  unicam_enum_fmt_vid_cap_from (sensor dev) (Z.to_nat MAX_ENUM_MBUS_CODE)
    0 0 0 want pixfmt.

(** [unicam_queue_setup]: from [vq->num_buffers], [*nbuffers], [*nplanes]
    and [sizes[0]] to the value returned and the three locations on
    return. *)
Definition unicam_queue_setup (dev : unicam_device)
    (num_buffers nbuffers nplanes size0 : Z) : Z * (Z * Z * Z) :=
  let size := sizeimage (v_fmt dev) in
  let nbuffers :=
    if u32 (num_buffers + nbuffers) <? 3 then u32 (3 - num_buffers)
    else nbuffers in
  if negb (nplanes =? 0) then
    if size0 <? size then (- EINVAL, (nbuffers, nplanes, size0))
    else (0, (nbuffers, 1, size0))
  else (0, (nbuffers, 1, size)).

(** ** Notions the further properties are stated with *)

(** The buffers in the two slots, a buffer that is in both counted once. *)
Definition slots (dev : unicam_device) : list bufptr :=
  match cur_frm dev, next_frm dev with
  | Some a, Some b => if Nat.eqb a b then [a] else [a; b]
  | Some a, None => [a]
  | None, Some b => [b]
  | None, None => []
  end.

(** The buffers the driver holds. *)
Definition holdings (dev : unicam_device) : list bufptr :=
  slots dev ++ dma_queue dev.

(** The buffers the events of a run submit. *)
Fixpoint submitted (es : list event) : list bufptr :=
  match es with
  | [] => []
  | EvQueue b :: es' => b :: submitted es'
  | EvIrq _ _ _ :: es' => submitted es'
  end.

(** The call made by iteration [n] of the loop of
    [get_first_supported_format] yields a code of the table. *)
Definition supported_at (sd : v4l2_subdev) (n : nat) (f : unicam_fmt) : Prop :=
  0 <= fst (enum_mbus_code sd (u32 (Z.of_nat n)))
  /\ find_format_by_code (snd (enum_mbus_code sd (u32 (Z.of_nat n)))) = Some f.

(** The call made by iteration [n] lets the loop go on: it returns
    neither of the two values the loop condition tests for, and no code of
    the table. *)
Definition passed_at (sd : v4l2_subdev) (n : nat) : Prop :=
  fst (enum_mbus_code sd (u32 (Z.of_nat n))) <> - EINVAL
  /\ fst (enum_mbus_code sd (u32 (Z.of_nat n))) <> - ENOIOCTLCMD
  /\ (fst (enum_mbus_code sd (u32 (Z.of_nat n))) < 0
      \/ find_format_by_code (snd (enum_mbus_code sd (u32 (Z.of_nat n))))
         = None).

(** The call made by iteration [n] ends the loop with NULL: it returns one
    of the two values the loop condition tests for, and that value is
    negative. *)
Definition refused_at (sd : v4l2_subdev) (n : nat) : Prop :=
  (fst (enum_mbus_code sd (u32 (Z.of_nat n))) = - EINVAL
   \/ fst (enum_mbus_code sd (u32 (Z.of_nat n))) = - ENOIOCTLCMD)
  /\ fst (enum_mbus_code sd (u32 (Z.of_nat n))) < 0.

(** The entry [f] answers to the pixel code [pix] and the lookup by pixel
    code lets it through: it is unambiguous, or the source produces its
    transport code. *)
Definition accepted (dev : unicam_device) (pix : Z) (f : unicam_fmt) : Prop :=
  matches_pix f pix
  /\ (check_variants f = 0 \/ source_produces (sensor dev) (code f)).

(** From [dev] to [dev'] the completions [new] were handed to the
    consumer, and the buffers the driver held are those it handed over
    and those it still holds, each once. *)
Definition hands_over (dev dev' : unicam_device) (new : list completion)
  : Prop :=
  done dev' = done dev ++ new
  /\ Permutation (holdings dev) (map c_buf new ++ holdings dev').

(** The DMA window of the receiver is the plane of the buffer in the next
    slot. *)
Definition dma_window_on_next (dev : unicam_device) : Prop :=
  forall b, next_frm dev = Some b ->
    base (cfg dev) UNICAM_IBSA0 = u32 (plane_dma_addr (bufs dev b))
    /\ base (cfg dev) UNICAM_IBEA0
       = u32 (u32 (plane_dma_addr (bufs dev b)) + sizeimage (v_fmt dev)).

(** No code occurs twice in the list. *)
Fixpoint distinct_codes (l : list Z) : bool :=
  match l with
  | [] => true
  | c :: rest => negb (existsb (Z.eqb c) rest) && distinct_codes rest
  end.

End DriverQueries.

(** * Further concrete inputs *)

Section MoreInputs.

#[local] Existing Instance linux_uapi.
#[local] Existing Instance vc4_regs_unicam.
#[local] Existing Instance spec_core.

(** A sensor whose first code is not one of the table and whose second
    is. *)
Definition sensor_second_code : v4l2_subdev :=
  {| enum_mbus_code := fun i =>
       if i =? 0 then (0, 0x7fff)
       else if i =? 1 then (0, MEDIA_BUS_FMT_SBGGR8_1X8)
       else (- EINVAL, 0);
     has_g_mbus_config := false;
     g_mbus_config := (0, 0);
     s_stream := fun _ => 0 |}.

(** [dev_idle] with that sensor. *)
Definition dev_second_code : unicam_device :=
  {| sequence := 0;
     sensor := sensor_second_code;
     cur_frm := None; next_frm := None;
     fmt := fmt_sbggr8; v_fmt := v_fmt dev_idle;
     m_fmt_field := 1; virtual_channel := 0;
     bus_type := V4L2_MBUS_CSI2_DPHY; bus_flags := 0;
     max_data_lanes := 2; active_data_lanes := 0;
     dma_queue := []; streaming := 0;
     cfg := cfg dev_idle; bufs := bufs dev_idle; done := [];
     platform := platform_ok; pm_usage := 0; clk_enabled := 0 |}.

(** [dev_idle] with two active data lanes. *)
Definition dev_two_lanes : unicam_device :=
  set_active_data_lanes 2 dev_idle.

(** Frame start and frame end in one interrupt. *)
Definition ista_start_and_end : Z := Z.lor UNICAM_FSI UNICAM_FEI.

(** A frame start and the frame end that follows. *)
Definition ev_one_frame : list event :=
  [EvIrq sta_irq ista_frame_start 10; EvIrq sta_irq ista_frame_end 20].

(** The run of [ev_first_end], [ev_between] and [ev_second_end]. *)
Definition ev_whole_run : list event :=
  ev_first_end :: ev_between ++ [ev_second_end].

(** The 10-bit Bayer entry of the table, which has a repacked variant. *)
Definition fmt_sbggr10p : unicam_fmt :=
  {| fourcc := V4L2_PIX_FMT_SBGGR10P;
     repacked_fourcc := V4L2_PIX_FMT_SBGGR10;
     code := MEDIA_BUS_FMT_SBGGR10_1X10; depth := 10; csi_dt := 0x2b;
     check_variants := 0 |}.

(** A 640x480 request for the repacked 10-bit Bayer format, no stride. *)
Definition pix_vga_repacked : v4l2_pix_format :=
  {| width := 640; height := 480; pixelformat := V4L2_PIX_FMT_SBGGR10;
     bytesperline := 0; sizeimage := 0 |}.

End MoreInputs.

(** * Properties *)

(** ** Arithmetic of [ALIGN] *)

Lemma u32_small (x : Z) : 0 <= x < 2 ^ 32 -> u32 x = x.
Proof. intros Hx. unfold u32. apply Z.mod_small. exact Hx. Qed.

Lemma u32_range (x : Z) : 0 <= u32 x < 2 ^ 32.
Proof. unfold u32. apply Z.mod_pos_bound. reflexivity. Qed.

Lemma land_lnot_15 (y : Z) : Z.land y (Z.lnot 15) = 16 * (y / 16).
Proof.
  change 15 with (Z.ones 4).
  change (Z.land y (Z.lnot (Z.ones 4))) with (Z.ldiff y (Z.ones 4)).
  rewrite Z.ldiff_ones_r by lia.
  rewrite Z.shiftl_mul_pow2, Z.shiftr_div_pow2 by lia.
  change (2 ^ 4) with 16. lia.
Qed.

Lemma ALIGN_16_eq (x : Z) :
  ALIGN x 16 = 16 * (u32 (x + 15) / 16).
Proof.
  unfold ALIGN. change (16 - 1) with 15. rewrite land_lnot_15.
  apply u32_small.
  pose proof (u32_range (x + 15)) as Hr.
  pose proof (Z.mul_div_le (u32 (x + 15)) 16 ltac:(lia)).
  pose proof (Z.div_pos (u32 (x + 15)) 16 (proj1 Hr) ltac:(lia)).
  lia.
Qed.

Lemma ALIGN_16_multiple (x : Z) : ALIGN x 16 mod 16 = 0.
Proof.
  rewrite ALIGN_16_eq, Z.mul_comm. apply Z.mod_mul. lia.
Qed.

Lemma ALIGN_16_nonneg (x : Z) : 0 <= ALIGN x 16.
Proof.
  rewrite ALIGN_16_eq.
  pose proof (u32_range (x + 15)) as Hr.
  pose proof (Z.div_pos (u32 (x + 15)) 16 (proj1 Hr) ltac:(lia)). lia.
Qed.

Lemma ALIGN_16_round_up (x : Z) :
  0 <= x -> x + 15 < 2 ^ 32 ->
  ALIGN x 16 = 16 * ((x + 15) / 16).
Proof.
  intros H0 H1. rewrite ALIGN_16_eq, u32_small by lia. reflexivity.
Qed.

Lemma round_up_16_bounds (x : Z) :
  x <= 16 * ((x + 15) / 16) < x + 16.
Proof.
  pose proof (Z.div_mod (x + 15) 16 ltac:(lia)).
  pose proof (Z.mod_pos_bound (x + 15) 16 ltac:(lia)). lia.
Qed.

Lemma round_up_16_fixed (x : Z) :
  16 * ((x + 15) / 16) = x <-> x mod 16 = 0.
Proof.
  pose proof (Z.div_mod (x + 15) 16 ltac:(lia)).
  pose proof (Z.mod_pos_bound (x + 15) 16 ltac:(lia)).
  pose proof (Z.div_mod x 16 ltac:(lia)).
  pose proof (Z.mod_pos_bound x 16 ltac:(lia)).
  split; intros Hx.
  - rewrite <- Hx at 1. rewrite Z.mul_comm. apply Z.mod_mul. lia.
  - assert (Hq : (x + 15) / 16 = x / 16).
    { symmetry. apply (Z.div_unique (x + 15) 16 (x / 16) 15); lia. }
    lia.
Qed.

Section Layout.

Context {uapi : Uapi} {regs : Vc4Regs} {core : MediaCore}.

Lemma formats_depth (f : unicam_fmt) :
  In f formats -> 8 <= depth f <= 32.
Proof.
  unfold formats. simpl.
  intros Hf.
  repeat (destruct Hf as [Hf | Hf]; [subst f; simpl; lia |]).
  contradiction.
Qed.

Lemma bytes_per_line_multiple (w : Z) (f : unicam_fmt) (pix : Z) :
  bytes_per_line w f pix mod 16 = 0.
Proof.
  unfold bytes_per_line, BPL_ALIGNMENT.
  destruct (pix =? repacked_fourcc f); apply ALIGN_16_multiple.
Qed.

Lemma bytes_per_line_nonneg (w : Z) (f : unicam_fmt) (pix : Z) :
  0 <= bytes_per_line w f pix.
Proof.
  unfold bytes_per_line, BPL_ALIGNMENT.
  destruct (pix =? repacked_fourcc f); apply ALIGN_16_nonneg.
Qed.

(** The stride the layout computation stores, in terms of the width it
    stores. *)
Lemma calc_bytesperline (f : unicam_fmt) (pix : v4l2_pix_format) :
  let r := unicam_calc_format_size_bpl f pix in
  let m := bytes_per_line (width r) f (pixelformat pix) in
  bytesperline r =
    if (m <? bytesperline pix) && (bytesperline pix <=? MAX_BYTESPERLINE)
    then ALIGN (bytesperline pix) BPL_ALIGNMENT
    else m.
Proof.
  unfold unicam_calc_format_size_bpl.
  destruct (v4l_bound_align_image _ _ _ _ _ _ _ _ _) as [w h].
  reflexivity.
Qed.

(** C8 (as amended): the stored stride is the request rounded up to the
    next multiple of 16 when the request is greater than the computed
    minimum and at most MAX_BYTESPERLINE (the bound is included), so an
    aligned request in that range is kept and a misaligned one is raised
    to the next multiple of 16; in every other case it is the computed
    minimum, which is ALIGN(width * 2, 16) when the pixel format is the
    repacked fourcc of the format and ALIGN(width * depth / 8, 16)
    otherwise. *)
Theorem stride_selection (f : unicam_fmt) (pix : v4l2_pix_format) :
  let r := unicam_calc_format_size_bpl f pix in
  let req := bytesperline pix in
  let m := bytes_per_line (width r) f (pixelformat pix) in
  bytesperline r =
    (if (m <? req) && (req <=? MAX_BYTESPERLINE)
     then 16 * ((req + 15) / 16) else m)
  /\ (m < req <= MAX_BYTESPERLINE ->
      req <= bytesperline r < req + 16
      /\ bytesperline r mod 16 = 0
      /\ (bytesperline r = req <-> req mod 16 = 0))
  /\ (~ (m < req <= MAX_BYTESPERLINE) -> bytesperline r = m)
  /\ m = (if pixelformat pix =? repacked_fourcc f
          then ALIGN (u32 (Z.shiftl (width r) 1)) 16
          else ALIGN (Z.shiftr (u32 (width r * depth f)) 3) 16).
Proof.
  intros r req m.
  pose proof (calc_bytesperline f pix) as Hb. cbv zeta in Hb.
  fold r in Hb. fold m in Hb. fold req in Hb.
  pose proof (bytes_per_line_nonneg (width r) f (pixelformat pix)) as Hm.
  fold m in Hm.
  assert (Hmax : MAX_BYTESPERLINE = 65520) by reflexivity.
  assert (Hin : m < req <= MAX_BYTESPERLINE ->
                bytesperline r = 16 * ((req + 15) / 16)).
  { intros [H1 H2]. rewrite Hb.
    apply Z.ltb_lt in H1. apply Z.leb_le in H2 as H2'.
    rewrite H1, H2'. simpl.
    apply Z.ltb_lt in H1.
    unfold BPL_ALIGNMENT. apply ALIGN_16_round_up; lia. }
  assert (Hout : ~ (m < req <= MAX_BYTESPERLINE) -> bytesperline r = m).
  { intros Hn. rewrite Hb.
    destruct (Z.ltb_spec m req); destruct (Z.leb_spec req MAX_BYTESPERLINE);
      simpl; try reflexivity.
    exfalso. apply Hn. lia. }
  repeat split.
  - destruct (Z.ltb_spec m req); destruct (Z.leb_spec req MAX_BYTESPERLINE);
      simpl; try (apply Hout; lia).
    apply Hin; lia.
  - rewrite (Hin H). apply round_up_16_bounds.
  - rewrite (Hin H). apply round_up_16_bounds.
  - rewrite (Hin H), Z.mul_comm. apply Z.mod_mul. lia.
  - rewrite (Hin H). apply round_up_16_fixed.
  - rewrite (Hin H). apply round_up_16_fixed.
  - exact Hout.
Qed.

(** C9 (as amended): when the width the layout computation stores lies in
    [MIN_WIDTH, MAX_WIDTH] and the format is one of the table, the stored
    stride is a multiple of BPL_ALIGNMENT and at least the minimum the
    driver computes for a line: two bytes a pixel when the pixel format
    is the repacked one (not twice the bytes of the packed line), and the
    whole bytes of width * depth bits otherwise, width * depth / 8
    rounded down, which holds every bit of the line when the width is a
    multiple of four. *)
Theorem stride_aligned_and_sufficient (f : unicam_fmt) (pix : v4l2_pix_format) :
  let r := unicam_calc_format_size_bpl f pix in
  In f formats ->
  MIN_WIDTH <= width r <= MAX_WIDTH ->
  bytesperline r mod BPL_ALIGNMENT = 0
  /\ (if pixelformat pix =? repacked_fourcc f
      then 2 * width r <= bytesperline r
      else width r * depth f / 8 <= bytesperline r
           /\ (width r mod 4 = 0 -> depth f mod 2 = 0 ->
               width r * depth f <= 8 * bytesperline r)).
Proof.
  intros r Hf Hw.
  pose proof (formats_depth f Hf) as Hd.
  pose proof (calc_bytesperline f pix) as Hb. cbv zeta in Hb. fold r in Hb.
  assert (HW : MAX_WIDTH = 16380) by reflexivity.
  assert (Hmax : MAX_BYTESPERLINE = 65520) by reflexivity.
  unfold MIN_WIDTH in Hw. rewrite HW in Hw.
  set (m := bytes_per_line (width r) f (pixelformat pix)) in *.
  pose proof (bytes_per_line_multiple (width r) f (pixelformat pix)) as Hmm.
  pose proof (bytes_per_line_nonneg (width r) f (pixelformat pix)) as Hm0.
  fold m in Hmm, Hm0.
  assert (Hge : m <= bytesperline r /\ bytesperline r mod 16 = 0).
  { rewrite Hb.
    destruct (Z.ltb_spec m (bytesperline pix));
      destruct (Z.leb_spec (bytesperline pix) MAX_BYTESPERLINE); simpl;
      try (split; [lia | exact Hmm]).
    unfold BPL_ALIGNMENT. split; [| apply ALIGN_16_multiple].
    rewrite ALIGN_16_round_up by lia.
    pose proof (round_up_16_bounds (bytesperline pix)). lia. }
  destruct Hge as [Hge Hal].
  split; [exact Hal |].
  assert (Hbits : 0 <= width r * depth f < 2 ^ 32) by nia.
  unfold m, bytes_per_line, BPL_ALIGNMENT in Hge.
  destruct (pixelformat pix =? repacked_fourcc f).
  - rewrite Z.shiftl_mul_pow2 in Hge by lia. change (2 ^ 1) with 2 in Hge.
    rewrite u32_small in Hge by lia.
    rewrite ALIGN_16_round_up in Hge by lia.
    pose proof (round_up_16_bounds (width r * 2)). lia.
  - rewrite u32_small in Hge by lia.
    rewrite Z.shiftr_div_pow2 in Hge by lia. change (2 ^ 3) with 8 in Hge.
    assert (Hq : 0 <= width r * depth f / 8 <= 65520).
    { split; [apply Z.div_pos; lia |].
      apply Z.div_le_upper_bound; [lia | nia]. }
    rewrite ALIGN_16_round_up in Hge by lia.
    pose proof (round_up_16_bounds (width r * depth f / 8)).
    split; [lia |].
    intros H4 H2.
    assert (H8 : (width r * depth f) mod 8 = 0).
    { apply Z.mod_divide in H4; [| lia]. apply Z.mod_divide in H2; [| lia].
      destruct H4 as [a Ha]. destruct H2 as [b Hb2].
      rewrite Ha, Hb2. replace (a * 4 * (b * 2)) with (a * b * 8) by ring.
      apply Z.mod_mul. lia. }
    pose proof (Z.div_mod (width r * depth f) 8 ltac:(lia)). lia.
Qed.

End Layout.

Section Registry.

Context {uapi : Uapi} {regs : Vc4Regs} {core : MediaCore}.

Local Arguments check_mbus_format : simpl never.

Lemma check_mbus_format_from_error (sd : v4l2_subdev) (f : unicam_fmt)
    (n : nat) (ret i : Z) :
  ret <> 0 -> check_mbus_format_from sd f n ret i = 0.
Proof.
  intros Hret. destruct n as [| n]; simpl; [reflexivity |].
  apply Z.eqb_neq in Hret. rewrite Hret. reflexivity.
Qed.

Lemma check_mbus_format_from_spec (sd : v4l2_subdev) (f : unicam_fmt)
    (n : nat) :
  forall i, 0 <= i -> i + Z.of_nat n <= 2 ^ 32 ->
  check_mbus_format_from sd f n 0 i = 1 <->
  exists k, 0 <= k < Z.of_nat n
    /\ enum_mbus_code sd (i + k) = (0, code f)
    /\ forall j, 0 <= j < k -> fst (enum_mbus_code sd (i + j)) = 0.
Proof.
  induction n as [| n IH]; intros i Hi Hn.
  - simpl. split; [discriminate |]. intros (k & Hk & _). lia.
  - cbn [check_mbus_format_from]. rewrite Z.eqb_refl. cbn [negb].
    rewrite u32_small by lia.
    destruct (enum_mbus_code sd i) as [r c] eqn:He.
    destruct (Z.eqb_spec r 0) as [Hr | Hr].
    + subst r. cbn [andb].
      destruct (Z.eqb_spec c (code f)) as [Hc | Hc].
      * subst c. split; [intros _ | reflexivity].
        exists 0. rewrite Z.add_0_r. split; [lia |]. split; [exact He |].
        intros j Hj. lia.
      * rewrite IH by lia. split.
        -- intros (k & Hk & Hek & Hpre). exists (k + 1).
           split; [lia |].
           replace (i + (k + 1)) with (i + 1 + k) by lia.
           split; [exact Hek |].
           intros j Hj. destruct (Z.eq_dec j 0) as [-> | Hj0].
           ++ rewrite Z.add_0_r, He. reflexivity.
           ++ replace (i + j) with (i + 1 + (j - 1)) by lia.
              apply Hpre. lia.
        -- intros (k & Hk & Hek & Hpre).
           destruct (Z.eq_dec k 0) as [-> | Hk0].
           ++ rewrite Z.add_0_r, He in Hek. congruence.
           ++ exists (k - 1). split; [lia |].
              replace (i + 1 + (k - 1)) with (i + k) by lia.
              split; [exact Hek |].
              intros j Hj. replace (i + 1 + j) with (i + (j + 1)) by lia.
              apply Hpre. lia.
    + cbn [andb]. rewrite check_mbus_format_from_error by exact Hr.
      split; [discriminate |].
      intros (k & Hk & Hek & Hpre). exfalso.
      destruct (Z.eq_dec k 0) as [-> | Hk0].
      * rewrite Z.add_0_r, He in Hek. congruence.
      * specialize (Hpre 0 ltac:(lia)). rewrite Z.add_0_r, He in Hpre.
        simpl in Hpre. contradiction.
Qed.

Lemma check_mbus_format_from_bool (sd : v4l2_subdev) (f : unicam_fmt)
    (n : nat) :
  forall ret i,
  check_mbus_format_from sd f n ret i = 0
  \/ check_mbus_format_from sd f n ret i = 1.
Proof.
  induction n as [| n IH]; intros ret i; simpl; [left; reflexivity |].
  destruct (negb (ret =? 0)); [left; reflexivity |].
  destruct (enum_mbus_code sd (u32 i)) as [r c].
  destruct ((r =? 0) && (c =? code f)); [right; reflexivity | apply IH].
Qed.

Lemma check_mbus_format_spec (dev : unicam_device) (f : unicam_fmt) :
  check_mbus_format dev f = 1 <-> source_produces (sensor dev) (code f).
Proof.
  unfold check_mbus_format, source_produces.
  rewrite check_mbus_format_from_spec
    by (change (Z.of_nat (Z.to_nat MAX_ENUM_MBUS_CODE)) with 128; lia).
  change (Z.of_nat (Z.to_nat MAX_ENUM_MBUS_CODE)) with MAX_ENUM_MBUS_CODE.
  split; intros (k & Hk & He & Hpre); exists k; rewrite ?Z.add_0_l in *;
    (split; [exact Hk | split; [exact He |]]);
    intros j Hj; specialize (Hpre j Hj); rewrite ?Z.add_0_l in *; exact Hpre.
Qed.

Lemma check_mbus_format_zero (dev : unicam_device) (f : unicam_fmt) :
  check_mbus_format dev f = 0 <-> ~ source_produces (sensor dev) (code f).
Proof.
  rewrite <- check_mbus_format_spec.
  destruct (check_mbus_format_from_bool (sensor dev) f
              (Z.to_nat MAX_ENUM_MBUS_CODE) 0 0) as [H | H];
    unfold check_mbus_format; rewrite H; split; intros; congruence || lia.
Qed.

(** Only the indices below [MAX_ENUM_MBUS_CODE] are ever asked for. *)
Lemma check_mbus_format_from_ext (sd sd' : v4l2_subdev) (f : unicam_fmt)
    (n : nat) :
  forall ret i, 0 <= i -> i + Z.of_nat n <= MAX_ENUM_MBUS_CODE ->
  (forall k, 0 <= k < MAX_ENUM_MBUS_CODE ->
             enum_mbus_code sd' k = enum_mbus_code sd k) ->
  check_mbus_format_from sd' f n ret i = check_mbus_format_from sd f n ret i.
Proof.
  unfold MAX_ENUM_MBUS_CODE.
  induction n as [| n IH]; intros ret i Hi Hn Hext; simpl; [reflexivity |].
  destruct (negb (ret =? 0)); [reflexivity |].
  rewrite u32_small by lia. rewrite Hext by lia.
  destruct (enum_mbus_code sd i) as [r c].
  destruct ((r =? 0) && (c =? code f)); [reflexivity |].
  apply IH; [lia | lia | exact Hext].
Qed.

Lemma find_format_by_pix_from_ext (tbl : list unicam_fmt)
    (dev dev' : unicam_device) (pix : Z) :
  (forall k, 0 <= k < MAX_ENUM_MBUS_CODE ->
     enum_mbus_code (sensor dev') k = enum_mbus_code (sensor dev) k) ->
  find_format_by_pix_from tbl dev' pix = find_format_by_pix_from tbl dev pix.
Proof.
  intros Hext.
  assert (Hc : forall f, check_mbus_format dev' f = check_mbus_format dev f).
  { intros f. unfold check_mbus_format.
    apply check_mbus_format_from_ext;
      [lia | change (Z.of_nat (Z.to_nat MAX_ENUM_MBUS_CODE)) with 128;
             unfold MAX_ENUM_MBUS_CODE; lia | exact Hext]. }
  induction tbl as [| f rest IH]; cbn [find_format_by_pix_from];
    [reflexivity |].
  rewrite Hc, IH. reflexivity.
Qed.

Lemma find_format_by_pix_from_accepts (tbl : list unicam_fmt)
    (dev : unicam_device) (pix : Z) (f : unicam_fmt) :
  find_format_by_pix_from tbl dev pix = Some f ->
  In f tbl /\ matches_pix f pix
  /\ (check_variants f <> 0 -> source_produces (sensor dev) (code f)).
Proof.
  induction tbl as [| g rest IH]; simpl; [discriminate |].
  destruct ((fourcc g =? pix) || (repacked_fourcc g =? pix)) eqn:Hm.
  - destruct (negb (check_variants g =? 0) && (check_mbus_format dev g =? 0))
      eqn:Hc.
    + intros H. destruct (IH H) as (Hin & Hrest). split; [right |]; assumption.
    + intros H. injection H as <-. split; [left; reflexivity |].
      split.
      * apply orb_true_iff in Hm. unfold matches_pix.
        destruct Hm as [Hm | Hm]; apply Z.eqb_eq in Hm; auto.
      * intros Hv. apply Z.eqb_neq in Hv. rewrite Hv in Hc. simpl in Hc.
        apply Z.eqb_neq in Hc.
        apply check_mbus_format_spec.
        destruct (check_mbus_format_from_bool (sensor dev) g
                    (Z.to_nat MAX_ENUM_MBUS_CODE) 0 0) as [H0 | H1];
          [contradiction | exact H1].
  - intros H. destruct (IH H) as (Hin & Hrest). split; [right |]; assumption.
Qed.

Lemma find_format_by_pix_from_skip (pre rest : list unicam_fmt)
    (dev : unicam_device) (pix : Z) :
  (forall g, In g pre ->
     ~ matches_pix g pix
     \/ (check_variants g <> 0 /\ ~ source_produces (sensor dev) (code g))) ->
  find_format_by_pix_from (pre ++ rest) dev pix
  = find_format_by_pix_from rest dev pix.
Proof.
  induction pre as [| g pre IH]; intros Hpre; simpl; [reflexivity |].
  assert (IH' := IH (fun g' Hg' => Hpre g' (or_intror Hg'))).
  destruct (Hpre g (or_introl eq_refl)) as [Hn | [Hv Hs]].
  - destruct ((fourcc g =? pix) || (repacked_fourcc g =? pix)) eqn:Hm;
      [| exact IH'].
    exfalso. apply Hn. apply orb_true_iff in Hm. unfold matches_pix.
    destruct Hm as [Hm | Hm]; apply Z.eqb_eq in Hm; auto.
  - apply check_mbus_format_zero in Hs. rewrite Hs.
    apply Z.eqb_neq in Hv. rewrite Hv. simpl.
    destruct ((fourcc g =? pix) || (repacked_fourcc g =? pix)); exact IH'.
Qed.

Lemma find_format_by_pix_from_hit (f : unicam_fmt) (rest : list unicam_fmt)
    (dev : unicam_device) (pix : Z) :
  matches_pix f pix ->
  check_variants f = 0 \/ source_produces (sensor dev) (code f) ->
  find_format_by_pix_from (f :: rest) dev pix = Some f.
Proof.
  intros Hm Hacc. simpl.
  assert (Hb : (fourcc f =? pix) || (repacked_fourcc f =? pix) = true).
  { apply orb_true_iff. destruct Hm as [Hm | Hm]; [left | right];
      apply Z.eqb_eq; exact Hm. }
  rewrite Hb.
  destruct Hacc as [Hv | Hs].
  - rewrite Hv. reflexivity.
  - apply check_mbus_format_spec in Hs. rewrite Hs.
    rewrite andb_false_r. reflexivity.
Qed.

Lemma find_format_by_pix_unfold (dev : unicam_device) (pix : Z) :
  find_format_by_pix dev pix = find_format_by_pix_from formats dev pix.
Proof. reflexivity. Qed.

(** C7: an entry with [check_variants] set is returned only when the source
    produces its transport code within the first MAX_ENUM_MBUS_CODE
    indices, no index beyond those is consulted, and when the first entry
    answering to the pixel code is ambiguous and its code is not produced,
    the lookup goes on to the next answering entry and returns it if it is
    unambiguous or its code is produced: so does the loop on any table,
    and so does the lookup of the driver on its own table. *)
Theorem ambiguous_format_resolution (dev : unicam_device) (pix : Z) :
  (forall f, find_format_by_pix dev pix = Some f ->
     check_variants f <> 0 -> source_produces (sensor dev) (code f))
  /\ (forall dev',
        (forall k, 0 <= k < MAX_ENUM_MBUS_CODE ->
           enum_mbus_code (sensor dev') k = enum_mbus_code (sensor dev) k) ->
        find_format_by_pix dev' pix = find_format_by_pix dev pix)
  /\ (forall pre e1 mid e2 post,
        (forall g, In g (pre ++ mid) -> ~ matches_pix g pix) ->
        matches_pix e1 pix -> check_variants e1 <> 0 ->
        matches_pix e2 pix ->
        ~ source_produces (sensor dev) (code e1) ->
        check_variants e2 = 0 \/ source_produces (sensor dev) (code e2) ->
        find_format_by_pix_from (pre ++ e1 :: mid ++ e2 :: post) dev pix
        = Some e2)
  /\ (forall pre e1 mid e2 post,
        formats = pre ++ e1 :: mid ++ e2 :: post ->
        (forall g, In g (pre ++ mid) -> ~ matches_pix g pix) ->
        matches_pix e1 pix -> check_variants e1 <> 0 ->
        matches_pix e2 pix ->
        ~ source_produces (sensor dev) (code e1) ->
        check_variants e2 = 0 \/ source_produces (sensor dev) (code e2) ->
        find_format_by_pix dev pix = Some e2).
Proof.
  assert (Hloop : forall pre e1 mid e2 post,
            (forall g, In g (pre ++ mid) -> ~ matches_pix g pix) ->
            matches_pix e1 pix -> check_variants e1 <> 0 ->
            matches_pix e2 pix ->
            ~ source_produces (sensor dev) (code e1) ->
            check_variants e2 = 0 \/ source_produces (sensor dev) (code e2) ->
            find_format_by_pix_from (pre ++ e1 :: mid ++ e2 :: post) dev pix
            = Some e2).
  { intros pre e1 mid e2 post Hnone Hm1 Hv1 Hm2 Hs1 Hacc.
    change (pre ++ e1 :: mid ++ e2 :: post)
      with (pre ++ [e1] ++ mid ++ e2 :: post).
    rewrite !app_assoc.
    rewrite find_format_by_pix_from_skip.
    + apply find_format_by_pix_from_hit; assumption.
    + intros g Hg. rewrite <- app_assoc in Hg.
      apply in_app_or in Hg. destruct Hg as [Hg | Hg].
      * left. apply Hnone. apply in_or_app. left. exact Hg.
      * destruct Hg as [<- | Hg]; [right; split; assumption |].
        left. apply Hnone. apply in_or_app. right. exact Hg. }
  split; [| split; [| split]].
  - intros f Hf Hv. rewrite find_format_by_pix_unfold in Hf.
    pose proof (find_format_by_pix_from_accepts formats dev pix f Hf) as H.
    destruct H as (_ & _ & Hs). apply Hs. exact Hv.
  - intros dev' Hext. rewrite !find_format_by_pix_unfold.
    apply find_format_by_pix_from_ext. exact Hext.
  - exact Hloop.
  - intros pre e1 mid e2 post Htbl Hnone Hm1 Hv1 Hm2 Hs1 Hacc.
    rewrite find_format_by_pix_unfold, Htbl.
    apply Hloop; assumption.
Qed.

End Registry.

Section Fallback.

Context {uapi : Uapi} {regs : Vc4Regs} {core : MediaCore}.

Lemma u32_s32 (x : Z) : u32 (s32 x) = u32 x.
Proof.
  unfold u32, s32.
  rewrite Zminus_mod_idemp_l.
  replace (x + 2 ^ 31 - 2 ^ 31) with x by lia. reflexivity.
Qed.

Lemma u32_s32_add (x y : Z) : u32 (s32 x + y) = u32 (x + y).
Proof.
  unfold u32. rewrite <- Zplus_mod_idemp_l.
  fold (u32 (s32 x)). rewrite u32_s32. unfold u32.
  rewrite Zplus_mod_idemp_l. reflexivity.
Qed.

Lemma stops_at_shift (sd : v4l2_subdev) (j : Z) (n : nat) :
  stops_at sd (s32 (j + 1)) n <-> stops_at sd j (S n).
Proof.
  unfold stops_at. rewrite u32_s32_add.
  replace (j + 1 + Z.of_nat n) with (j + Z.of_nat (S n)) by lia.
  reflexivity.
Qed.

Lemma loop_exits (sd : v4l2_subdev) (fuel : nat) (ret j : Z) :
  ret = - EINVAL \/ ret = - ENOIOCTLCMD ->
  get_first_supported_format_from sd (S fuel) ret j = Some None.
Proof.
  intros H. cbn [get_first_supported_format_from].
  destruct H as [-> | ->].
  - rewrite Z.eqb_refl. reflexivity.
  - rewrite Z.eqb_refl. rewrite andb_false_r. reflexivity.
Qed.

Lemma loop_terminates (sd : v4l2_subdev) (n : nat) :
  forall ret j, stops_at sd j n ->
  exists r, get_first_supported_format_from sd (S (S n)) ret j = Some r.
Proof.
  induction n as [| n IH]; intros ret j Hstop.
  - unfold stops_at in Hstop. rewrite Z.add_0_r in Hstop.
    cbn [get_first_supported_format_from].
    destruct (negb (ret =? - EINVAL) && negb (ret =? - ENOIOCTLCMD));
      [| eexists; reflexivity].
    destruct (enum_mbus_code sd (u32 j)) as [r c].
    destruct (Z.ltb_spec r 0) as [Hneg | Hpos].
    + assert (He : r = - EINVAL \/ r = - ENOIOCTLCMD) by
        (destruct Hstop as [H | [H | [H _]]]; [auto | auto | lia]).
      destruct He as [-> | ->].
      * rewrite Z.eqb_refl. eexists; reflexivity.
      * rewrite Z.eqb_refl, andb_false_r. eexists; reflexivity.
    + destruct (find_format_by_code c) as [f |] eqn:Hfind;
        [eexists; reflexivity |].
      assert (He : r = - EINVAL \/ r = - ENOIOCTLCMD) by
        (destruct Hstop as [H | [H | [_ H]]]; [auto | auto | congruence]).
      destruct He as [-> | ->].
      * rewrite Z.eqb_refl. eexists; reflexivity.
      * rewrite Z.eqb_refl, andb_false_r. eexists; reflexivity.
  - apply stops_at_shift in Hstop.
    remember (S (S n)) as fuel eqn:Hfuel.
    cbn [get_first_supported_format_from].
    destruct (negb (ret =? - EINVAL) && negb (ret =? - ENOIOCTLCMD));
      [| eexists; reflexivity].
    destruct (enum_mbus_code sd (u32 j)) as [r c].
    destruct (r <? 0).
    + subst fuel. apply IH. exact Hstop.
    + destruct (find_format_by_code c) as [f |];
        [eexists; reflexivity |].
      subst fuel. apply IH. exact Hstop.
Qed.

Lemma loop_diverges (sd : v4l2_subdev) (fuel : nat) :
  forall ret j,
  ret <> - EINVAL -> ret <> - ENOIOCTLCMD ->
  (forall n, ~ stops_at sd j n) ->
  get_first_supported_format_from sd fuel ret j = None.
Proof.
  induction fuel as [| fuel IH]; intros ret j H1 H2 Hnever;
    [reflexivity |].
  cbn [get_first_supported_format_from].
  apply Z.eqb_neq in H1. apply Z.eqb_neq in H2. rewrite H1, H2.
  cbn [negb andb].
  pose proof (Hnever O) as H0. unfold stops_at in H0.
  rewrite Z.add_0_r in H0.
  destruct (enum_mbus_code sd (u32 j)) as [r c].
  assert (Hnext : forall n, ~ stops_at sd (s32 (j + 1)) n).
  { intros n Hn. apply stops_at_shift in Hn. exact (Hnever _ Hn). }
  destruct (Z.ltb_spec r 0) as [Hneg | Hpos].
  - apply IH; [tauto | tauto | exact Hnext].
  - destruct (find_format_by_code c) as [f |] eqn:Hfind.
    + exfalso. apply H0. right. right. split; [lia | congruence].
    + apply IH; [tauto | tauto | exact Hnext].
Qed.

Lemma get_first_supported_format_from_found (sd : v4l2_subdev)
    (f : unicam_fmt) (n : nat) :
  forall ret j,
  ret <> - EINVAL -> ret <> - ENOIOCTLCMD ->
  (forall k, (k < n)%nat ->
     let r := enum_mbus_code sd (u32 (j + Z.of_nat k)) in
     fst r <> - EINVAL /\ fst r <> - ENOIOCTLCMD
     /\ (fst r < 0 \/ find_format_by_code (snd r) = None)) ->
  (let r := enum_mbus_code sd (u32 (j + Z.of_nat n)) in
   0 <= fst r /\ find_format_by_code (snd r) = Some f) ->
  get_first_supported_format_from sd (S n) ret j = Some (Some f).
Proof.
  induction n as [| n IH]; intros ret j H1 H2 Hpass Hhit;
    cbn [get_first_supported_format_from];
    apply Z.eqb_neq in H1; apply Z.eqb_neq in H2; rewrite H1, H2;
    cbn [negb andb].
  - cbv zeta in Hhit. rewrite Z.add_0_r in Hhit.
    destruct (enum_mbus_code sd (u32 j)) as [r c]. cbn [fst snd] in Hhit.
    destruct Hhit as [Hr Hf].
    destruct (Z.ltb_spec r 0); [lia |]. rewrite Hf. reflexivity.
  - pose proof (Hpass O ltac:(lia)) as H0. cbv zeta in H0.
    rewrite Z.add_0_r in H0.
    assert (Hnext : get_first_supported_format_from sd (S n)
                      (fst (enum_mbus_code sd (u32 j))) (s32 (j + 1))
                    = Some (Some f)).
    { apply IH; [tauto | tauto | |].
      - intros k Hk. cbv zeta. rewrite u32_s32_add.
        replace (j + 1 + Z.of_nat k) with (j + Z.of_nat (S k)) by lia.
        apply Hpass. lia.
      - cbv zeta. rewrite u32_s32_add.
        replace (j + 1 + Z.of_nat n) with (j + Z.of_nat (S n)) by lia.
        exact Hhit. }
    destruct (enum_mbus_code sd (u32 j)) as [r c]. cbn [fst snd] in *.
    destruct (Z.ltb_spec r 0); [exact Hnext |].
    destruct H0 as (_ & _ & [Hr | Hf]); [lia |].
    rewrite Hf. exact Hnext.
Qed.

Lemma get_first_supported_format_from_refused (sd : v4l2_subdev) (n : nat) :
  forall ret j,
  ret <> - EINVAL -> ret <> - ENOIOCTLCMD ->
  (forall k, (k < n)%nat ->
     let r := enum_mbus_code sd (u32 (j + Z.of_nat k)) in
     fst r <> - EINVAL /\ fst r <> - ENOIOCTLCMD
     /\ (fst r < 0 \/ find_format_by_code (snd r) = None)) ->
  (let r := enum_mbus_code sd (u32 (j + Z.of_nat n)) in
   (fst r = - EINVAL \/ fst r = - ENOIOCTLCMD) /\ fst r < 0) ->
  get_first_supported_format_from sd (S (S n)) ret j = Some None.
Proof.
  induction n as [| n IH]; intros ret j H1 H2 Hpass Hhit.
  - cbv zeta in Hhit. rewrite Z.add_0_r in Hhit.
    remember 1%nat as one.
    cbn [get_first_supported_format_from].
    apply Z.eqb_neq in H1; apply Z.eqb_neq in H2; rewrite H1, H2;
      cbn [negb andb].
    destruct (enum_mbus_code sd (u32 j)) as [r c]. cbn [fst snd] in Hhit.
    destruct Hhit as [Hr Hneg].
    destruct (Z.ltb_spec r 0); [| lia].
    subst one. apply loop_exits. exact Hr.
  - pose proof (Hpass O ltac:(lia)) as H0. cbv zeta in H0.
    rewrite Z.add_0_r in H0.
    assert (Hnext : get_first_supported_format_from sd (S (S n))
                      (fst (enum_mbus_code sd (u32 j))) (s32 (j + 1))
                    = Some None).
    { apply IH; [tauto | tauto | |].
      - intros k Hk. cbv zeta. rewrite u32_s32_add.
        replace (j + 1 + Z.of_nat k) with (j + Z.of_nat (S k)) by lia.
        apply Hpass. lia.
      - cbv zeta. rewrite u32_s32_add.
        replace (j + 1 + Z.of_nat n) with (j + Z.of_nat (S n)) by lia.
        exact Hhit. }
    remember (S (S n)) as fuel.
    cbn [get_first_supported_format_from].
    apply Z.eqb_neq in H1; apply Z.eqb_neq in H2; rewrite H1, H2;
      cbn [negb andb].
    destruct (enum_mbus_code sd (u32 j)) as [r c]. cbn [fst snd] in *.
    destruct (Z.ltb_spec r 0); [exact Hnext |].
    destruct H0 as (_ & _ & [Hr | Hf]); [lia |].
    rewrite Hf. exact Hnext.
Qed.

(** C10 (as amended): the fallback lookup has no bound on the index.  It
    returns as soon as a call of the enumeration yields a code of the table
    or one of -EINVAL and -ENOIOCTLCMD; when no call ever does, and the
    value read from the uninitialised [ret] is neither of the two, it
    never returns, whatever the fuel; and when that first read does yield
    one of the two values it returns NULL without asking the source.
    What it returns: when the first read is neither of the two values and
    the calls before the one of index [n] neither fail with one of them
    nor yield a code of the table, the entry of the table for the code
    that the call of index [n] yields with a non-negative result, and
    NULL when that call fails with one of the two values. *)
Theorem fallback_lookup_termination (dev : unicam_device) (ret0 : Z) :
  (forall n, stops_at (sensor dev) 0 n ->
     exists r, get_first_supported_format dev ret0 (S (S n)) = Some r)
  /\ (ret0 <> - EINVAL -> ret0 <> - ENOIOCTLCMD ->
      (forall n, ~ stops_at (sensor dev) 0 n) ->
      forall fuel, get_first_supported_format dev ret0 fuel = None)
  /\ (ret0 = - EINVAL \/ ret0 = - ENOIOCTLCMD ->
      forall fuel, get_first_supported_format dev ret0 (S fuel) = Some None)
  /\ (ret0 <> - EINVAL -> ret0 <> - ENOIOCTLCMD ->
      forall n,
      (forall k, (k < n)%nat -> passed_at (sensor dev) k) ->
      (forall f, supported_at (sensor dev) n f ->
         get_first_supported_format dev ret0 (S n) = Some (Some f))
      /\ (refused_at (sensor dev) n ->
          get_first_supported_format dev ret0 (S (S n)) = Some None)).
Proof.
  unfold get_first_supported_format. split; [| split; [| split]].
  - intros n Hn. apply loop_terminates. exact Hn.
  - intros H1 H2 Hnever fuel. apply loop_diverges; assumption.
  - intros H fuel. apply loop_exits. exact H.
  - intros H1 H2 n Hpass. split.
    + intros f Hs.
      apply get_first_supported_format_from_found; [exact H1 | exact H2 | |].
      * intros k Hk. cbv zeta. rewrite Z.add_0_l. apply Hpass. exact Hk.
      * cbv zeta. rewrite Z.add_0_l. exact Hs.
    + intros Hr.
      apply get_first_supported_format_from_refused;
        [exact H1 | exact H2 | |].
      * intros k Hk. cbv zeta. rewrite Z.add_0_l. apply Hpass. exact Hk.
      * cbv zeta. rewrite Z.add_0_l. exact Hr.
Qed.

End Fallback.

Section Scheduler.

Context {uapi : Uapi} {regs : Vc4Regs} {core : MediaCore}.

Lemma ptr_eqb_refl (a : option bufptr) : ptr_eqb a a = true.
Proof. destruct a as [x |]; simpl; [apply Nat.eqb_refl | reflexivity]. Qed.

Lemma ptr_eqb_eq (a b : option bufptr) : ptr_eqb a b = true <-> a = b.
Proof.
  destruct a as [x |], b as [y |]; simpl; split; intros H;
    try discriminate; try reflexivity.
  - apply Nat.eqb_eq in H. congruence.
  - injection H as ->. apply Nat.eqb_refl.
Qed.

Lemma ptr_eqb_neq (x y : bufptr) : x <> y -> ptr_eqb (Some x) (Some y) = false.
Proof. intros H. simpl. apply Nat.eqb_neq. exact H. Qed.

Lemma reg_write_other (dev : unicam_cfg) (o r : unicam_reg) (v : Z) :
  r <> o -> base (reg_write dev o v) r = base dev r.
Proof.
  intros H. unfold reg_write. simpl.
  destruct (unicam_reg_eq_dec r o); [contradiction | reflexivity].
Qed.

Lemma reg_write_same (dev : unicam_cfg) (o : unicam_reg) (v : Z) :
  base (reg_write dev o v) o = u32 v.
Proof.
  unfold reg_write. simpl.
  destruct (unicam_reg_eq_dec o o); [reflexivity | contradiction].
Qed.

Lemma reg_write_field_other (dev : unicam_cfg) (o r : unicam_reg)
    (field mask : Z) :
  r <> o -> base (reg_write_field dev o field mask) r = base dev r.
Proof. intros H. unfold reg_write_field. apply reg_write_other. exact H. Qed.

Lemma reg_write_clk (dev : unicam_cfg) (o : unicam_reg) (v : Z) :
  clk_gate_base (reg_write dev o v) = clk_gate_base dev.
Proof. reflexivity. Qed.

Lemma reg_write_field_clk (dev : unicam_cfg) (o : unicam_reg) (field mask : Z) :
  clk_gate_base (reg_write_field dev o field mask) = clk_gate_base dev.
Proof. reflexivity. Qed.

Lemma clk_write_base (dev : unicam_cfg) (v : Z) :
  base (clk_write dev v) = base dev.
Proof. reflexivity. Qed.


(** *** What each block of the handler touches *)

Lemma isr_timestamp_frame (dev : unicam_device) (now : Z) :
  let dev' := isr_timestamp dev now in
  cur_frm dev' = cur_frm dev /\ next_frm dev' = next_frm dev
  /\ dma_queue dev' = dma_queue dev /\ done dev' = done dev
  /\ sequence dev' = sequence dev /\ streaming dev' = streaming dev
  /\ cfg dev' = cfg dev
  /\ v_fmt dev' = v_fmt dev /\ m_fmt_field dev' = m_fmt_field dev
  /\ (forall p, plane_dma_addr (bufs dev' p) = plane_dma_addr (bufs dev p)).
Proof.
  unfold isr_timestamp. destruct (cur_frm dev) as [cur |] eqn:Hcur; simpl;
    repeat split; auto.
  intros p. destruct (Nat.eqb_spec p cur) as [-> | Hp]; reflexivity.
Qed.

Lemma isr_leave_trigger_mode_frame (dev : unicam_device) :
  let dev' := isr_leave_trigger_mode dev in
  cur_frm dev' = cur_frm dev /\ next_frm dev' = next_frm dev
  /\ dma_queue dev' = dma_queue dev /\ done dev' = done dev
  /\ sequence dev' = sequence dev /\ streaming dev' = streaming dev
  /\ bufs dev' = bufs dev
  /\ clk_gate_base (cfg dev') = clk_gate_base (cfg dev)
  /\ v_fmt dev' = v_fmt dev /\ m_fmt_field dev' = m_fmt_field dev
  /\ (forall r, r <> UNICAM_ICTL -> base (cfg dev') r = base (cfg dev) r).
Proof.
  unfold isr_leave_trigger_mode.
  destruct (negb (Z.land (reg_read (cfg dev) UNICAM_ICTL) UNICAM_FCM =? 0));
    simpl; repeat split; auto.
  intros r Hr. destruct (unicam_reg_eq_dec r UNICAM_ICTL);
    [contradiction | reflexivity].
Qed.

Lemma isr_complete_starved (dev : unicam_device) :
  cur_frm dev = next_frm dev -> isr_complete dev = Some dev.
Proof.
  intros H. unfold isr_complete. rewrite H, ptr_eqb_refl.
  destruct (next_frm dev); reflexivity.
Qed.

Lemma isr_next_buffer_empty (dev : unicam_device) :
  dma_queue dev = [] -> isr_next_buffer dev = Some dev.
Proof. intros H. unfold isr_next_buffer. rewrite H. reflexivity. Qed.

(** C1: a frame end serviced while the queue is empty and both slots hold
    the same buffer completes no buffer and leaves both slots, the queue,
    the sequence counter and the streaming flag as they were; the handler
    returns IRQ_HANDLED and writes no register other than the two status
    registers it acknowledges and UNICAM_ICTL, so the receiver is not
    stopped. *)
Theorem starvation_drops_frame (dev : unicam_device) (now : Z) :
  streaming dev <> 0 ->
  isr_serviced dev = true ->
  isr_frame_end dev = true ->
  dma_queue dev = [] ->
  cur_frm dev = next_frm dev ->
  exists dev',
    unicam_isr dev now = Some (IRQ_HANDLED, dev')
    /\ done dev' = done dev
    /\ cur_frm dev' = cur_frm dev
    /\ next_frm dev' = next_frm dev
    /\ cur_frm dev' = next_frm dev'
    /\ dma_queue dev' = []
    /\ sequence dev' = sequence dev
    /\ streaming dev' = streaming dev
    /\ clk_gate_base (cfg dev') = clk_gate_base (cfg dev)
    /\ clk_enabled dev' = clk_enabled dev
    /\ (forall r, r <> UNICAM_STA -> r <> UNICAM_ISTA -> r <> UNICAM_ICTL ->
        base (cfg dev') r = base (cfg dev) r).
Proof.
  intros Hstr Hserv Hend Hq Heq.
  unfold unicam_isr.
  apply Z.eqb_neq in Hstr. rewrite Hstr, Hserv, Hend. cbn [negb].
  cbv zeta.
  set (dev1 := set_cfg (reg_write (reg_write (cfg dev) UNICAM_STA (isr_sta dev))
                                  UNICAM_ISTA (isr_ista dev)) dev).
  set (dev2 := if isr_frame_start dev then isr_timestamp dev1 now else dev1).
  assert (H2 : cur_frm dev2 = cur_frm dev /\ next_frm dev2 = next_frm dev
               /\ dma_queue dev2 = dma_queue dev /\ done dev2 = done dev
               /\ sequence dev2 = sequence dev
               /\ streaming dev2 = streaming dev
               /\ clk_gate_base (cfg dev2) = clk_gate_base (cfg dev)
               /\ clk_enabled dev2 = clk_enabled dev
               /\ cfg dev2 = cfg dev1).
  { unfold dev2. destruct (isr_frame_start dev).
    - unfold isr_timestamp. destruct (cur_frm dev1); simpl; repeat split.
    - simpl; repeat split. }
  destruct H2 as (Hc & Hn & Hq2 & Hd & Hs & Hst & Hg & Hce & Hcfg).
  rewrite isr_complete_starved by congruence. cbn [bind].
  assert (Hnb : isr_next_buffer dev2 = Some dev2)
    by (apply isr_next_buffer_empty; congruence).
  replace (if isr_schedule dev then isr_next_buffer dev2 else Some dev2)
    with (Some dev2) by (destruct (isr_schedule dev); congruence).
  cbn [bind].
  eexists. split; [reflexivity |].
  unfold isr_leave_trigger_mode.
  destruct (negb (Z.land (reg_read (cfg dev2) UNICAM_ICTL) UNICAM_FCM =? 0));
    cbn -[dev2]; rewrite ?Hc, ?Hn, ?Hq2, ?Hd, ?Hs, ?Hst, ?Hg, ?Hce, ?Hcfg;
    (repeat split; [congruence.. |]);
    intros r H1 H2 H3; subst dev1; simpl;
    repeat (destruct (unicam_reg_eq_dec r _); [contradiction |]);
    reflexivity.
Qed.

(** *** The handler never faults *)

Lemma isr_complete_distinct (dev : unicam_device) (a b : bufptr) :
  cur_frm dev = Some a -> next_frm dev = Some b -> a <> b ->
  exists dev',
    isr_complete dev = Some dev'
    /\ done dev' =
       done dev ++ [{| c_buf := a; c_state := VB2_BUF_STATE_DONE;
                       c_vb := {| vb_field := m_fmt_field dev;
                                  vb_sequence := sequence dev;
                                  vb_timestamp := vb_timestamp (bufs dev a);
                                  plane_dma_addr :=
                                    plane_dma_addr (bufs dev a) |} |}]
    /\ cur_frm dev' = Some b /\ next_frm dev' = Some b
    /\ sequence dev' = u32 (sequence dev + 1)
    /\ dma_queue dev' = dma_queue dev /\ streaming dev' = streaming dev
    /\ cfg dev' = cfg dev /\ v_fmt dev' = v_fmt dev
    /\ (forall p, plane_dma_addr (bufs dev' p) = plane_dma_addr (bufs dev p)).
Proof.
  intros Hc Hn Hab. unfold isr_complete, unicam_process_buffer_complete.
  rewrite Hc, Hn, (ptr_eqb_neq a b Hab). cbn [negb].
  eexists. split; [reflexivity |]. simpl. rewrite Nat.eqb_refl.
  repeat split; auto.
  intros p. destruct (Nat.eqb_spec p a) as [-> | Hp]; reflexivity.
Qed.

Lemma isr_complete_numbered (dev : unicam_device) :
  exists dev' new,
    isr_complete dev = Some dev'
    /\ done dev' = done dev ++ new
    /\ numbered_from (sequence dev) new
    /\ sequence dev' = advance (sequence dev) (length new)
    /\ streaming dev' = streaming dev.
Proof.
  unfold isr_complete.
  destruct (cur_frm dev) as [a |] eqn:Hc.
  - destruct (ptr_eqb (Some a) (next_frm dev)) eqn:He; cbn [negb].
    + exists dev, []. rewrite app_nil_r. simpl. auto.
    + unfold unicam_process_buffer_complete. rewrite Hc.
      eexists. eexists. split; [reflexivity |]. simpl.
      rewrite Nat.eqb_refl. split; [reflexivity |]. simpl. auto 10.
  - exists dev, []. rewrite app_nil_r. simpl. auto.
Qed.

Lemma isr_next_buffer_total (dev : unicam_device) :
  exists dev',
    isr_next_buffer dev = Some dev'
    /\ done dev' = done dev /\ sequence dev' = sequence dev
    /\ streaming dev' = streaming dev.
Proof.
  unfold isr_next_buffer, unicam_schedule_next_buffer.
  destruct (dma_queue dev) as [| b q]; [exists dev; auto |].
  destruct (ptr_eqb (cur_frm dev) (next_frm dev));
    eexists; (split; [reflexivity |]); simpl; auto.
Qed.

Lemma unicam_isr_numbered (dev : unicam_device) (now : Z) :
  exists dev' new,
    unicam_isr dev now = Some (IRQ_HANDLED, dev')
    /\ done dev' = done dev ++ new
    /\ numbered_from (sequence dev) new
    /\ sequence dev' = advance (sequence dev) (length new)
    /\ streaming dev' = streaming dev.
Proof.
  unfold unicam_isr.
  destruct (streaming dev =? 0).
  { exists dev, []. rewrite app_nil_r. simpl. auto. }
  destruct (isr_serviced dev); cbn [negb].
  2:{ eexists. exists []. rewrite app_nil_r. simpl. auto. }
  cbv zeta.
  set (dev1 := set_cfg (reg_write (reg_write (cfg dev) UNICAM_STA (isr_sta dev))
                                  UNICAM_ISTA (isr_ista dev)) dev).
  set (dev2 := if isr_frame_start dev then isr_timestamp dev1 now else dev1).
  assert (H2 : done dev2 = done dev /\ sequence dev2 = sequence dev
               /\ streaming dev2 = streaming dev).
  { unfold dev2. destruct (isr_frame_start dev).
    - unfold isr_timestamp. destruct (cur_frm dev1); simpl; auto.
    - simpl; auto. }
  destruct H2 as (Hd & Hs & Hst).
  assert (H3 : exists dev3 new,
             (if isr_frame_end dev then isr_complete dev2 else Some dev2)
             = Some dev3
             /\ done dev3 = done dev ++ new
             /\ numbered_from (sequence dev) new
             /\ sequence dev3 = advance (sequence dev) (length new)
             /\ streaming dev3 = streaming dev).
  { destruct (isr_frame_end dev).
    - destruct (isr_complete_numbered dev2) as (d & new & E & D & N & S & T).
      exists d, new. rewrite <- Hd, <- Hs, <- Hst. auto.
    - exists dev2, []. rewrite app_nil_r. simpl. auto. }
  destruct H3 as (dev3 & new & E3 & D3 & N3 & S3 & T3).
  rewrite E3. cbn [bind].
  assert (H4 : exists dev4,
             (if isr_schedule dev then isr_next_buffer dev3 else Some dev3)
             = Some dev4
             /\ done dev4 = done dev3 /\ sequence dev4 = sequence dev3
             /\ streaming dev4 = streaming dev3).
  { destruct (isr_schedule dev); [apply isr_next_buffer_total |].
    exists dev3. auto. }
  destruct H4 as (dev4 & E4 & D4 & S4 & T4).
  rewrite E4. cbn [bind].
  destruct (isr_leave_trigger_mode_frame dev4)
    as (_ & _ & _ & D5 & S5 & T5 & _).
  eexists. exists new. split; [reflexivity |].
  rewrite D5, S5, T5, D4, S4, T4. auto.
Qed.

Lemma numbered_from_app (l1 l2 : list completion) :
  forall s, numbered_from s l1 ->
  numbered_from (advance s (length l1)) l2 ->
  numbered_from s (l1 ++ l2).
Proof.
  induction l1 as [| c l1 IH]; intros s H1 H2; simpl in *; [exact H2 |].
  destruct H1 as (Hc & Hs & Hrest). auto.
Qed.

Lemma advance_add (n m : nat) :
  forall s, advance s (n + m) = advance (advance s n) m.
Proof. induction n as [| n IH]; intros s; simpl; [reflexivity | apply IH]. Qed.

Lemma step_numbered (dev : unicam_device) (e : event) :
  exists dev' new,
    step dev e = Some dev'
    /\ done dev' = done dev ++ new
    /\ numbered_from (sequence dev) new
    /\ sequence dev' = advance (sequence dev) (length new)
    /\ streaming dev' = streaming dev.
Proof.
  destruct e as [buf | sta ista now]; simpl.
  - exists (unicam_buffer_queue dev buf), []. rewrite app_nil_r. simpl. auto.
  - destruct (unicam_isr_numbered (raise_irq dev sta ista) now)
      as (d & new & E & D & N & S & T).
    rewrite E. cbn [bind snd]. exists d, new. auto.
Qed.

Lemma run_total (es : list event) :
  forall dev, exists dev', run dev es = Some dev'.
Proof.
  induction es as [| e es IH]; intros dev; [exists dev; reflexivity |].
  destruct (step_numbered dev e) as (d1 & new & E1 & _).
  destruct (IH d1) as (d2 & E2).
  exists d2. cbn [run]. rewrite E1. exact E2.
Qed.

Lemma step_state_or (dev dflt : unicam_device) (e : event) :
  step dev e = Some (state_or dflt (step dev e)).
Proof.
  destruct (step_numbered dev e) as (d1 & new & E1 & _).
  rewrite E1. reflexivity.
Qed.

Lemma run_state_or (dev dflt : unicam_device) (es : list event) :
  run dev es = Some (state_or dflt (run dev es)).
Proof.
  destruct (run_total es dev) as (d1 & E1). rewrite E1. reflexivity.
Qed.

(** C2 (as amended): over every run of queueing and interrupts, however
    many frames are dropped, the handler never faults and the buffers it
    completes carry consecutive sequence numbers: the first one the value
    of the counter at the start of the run and each next one the previous
    number plus one (modulo 2^32); a dropped frame does not advance the
    counter. *)
Theorem completions_numbered_consecutively (dev : unicam_device)
    (es : list event) :
  exists dev' new,
    run dev es = Some dev'
    /\ done dev' = done dev ++ new
    /\ numbered_from (sequence dev) new
    /\ sequence dev' = advance (sequence dev) (length new).
Proof.
  revert dev. induction es as [| e es IH]; intros dev.
  - exists dev, []. rewrite app_nil_r. simpl. auto.
  - destruct (step_numbered dev e) as (d1 & new1 & E1 & D1 & N1 & S1 & _).
    destruct (IH d1) as (d2 & new2 & E2 & D2 & N2 & S2).
    exists d2, (new1 ++ new2). cbn [run]. rewrite E1. cbn [bind].
    split; [exact E2 |].
    split; [rewrite D2, D1, app_assoc; reflexivity |].
    split.
    + apply numbered_from_app; [exact N1 |]. rewrite <- S1. exact N2.
    + rewrite S2, S1, length_app, advance_add. reflexivity.
Qed.

(** *** Leaving starvation *)

(** The handler up to and including the frame-start block. *)
Lemma isr_entry_frame (dev : unicam_device) (now : Z) :
  let dev1 :=
    set_cfg (reg_write (reg_write (cfg dev) UNICAM_STA (isr_sta dev))
                       UNICAM_ISTA (isr_ista dev)) dev in
  let dev2 := if isr_frame_start dev then isr_timestamp dev1 now else dev1 in
  cur_frm dev2 = cur_frm dev /\ next_frm dev2 = next_frm dev
  /\ dma_queue dev2 = dma_queue dev /\ done dev2 = done dev
  /\ sequence dev2 = sequence dev /\ streaming dev2 = streaming dev
  /\ v_fmt dev2 = v_fmt dev /\ m_fmt_field dev2 = m_fmt_field dev
  /\ (forall p, plane_dma_addr (bufs dev2 p) = plane_dma_addr (bufs dev p)).
Proof.
  intros dev1 dev2. unfold dev2.
  destruct (isr_frame_start dev).
  - destruct (isr_timestamp_frame dev1 now)
      as (H1 & H2 & H3 & H4 & H5 & H6 & _ & H9 & H10 & H11).
    repeat split; assumption.
  - repeat split.
Qed.

Lemma raise_irq_frame (dev : unicam_device) (sta ista : Z) :
  let dev' := raise_irq dev sta ista in
  cur_frm dev' = cur_frm dev /\ next_frm dev' = next_frm dev
  /\ dma_queue dev' = dma_queue dev /\ done dev' = done dev
  /\ sequence dev' = sequence dev /\ streaming dev' = streaming dev
  /\ v_fmt dev' = v_fmt dev /\ m_fmt_field dev' = m_fmt_field dev
  /\ bufs dev' = bufs dev.
Proof. simpl. repeat split. Qed.

(** An interrupt with the frame-start or line-count bit, taken while both
    slots hold [a] and [b] heads the queue. *)
Lemma isr_schedules_next (dev : unicam_device) (now : Z) (a b : bufptr)
    (q : list bufptr) :
  streaming dev <> 0 ->
  isr_serviced dev = true -> isr_schedule dev = true ->
  cur_frm dev = Some a -> next_frm dev = Some a -> dma_queue dev = b :: q ->
  exists dev',
    unicam_isr dev now = Some (IRQ_HANDLED, dev')
    /\ cur_frm dev' = Some a /\ next_frm dev' = Some b
    /\ dma_queue dev' = q /\ done dev' = done dev
    /\ sequence dev' = sequence dev /\ streaming dev' = streaming dev
    /\ v_fmt dev' = v_fmt dev /\ m_fmt_field dev' = m_fmt_field dev
    /\ (forall p, plane_dma_addr (bufs dev' p) = plane_dma_addr (bufs dev p))
    /\ base (cfg dev') UNICAM_IBSA0 = u32 (plane_dma_addr (bufs dev b))
    /\ base (cfg dev') UNICAM_IBEA0
       = u32 (u32 (plane_dma_addr (bufs dev b)) + sizeimage (v_fmt dev)).
Proof.
  intros Hstr Hserv Hsch Hc Hn Hq.
  unfold unicam_isr.
  apply Z.eqb_neq in Hstr. rewrite Hstr, Hserv, Hsch. cbn [negb].
  destruct (isr_entry_frame dev now)
    as (E1 & E2 & E3 & E4 & E5 & E6 & E7 & E8 & E9).
  cbv zeta in E1, E2, E3, E4, E5, E6, E7, E8, E9.
  set (dev2 := if isr_frame_start dev
               then isr_timestamp
                      (set_cfg (reg_write
                                  (reg_write (cfg dev) UNICAM_STA (isr_sta dev))
                                  UNICAM_ISTA (isr_ista dev)) dev) now
               else set_cfg (reg_write
                               (reg_write (cfg dev) UNICAM_STA (isr_sta dev))
                               UNICAM_ISTA (isr_ista dev)) dev) in *.
  replace (if isr_frame_end dev then isr_complete dev2 else Some dev2)
    with (Some dev2)
    by (destruct (isr_frame_end dev);
        [rewrite isr_complete_starved by congruence |]; reflexivity).
  cbn [bind].
  unfold isr_next_buffer, unicam_schedule_next_buffer.
  rewrite E3, Hq, E1, E2, Hc, Hn, ptr_eqb_refl. cbn [bind].
  eexists. split; [reflexivity |].
  match goal with
  | |- context [isr_leave_trigger_mode ?d] =>
      destruct (isr_leave_trigger_mode_frame d)
        as (L1 & L2 & L3 & L4 & L5 & L6 & L7 & _ & L9 & L10 & L11)
  end.
  rewrite L1, L2, L3, L4, L5, L6, L7, L9, L10.
  rewrite !L11 by discriminate.
  cbn -[dev2 u32]. rewrite E1, E4, E5, E6, E7, E8, !E9, Hc.
  assert (Hu : forall x, u32 (u32 x) = u32 x)
    by (intros x; unfold u32; apply Z.mod_mod; lia).
  rewrite Hu. repeat split; auto.
Qed.

(** A frame end taken while the slots hold different buffers. *)
Lemma isr_completes_current (dev : unicam_device) (now : Z) (a b : bufptr) :
  streaming dev <> 0 ->
  isr_serviced dev = true -> isr_frame_end dev = true ->
  cur_frm dev = Some a -> next_frm dev = Some b -> a <> b ->
  exists dev' c,
    unicam_isr dev now = Some (IRQ_HANDLED, dev')
    /\ done dev' = done dev ++ [c]
    /\ c_buf c = a /\ c_state c = VB2_BUF_STATE_DONE
    /\ vb_sequence (c_vb c) = sequence dev
    /\ cur_frm dev' = Some b
    /\ sequence dev' = u32 (sequence dev + 1).
Proof.
  intros Hstr Hserv Hend Hc Hn Hab.
  unfold unicam_isr.
  apply Z.eqb_neq in Hstr. rewrite Hstr, Hserv, Hend. cbn [negb].
  destruct (isr_entry_frame dev now)
    as (E1 & E2 & E3 & E4 & E5 & E6 & E7 & E8 & E9).
  cbv zeta in E1, E2, E3, E4, E5, E6, E7, E8, E9.
  set (dev2 := if isr_frame_start dev
               then isr_timestamp
                      (set_cfg (reg_write
                                  (reg_write (cfg dev) UNICAM_STA (isr_sta dev))
                                  UNICAM_ISTA (isr_ista dev)) dev) now
               else set_cfg (reg_write
                               (reg_write (cfg dev) UNICAM_STA (isr_sta dev))
                               UNICAM_ISTA (isr_ista dev)) dev) in *.
  destruct (isr_complete_distinct dev2 a b)
    as (dev3 & C0 & C1 & C2 & C3 & C4 & C5 & C6 & _); try congruence.
  rewrite C0. cbn [bind].
  assert (H4 : exists dev4,
             (if isr_schedule dev then isr_next_buffer dev3 else Some dev3)
             = Some dev4
             /\ done dev4 = done dev3 /\ sequence dev4 = sequence dev3
             /\ cur_frm dev4 = cur_frm dev3).
  { destruct (isr_schedule dev); [| exists dev3; auto].
    unfold isr_next_buffer, unicam_schedule_next_buffer.
    destruct (dma_queue dev3) as [| x xs]; [exists dev3; auto |].
    destruct (ptr_eqb (cur_frm dev3) (next_frm dev3));
      eexists; (split; [reflexivity |]); simpl; auto. }
  destruct H4 as (dev4 & N0 & N1 & N2 & N3).
  rewrite N0. cbn [bind].
  destruct (isr_leave_trigger_mode_frame dev4)
    as (L1 & _ & _ & L4 & L5 & _).
  eexists. eexists. split; [reflexivity |].
  rewrite L1, L4, L5, N1, N2, N3, C1, C2, C4, E4, E5, E8.
  split; [reflexivity |]. simpl. auto.
Qed.

Lemma run_queue (subs : list bufptr) :
  forall dev rest,
  run dev (map EvQueue subs ++ rest)
  = run (fold_left unicam_buffer_queue subs dev) rest.
Proof.
  induction subs as [| x subs IH]; intros dev rest; [reflexivity |].
  simpl. apply IH.
Qed.

Lemma fold_queue_frame (subs : list bufptr) :
  forall dev,
  let dev' := fold_left unicam_buffer_queue subs dev in
  cur_frm dev' = cur_frm dev /\ next_frm dev' = next_frm dev
  /\ done dev' = done dev /\ sequence dev' = sequence dev
  /\ streaming dev' = streaming dev
  /\ dma_queue dev' = dma_queue dev ++ subs.
Proof.
  induction subs as [| x subs IH]; intros dev; simpl.
  - rewrite app_nil_r. repeat split.
  - destruct (IH (unicam_buffer_queue dev x)) as (H1 & H2 & H3 & H4 & H5 & H6).
    simpl in *. rewrite H1, H2, H3, H4, H5, H6, <- app_assoc. repeat split.
Qed.

Lemma isr_flags_raise_irq (dev dev' : unicam_device) (sta ista : Z) :
  isr_serviced (raise_irq dev' sta ista) = isr_serviced (raise_irq dev sta ista)
  /\ isr_frame_end (raise_irq dev' sta ista)
     = isr_frame_end (raise_irq dev sta ista)
  /\ isr_schedule (raise_irq dev' sta ista)
     = isr_schedule (raise_irq dev sta ista).
Proof. repeat split. Qed.

(** C5 (as amended): once a buffer [b] waits in the queue while both slots
    hold [a], the next serviced interrupt that carries the frame-start or
    the line-count bit (a frame end alone does not) moves [b] into the
    next slot and writes its address to the DMA registers, completing
    nothing; the frame end that follows, whatever was queued meanwhile,
    completes [a] with the current sequence number and makes [b] the
    current buffer. *)
Theorem starvation_recovery (dev : unicam_device) (a b : bufptr)
    (q subs : list bufptr) (sta1 ista1 now1 sta2 ista2 now2 : Z) :
  streaming dev <> 0 ->
  cur_frm dev = Some a -> next_frm dev = Some a ->
  dma_queue dev = b :: q -> a <> b ->
  isr_serviced (raise_irq dev sta1 ista1) = true ->
  isr_schedule (raise_irq dev sta1 ista1) = true ->
  isr_serviced (raise_irq dev sta2 ista2) = true ->
  isr_frame_end (raise_irq dev sta2 ista2) = true ->
  exists dev1 dev2 c,
    step dev (EvIrq sta1 ista1 now1) = Some dev1
    /\ cur_frm dev1 = Some a /\ next_frm dev1 = Some b
    /\ dma_queue dev1 = q /\ done dev1 = done dev
    /\ base (cfg dev1) UNICAM_IBSA0 = u32 (plane_dma_addr (bufs dev b))
    /\ base (cfg dev1) UNICAM_IBEA0
       = u32 (u32 (plane_dma_addr (bufs dev b)) + sizeimage (v_fmt dev))
    /\ run dev1 (map EvQueue subs ++ [EvIrq sta2 ista2 now2]) = Some dev2
    /\ done dev2 = done dev ++ [c]
    /\ c_buf c = a /\ c_state c = VB2_BUF_STATE_DONE
    /\ vb_sequence (c_vb c) = sequence dev
    /\ cur_frm dev2 = Some b.
Proof.
  intros Hstr Hc Hn Hq Hab Hs1 Hn1 Hs2 He2.
  destruct (raise_irq_frame dev sta1 ista1)
    as (R1 & R2 & R3 & R4 & R5 & R6 & R7 & R8 & R9).
  cbv zeta in R1, R2, R3, R4, R5, R6, R7, R8, R9.
  destruct (isr_schedules_next (raise_irq dev sta1 ista1) now1 a b q)
    as (dev1 & I0 & I1 & I2 & I3 & I4 & I5 & I6 & I7 & I8 & I9 & I10 & I11);
    try congruence.
  rewrite R9, R7 in *.
  set (devq := fold_left unicam_buffer_queue subs dev1).
  destruct (fold_queue_frame subs dev1) as (F1 & F2 & F3 & F4 & F5 & F6).
  cbv zeta in F1, F2, F3, F4, F5, F6. fold devq in F1, F2, F3, F4, F5, F6.
  destruct (raise_irq_frame devq sta2 ista2)
    as (Q1 & Q2 & Q3 & Q4 & Q5 & Q6 & _).
  cbv zeta in Q1, Q2, Q3, Q4, Q5, Q6.
  destruct (isr_flags_raise_irq dev devq sta2 ista2) as (G1 & G2 & _).
  destruct (isr_completes_current (raise_irq devq sta2 ista2) now2 a b)
    as (dev2 & c & J0 & J1 & J2 & J3 & J4 & J5 & J6); try congruence.
  exists dev1, dev2, c.
  split; [cbn [step]; rewrite I0; reflexivity |].
  repeat (split; [assumption || congruence |]).
  split.
  { rewrite run_queue. fold devq. cbn [run step]. rewrite J0. reflexivity. }
  split; [congruence |].
  repeat (split; [assumption || congruence |]). exact J5.
Qed.

End Scheduler.

Section Lifecycle.

Context {uapi : Uapi} {regs : Vc4Regs} {core : MediaCore}.

Lemma release_queue_spec (state : vb2_buffer_state) (q : list bufptr) :
  forall dev,
  let dev' := release_queue q state dev in
  done dev' = done dev ++ map (returned dev state) q
  /\ dma_queue dev' = match q with [] => dma_queue dev | _ :: _ => [] end
  /\ cur_frm dev' = cur_frm dev /\ next_frm dev' = next_frm dev
  /\ bufs dev' = bufs dev /\ cfg dev' = cfg dev
  /\ sequence dev' = sequence dev /\ streaming dev' = streaming dev
  /\ pm_usage dev' = pm_usage dev /\ clk_enabled dev' = clk_enabled dev.
Proof.
  induction q as [| p q IH]; intros dev; cbn [release_queue map].
  - rewrite app_nil_r. repeat split.
  - destruct (IH (vb2_buffer_done (set_dma_queue q dev) p state))
      as (H1 & H2 & H3 & H4 & H5 & H6 & H7 & H8 & H9 & H10).
    cbv zeta in H1, H2, H3, H4, H5, H6, H7, H8, H9, H10.
    rewrite H1, H2, H3, H4, H5, H6, H7, H8, H9, H10.
    cbn. rewrite <- app_assoc. cbn.
    repeat split. destruct q; reflexivity.
Qed.

(** *** Receiver start and stop touch the registers only *)

Lemma cfg_only_trans (d0 d1 d2 : unicam_device) :
  d1 = set_cfg (cfg d1) d0 -> d2 = set_cfg (cfg d2) d1 ->
  d2 = set_cfg (cfg d2) d0.
Proof. intros H1 H2. rewrite H2, H1. reflexivity. Qed.

Lemma cfg_set_cfg (c : unicam_cfg) (d : unicam_device) :
  cfg (set_cfg c d) = c.
Proof. reflexivity. Qed.

Lemma unicam_disable_frame (dev : unicam_device) :
  unicam_disable dev = set_cfg (cfg (unicam_disable dev)) dev.
Proof. reflexivity. Qed.

Lemma unicam_wr_dma_config_frame (dev : unicam_device) (stride : Z) :
  unicam_wr_dma_config dev stride
  = set_cfg (cfg (unicam_wr_dma_config dev stride)) dev.
Proof. reflexivity. Qed.

Lemma unicam_wr_dma_addr_frame (dev : unicam_device) (addr : Z) :
  unicam_wr_dma_addr dev addr
  = set_cfg (cfg (unicam_wr_dma_addr dev addr)) dev.
Proof. reflexivity. Qed.

Lemma unicam_set_packing_config_frame (dev : unicam_device) :
  unicam_set_packing_config dev
  = set_cfg (cfg (unicam_set_packing_config dev)) dev.
Proof. reflexivity. Qed.

Lemma unicam_cfg_image_id_frame (dev : unicam_device) :
  unicam_cfg_image_id dev = set_cfg (cfg (unicam_cfg_image_id dev)) dev.
Proof. reflexivity. Qed.

Lemma unicam_start_rx_frame (dev : unicam_device) (addr : Z) :
  unicam_start_rx dev addr = set_cfg (cfg (unicam_start_rx dev addr)) dev.
Proof.
  unfold unicam_start_rx. cbv zeta.
  match goal with
  | |- set_cfg ?x (unicam_cfg_image_id (unicam_set_packing_config
         (unicam_wr_dma_addr (unicam_wr_dma_config (set_cfg ?y dev) ?s) ?a)))
       = _ =>
      set (X := x);
      set (d1 := set_cfg y dev);
      set (d2 := unicam_wr_dma_config d1 s);
      set (d3 := unicam_wr_dma_addr d2 a);
      set (d4 := unicam_set_packing_config d3);
      set (d5 := unicam_cfg_image_id d4)
  end.
  apply (cfg_only_trans dev d5); [| reflexivity].
  apply (cfg_only_trans dev d4); [| apply unicam_cfg_image_id_frame].
  apply (cfg_only_trans dev d3); [| apply unicam_set_packing_config_frame].
  apply (cfg_only_trans dev d2); [| apply unicam_wr_dma_addr_frame].
  apply (cfg_only_trans dev d1); [| apply unicam_wr_dma_config_frame].
  reflexivity.
Qed.

Lemma unicam_cfg_image_id_base (dev : unicam_device) (r : unicam_reg) :
  r <> UNICAM_IDI0 ->
  base (cfg (unicam_cfg_image_id dev)) r = base (cfg dev) r.
Proof.
  intros Hr. unfold unicam_cfg_image_id. cbv zeta. cbn [cfg set_cfg].
  destruct (is_csi2 dev); apply reg_write_other; exact Hr.
Qed.

Lemma unicam_set_packing_config_base (dev : unicam_device) (r : unicam_reg) :
  r <> UNICAM_IPIPE ->
  base (cfg (unicam_set_packing_config dev)) r = base (cfg dev) r.
Proof.
  intros Hr. unfold unicam_set_packing_config. cbv zeta. cbn [cfg set_cfg].
  apply reg_write_other. exact Hr.
Qed.

Lemma u32_idem (x : Z) : u32 (u32 x) = u32 x.
Proof. unfold u32. apply Z.mod_mod. lia. Qed.

(** The receiver is started on the address it is given. *)
Lemma unicam_start_rx_dma_address (dev : unicam_device) (addr : Z) :
  base (cfg (unicam_start_rx dev addr)) UNICAM_IBSA0 = u32 addr.
Proof.
  unfold unicam_start_rx. cbv zeta. cbn [cfg set_cfg].
  rewrite !reg_write_field_other by discriminate.
  rewrite !reg_write_other by discriminate.
  rewrite unicam_cfg_image_id_base by discriminate.
  rewrite unicam_set_packing_config_base by discriminate.
  unfold unicam_wr_dma_addr. cbv zeta. cbn [cfg set_cfg].
  rewrite reg_write_other by discriminate.
  rewrite reg_write_same. apply u32_idem.
Qed.

Lemma start_streaming_lanes_frame (dev : unicam_device) :
  snd (start_streaming_lanes dev)
  = set_active_data_lanes
      (active_data_lanes (snd (start_streaming_lanes dev))) dev.
Proof.
  unfold start_streaming_lanes. cbv zeta.
  destruct (is_csi2 _ && has_g_mbus_config _); [| reflexivity].
  destruct (fst (g_mbus_config _) <? 0); [reflexivity |].
  cbn [snd].
  destruct (active_data_lanes _ =? 0); reflexivity.
Qed.

(** The lane negotiation reads the bus type, the sensor and the configured
    maximum only. *)
Lemma start_streaming_lanes_indep (d d' : unicam_device) :
  bus_type d' = bus_type d -> sensor d' = sensor d ->
  max_data_lanes d' = max_data_lanes d ->
  fst (start_streaming_lanes d') = fst (start_streaming_lanes d)
  /\ active_data_lanes (snd (start_streaming_lanes d'))
     = active_data_lanes (snd (start_streaming_lanes d)).
Proof.
  intros Hb Hs Hm. unfold start_streaming_lanes, is_csi2. cbv zeta.
  cbn [bus_type sensor max_data_lanes set_active_data_lanes active_data_lanes].
  rewrite Hb, Hs, Hm.
  destruct ((match bus_type d with V4L2_MBUS_CSI2_DPHY => true | _ => false end)
            && has_g_mbus_config (sensor d)); [| split; reflexivity].
  destruct (fst (g_mbus_config (sensor d)) <? 0); [split; reflexivity |].
  cbn [fst snd].
  destruct (_ =? 0); split; reflexivity.
Qed.

Lemma err_release_buffers_spec (d : unicam_device) (ret : Z) (b : bufptr) :
  cur_frm d = Some b -> next_frm d = Some b ->
  exists d',
    err_release_buffers d ret = Some (ret, d')
    /\ cur_frm d' = None /\ next_frm d' = None /\ dma_queue d' = []
    /\ done d' = done d ++ map (returned d VB2_BUF_STATE_QUEUED)
                               (dma_queue d ++ [b])
    /\ cfg d' = cfg d /\ streaming d' = streaming d /\ bufs d' = bufs d.
Proof.
  intros Hc Hn. unfold err_release_buffers. cbv zeta.
  destruct (release_queue_spec VB2_BUF_STATE_QUEUED (dma_queue d) d)
    as (R1 & R2 & R3 & R4 & R5 & R6 & R7 & R8 & _).
  cbv zeta in R1, R2, R3, R4, R5, R6, R7, R8.
  set (d1 := release_queue (dma_queue d) VB2_BUF_STATE_QUEUED d) in *.
  rewrite R3, R4, Hc, Hn, ptr_eqb_refl. cbn [negb].
  eexists. split; [reflexivity |].
  cbn -[d1]. rewrite R1, R5, R6, R8, map_app, <- app_assoc. cbn [map app].
  repeat split. rewrite R2. destruct (dma_queue d); reflexivity.
Qed.

Lemma err_pm_put_spec (d : unicam_device) (ret : Z) (b : bufptr) :
  cur_frm d = Some b -> next_frm d = Some b ->
  exists d',
    err_pm_put d ret = Some (ret, d')
    /\ cur_frm d' = None /\ next_frm d' = None /\ dma_queue d' = []
    /\ done d' = done d ++ map (returned d VB2_BUF_STATE_QUEUED)
                               (dma_queue d ++ [b])
    /\ cfg d' = cfg d /\ streaming d' = streaming d /\ bufs d' = bufs d.
Proof.
  intros Hc Hn. unfold err_pm_put.
  apply (err_release_buffers_spec (unicam_runtime_put d) ret b); assumption.
Qed.

Lemma err_disable_unicam_spec (d : unicam_device) (ret : Z) (b : bufptr) :
  cur_frm d = Some b -> next_frm d = Some b ->
  exists d',
    err_disable_unicam d ret = Some (ret, d')
    /\ cur_frm d' = None /\ next_frm d' = None /\ dma_queue d' = []
    /\ done d' = done d ++ map (returned d VB2_BUF_STATE_QUEUED)
                               (dma_queue d ++ [b])
    /\ streaming d' = streaming d /\ bufs d' = bufs d.
Proof.
  intros Hc Hn. unfold err_disable_unicam. cbv zeta.
  rewrite unicam_disable_frame.
  set (d1 := clk_disable_unprepare (set_cfg (cfg (unicam_disable d)) d)).
  destruct (err_pm_put_spec d1 ret b)
    as (d' & E & H1 & H2 & H3 & H4 & _ & H6 & H7); [exact Hc | exact Hn |].
  exists d'. repeat split; assumption.
Qed.

(** What [unicam_start_streaming] does with [b] for the first entry and
    [q] for the entries after it. *)
Lemma unicam_start_streaming_outcome_at (dev : unicam_device) (b : bufptr)
    (q : list bufptr) :
  hd active_head_entry (dma_queue dev) = b -> tl (dma_queue dev) = q ->
  exists ret dev',
    unicam_start_streaming dev = Some (ret, dev')
    /\ ((start_conditions dev /\ ret = 0
         /\ cur_frm dev' = Some b /\ next_frm dev' = Some b
         /\ dma_queue dev' = q /\ done dev' = done dev
         /\ sequence dev' = 0 /\ streaming dev' = 1
         /\ base (cfg dev') UNICAM_IBSA0 = u32 (plane_dma_addr (bufs dev b)))
        \/ (~ start_conditions dev
            /\ cur_frm dev' = None /\ next_frm dev' = None
            /\ dma_queue dev' = []
            /\ done dev' = done dev ++ map (returned dev VB2_BUF_STATE_QUEUED)
                                           (q ++ [b])
            /\ (ret = pm_runtime_get_sync (platform dev)
                \/ ret = fst (start_streaming_lanes dev)
                \/ ret = - EINVAL
                \/ ret = clk_set_rate (platform dev) (100 * 1000 * 1000)
                \/ ret = clk_prepare_enable (platform dev)
                \/ ret = s_stream (sensor dev) 1)
            /\ ((cfg dev' = cfg dev /\ streaming dev' = streaming dev)
                \/ s_stream (sensor dev) 1 < 0))).
Proof.
  intros Hb Hq. unfold unicam_start_streaming. cbv zeta.
  rewrite Hb, Hq.
  cbn [unicam_runtime_get fst snd].
  set (d0 := set_sequence 0
               (set_dma_queue q
                  (set_next_frm (Some b) (set_cur_frm (Some b) dev)))).
  change (platform d0) with (platform dev).
  change (pm_usage d0) with (pm_usage dev).
  set (d1 := set_pm_usage (pm_usage dev + 1) d0).
  unfold start_conditions.
  destruct (Z.ltb_spec (pm_runtime_get_sync (platform dev)) 0) as [Hpm | Hpm].
  { destruct (err_release_buffers_spec d1 (pm_runtime_get_sync (platform dev)) b)
      as (d' & E & H1 & H2 & H3 & H4 & H5 & H6 & _); try reflexivity.
    exists (pm_runtime_get_sync (platform dev)), d'.
    split; [exact E |]. right.
    split; [lia |]. repeat (split; [assumption |]). auto. }
  destruct (start_streaming_lanes_indep dev d1) as [L1 L2]; try reflexivity.
  rewrite (start_streaming_lanes_frame d1), L1, L2.
  set (A := active_data_lanes (snd (start_streaming_lanes dev))).
  set (d2 := set_active_data_lanes A d1).
  change (max_data_lanes d2) with (max_data_lanes dev).
  change (active_data_lanes d2) with A.
  change (platform d2) with (platform dev).
  change (clk_enabled d2) with (clk_enabled dev).
  set (d3 := set_streaming 1 (set_clk_enabled (clk_enabled dev + 1) d2)).
  change (bufs (set_dma_queue q
                  (set_next_frm (Some b) (set_cur_frm (Some b) dev))) b)
    with (bufs dev b).
  set (addr := plane_dma_addr (bufs dev b)).
  rewrite (unicam_start_rx_frame d3 addr).
  set (d4 := set_cfg (cfg (unicam_start_rx d3 addr)) d3).
  change (sensor d4) with (sensor dev).
  assert (Hpmput : forall ret,
             exists d',
               err_pm_put d2 ret = Some (ret, d')
               /\ cur_frm d' = None /\ next_frm d' = None
               /\ dma_queue d' = []
               /\ done d' = done dev ++ map (returned dev VB2_BUF_STATE_QUEUED)
                                            (q ++ [b])
               /\ cfg d' = cfg dev /\ streaming d' = streaming dev).
  { intros ret.
    destruct (err_pm_put_spec d2 ret b)
      as (d' & E & H1 & H2 & H3 & H4 & H5 & H6 & _); try reflexivity.
    exists d'. repeat (split; [assumption |]). assumption. }
  destruct (Z.ltb_spec (fst (start_streaming_lanes dev)) 0) as [Hl | Hl].
  { destruct (Hpmput (fst (start_streaming_lanes dev)))
      as (d' & E & H1 & H2 & H3 & H4 & H5 & H6).
    eexists. exists d'. split; [exact E |]. right.
    split; [lia |]. repeat (split; [assumption |]). auto. }
  destruct (Z.ltb_spec (max_data_lanes dev) A) as [Hm | Hm].
  { destruct (Hpmput (- EINVAL)) as (d' & E & H1 & H2 & H3 & H4 & H5 & H6).
    eexists. exists d'. split; [exact E |]. right.
    split; [lia |]. repeat (split; [assumption |]). auto. }
  destruct (Z.eqb_spec (clk_set_rate (platform dev) (100 * 1000 * 1000)) 0)
    as [Hr | Hr]; cbn [negb].
  2:{ destruct (Hpmput (clk_set_rate (platform dev) (100 * 1000 * 1000)))
        as (d' & E & H1 & H2 & H3 & H4 & H5 & H6).
      eexists. exists d'. split; [exact E |]. right.
      split; [tauto |]. repeat (split; [assumption |]). auto 7. }
  destruct (Z.eqb_spec (clk_prepare_enable (platform dev)) 0)
    as [He | He]; cbn [negb].
  2:{ destruct (Hpmput (clk_prepare_enable (platform dev)))
        as (d' & E & H1 & H2 & H3 & H4 & H5 & H6).
      eexists. exists d'. split; [exact E |]. right.
      split; [tauto |]. repeat (split; [assumption |]). auto 8. }
  destruct (Z.ltb_spec (s_stream (sensor dev) 1) 0) as [Hs | Hs].
  { destruct (err_disable_unicam_spec d4 (s_stream (sensor dev) 1) b)
      as (d' & E & H1 & H2 & H3 & H4 & H5 & H6); try reflexivity.
    eexists. exists d'. split; [exact E |]. right.
    split; [lia |]. repeat (split; [assumption |]). auto 9. }
  exists 0, d4. split; [reflexivity |]. left.
  split; [tauto |].
  do 7 (split; [reflexivity |]).
  unfold d4. rewrite cfg_set_cfg. apply unicam_start_rx_dma_address.
Qed.

(** What [unicam_start_streaming] does with a queue headed by [b]. *)
Lemma unicam_start_streaming_outcome (dev : unicam_device) (b : bufptr)
    (q : list bufptr) :
  dma_queue dev = b :: q ->
  exists ret dev',
    unicam_start_streaming dev = Some (ret, dev')
    /\ ((start_conditions dev /\ ret = 0
         /\ cur_frm dev' = Some b /\ next_frm dev' = Some b
         /\ dma_queue dev' = q /\ done dev' = done dev
         /\ sequence dev' = 0 /\ streaming dev' = 1
         /\ base (cfg dev') UNICAM_IBSA0 = u32 (plane_dma_addr (bufs dev b)))
        \/ (~ start_conditions dev
            /\ cur_frm dev' = None /\ next_frm dev' = None
            /\ dma_queue dev' = []
            /\ done dev' = done dev ++ map (returned dev VB2_BUF_STATE_QUEUED)
                                           (q ++ [b])
            /\ (ret = pm_runtime_get_sync (platform dev)
                \/ ret = fst (start_streaming_lanes dev)
                \/ ret = - EINVAL
                \/ ret = clk_set_rate (platform dev) (100 * 1000 * 1000)
                \/ ret = clk_prepare_enable (platform dev)
                \/ ret = s_stream (sensor dev) 1)
            /\ ((cfg dev' = cfg dev /\ streaming dev' = streaming dev)
                \/ s_stream (sensor dev) 1 < 0))).
Proof.
  intros Hq. apply unicam_start_streaming_outcome_at; rewrite Hq; reflexivity.
Qed.

(** The value [unicam_start_streaming] returns. *)
Lemma unicam_start_streaming_returns (dev : unicam_device) :
  exists dev', unicam_start_streaming dev = Some (start_result dev, dev').
Proof.
  unfold unicam_start_streaming, start_result. cbv zeta.
  cbn [unicam_runtime_get fst snd].
  set (b := hd active_head_entry (dma_queue dev)).
  set (d0 := set_sequence 0
               (set_dma_queue (tl (dma_queue dev))
                  (set_next_frm (Some b) (set_cur_frm (Some b) dev)))).
  change (platform d0) with (platform dev).
  change (pm_usage d0) with (pm_usage dev).
  set (d1 := set_pm_usage (pm_usage dev + 1) d0).
  destruct (pm_runtime_get_sync (platform dev) <? 0).
  { destruct (err_release_buffers_spec d1
                (pm_runtime_get_sync (platform dev)) b)
      as (d' & E & _); try reflexivity.
    exists d'. exact E. }
  destruct (start_streaming_lanes_indep dev d1) as [L1 L2]; try reflexivity.
  rewrite (start_streaming_lanes_frame d1), L1, L2.
  set (A := active_data_lanes (snd (start_streaming_lanes dev))).
  set (d2 := set_active_data_lanes A d1).
  change (max_data_lanes d2) with (max_data_lanes dev).
  change (active_data_lanes d2) with A.
  change (platform d2) with (platform dev).
  set (d3 := set_streaming 1 (set_clk_enabled (clk_enabled d2 + 1) d2)).
  match goal with
  | |- context [unicam_start_rx d3 ?a] =>
      set (addr := a); rewrite (unicam_start_rx_frame d3 addr)
  end.
  set (d4 := set_cfg (cfg (unicam_start_rx d3 addr)) d3).
  change (sensor d4) with (sensor dev).
  assert (Hpmput : forall ret, exists d', err_pm_put d2 ret = Some (ret, d')).
  { intros ret.
    destruct (err_pm_put_spec d2 ret b) as (d' & E & _); try reflexivity.
    exists d'. exact E. }
  destruct (fst (start_streaming_lanes dev) <? 0); [apply Hpmput |].
  destruct (max_data_lanes dev <? A); [apply Hpmput |].
  destruct (negb (clk_set_rate (platform dev) (100 * 1000 * 1000) =? 0));
    [apply Hpmput |].
  destruct (negb (clk_prepare_enable (platform dev) =? 0)); [apply Hpmput |].
  destruct (s_stream (sensor dev) 1 <? 0).
  { destruct (err_disable_unicam_spec d4 (s_stream (sensor dev) 1) b)
      as (d' & E & _); try reflexivity.
    exists d'. exact E. }
  exists d4. reflexivity.
Qed.

Lemma start_result_ok (dev : unicam_device) :
  start_conditions dev -> start_result dev = 0.
Proof.
  intros (H1 & H2 & H3 & H4 & H5 & H6). unfold start_result.
  destruct (Z.ltb_spec (pm_runtime_get_sync (platform dev)) 0); [lia |].
  destruct (Z.ltb_spec (fst (start_streaming_lanes dev)) 0); [lia |].
  destruct (Z.ltb_spec (max_data_lanes dev)
              (active_data_lanes (snd (start_streaming_lanes dev)))); [lia |].
  rewrite H4, H5. cbn [Z.eqb negb].
  destruct (Z.ltb_spec (s_stream (sensor dev) 1) 0); [lia | reflexivity].
Qed.


Lemma start_result_zero (dev : unicam_device) :
  0 < EINVAL -> start_result dev = 0 -> start_conditions dev.
Proof.
  intros He. unfold start_result, start_conditions.
  destruct (Z.ltb_spec (pm_runtime_get_sync (platform dev)) 0); [lia |].
  destruct (Z.ltb_spec (fst (start_streaming_lanes dev)) 0); [lia |].
  destruct (Z.ltb_spec (max_data_lanes dev)
              (active_data_lanes (snd (start_streaming_lanes dev)))); [lia |].
  destruct (Z.eqb_spec (clk_set_rate (platform dev) (100 * 1000 * 1000)) 0);
    cbn [negb]; [| contradiction].
  destruct (Z.eqb_spec (clk_prepare_enable (platform dev)) 0);
    cbn [negb]; [| contradiction].
  destruct (Z.ltb_spec (s_stream (sensor dev) 1) 0); [lia |].
  intros _. repeat split; assumption.
Qed.

(** C3 (as amended): a start whose collaborators succeed takes exactly one
    buffer, the head of the queue, however many are queued: it returns 0
    with that buffer in both the current and the next slot, the rest of the
    queue untouched, nothing completed, the sequence counter at zero, and
    the DMA address register holding the address of that buffer. *)
Theorem start_fills_both_slots_with_head (dev : unicam_device) (b : bufptr)
    (q : list bufptr) :
  dma_queue dev = b :: q ->
  start_conditions dev ->
  exists dev',
    unicam_start_streaming dev = Some (0, dev')
    /\ cur_frm dev' = Some b /\ next_frm dev' = Some b
    /\ cur_frm dev' = next_frm dev'
    /\ dma_queue dev' = q /\ done dev' = done dev
    /\ sequence dev' = 0 /\ streaming dev' = 1
    /\ base (cfg dev') UNICAM_IBSA0 = u32 (plane_dma_addr (bufs dev b)).
Proof.
  intros Hq Hok.
  destruct (unicam_start_streaming_outcome dev b q Hq)
    as (ret & dev' & E & [(_ & -> & H1 & H2 & H3 & H4 & H5 & H6 & H7)
                         | (Hno & _)]); [| contradiction].
  exists dev'. split; [exact E |].
  repeat (split; [assumption || congruence |]). exact H7.
Qed.


(** C6: stopping a stream whose slots hold [a] and [b] hands back every
    buffer of the queue, then [a], then [b] when it differs from [a], each
    tagged Error; with the held buffers pairwise distinct, every held
    buffer is handed back exactly once and nothing else is, and afterwards
    the slots and the queue are empty. *)
Theorem stop_returns_every_buffer (dev : unicam_device) (a b : bufptr) :
  cur_frm dev = Some a -> next_frm dev = Some b ->
  NoDup (dma_queue dev) ->
  ~ In a (dma_queue dev) -> ~ In b (dma_queue dev) ->
  exists dev' new,
    unicam_stop_streaming dev = Some dev'
    /\ done dev' = done dev ++ new
    /\ Forall (fun c => c_state c = VB2_BUF_STATE_ERROR) new
    /\ map c_buf new
       = dma_queue dev ++ (if Nat.eqb a b then [a] else [a; b])
    /\ NoDup (map c_buf new)
    /\ (forall p, held dev p <-> In p (map c_buf new))
    /\ cur_frm dev' = None /\ next_frm dev' = None /\ dma_queue dev' = [].
Proof.
  intros Hc Hn Hnd Ha Hb.
  unfold unicam_stop_streaming. cbv zeta.
  rewrite unicam_disable_frame.
  set (d1 := set_cfg (cfg (unicam_disable dev)) dev).
  change (dma_queue d1) with (dma_queue dev).
  destruct (release_queue_spec VB2_BUF_STATE_ERROR (dma_queue dev) d1)
    as (R1 & R2 & R3 & R4 & R5 & _).
  cbv zeta in R1, R2, R3, R4, R5.
  set (d2 := release_queue (dma_queue dev) VB2_BUF_STATE_ERROR d1) in *.
  change (done d1) with (done dev) in R1.
  change (cur_frm d1) with (cur_frm dev) in R3.
  change (next_frm d1) with (next_frm dev) in R4.
  change (dma_queue d1) with (dma_queue dev) in R2.
  rewrite R3, R4, Hc, Hn.
  assert (Hq2 : dma_queue d2 = [])
    by (rewrite R2; destruct (dma_queue dev); reflexivity).
  assert (Hmap : forall st l, map c_buf (map (returned d1 st) l) = l).
  { intros st l. rewrite map_map. cbn [returned c_buf]. apply map_id. }
  assert (Hall : forall l,
             Forall (fun c => c_state c = VB2_BUF_STATE_ERROR)
                    (map (returned d1 VB2_BUF_STATE_ERROR) l)).
  { intros l. apply Forall_forall. intros c Hin.
    apply in_map_iff in Hin. destruct Hin as (p & <- & _). reflexivity. }
  cbn [ptr_eqb].
  destruct (Nat.eqb_spec a b) as [Hab | Hab].
  - subst b.
    eexists. eexists. split; [reflexivity |].
    cbn -[d2]. rewrite R1, <- app_assoc.
    split; [reflexivity |].
    split.
    { apply Forall_app. split; [apply Hall |].
      constructor; [reflexivity | constructor]. }
    rewrite map_app, Hmap. cbn [map c_buf].
    split; [reflexivity |].
    split.
    { apply NoDup_app; [exact Hnd | |].
      - constructor; [intros [] | constructor].
      - intros p Hp [<- | []]. contradiction. }
    split.
    { intros p. unfold held. rewrite Hc, Hn, in_app_iff. cbn [In].
      split.
      - intros [H | [H | H]]; [injection H as ->; auto.. | auto].
      - intros [H | [-> | []]]; auto. }
    repeat split. exact Hq2.
  - eexists. eexists. split; [reflexivity |].
    cbn -[d2]. rewrite R1, <- !app_assoc.
    split; [reflexivity |].
    split.
    { apply Forall_app. split; [apply Hall |].
      constructor; [reflexivity |]. constructor; [reflexivity | constructor]. }
    rewrite map_app, Hmap. cbn [map c_buf app].
    split; [reflexivity |].
    split.
    { apply NoDup_app; [exact Hnd | |].
      - constructor; [intros [H | []]; congruence |].
        constructor; [intros [] | constructor].
      - intros p Hp [<- | [<- | []]]; contradiction. }
    split.
    { intros p. unfold held. rewrite Hc, Hn, in_app_iff. cbn [In].
      split.
      - intros [H | [H | H]]; [injection H as ->; auto.. | auto].
      - intros [H | [-> | [-> | []]]]; auto. }
    repeat split. exact Hq2.
Qed.

End Lifecycle.

(** * Further properties *)

(** ** Register fields *)

Lemma testbit_u32 (x i : Z) :
  0 <= i -> Z.testbit (u32 x) i = (i <? 32) && Z.testbit x i.
Proof.
  intros Hi. unfold u32.
  destruct (Z.ltb_spec i 32).
  - rewrite Z.mod_pow2_bits_low by lia. reflexivity.
  - rewrite Z.mod_pow2_bits_high by lia. reflexivity.
Qed.

Lemma lowest_bit_pos (p : positive) :
  exists l, 0 <= l
    /\ Z.land (Z.pos p) (- Z.pos p) = 2 ^ l
    /\ Z.testbit (Z.pos p) l = true
    /\ forall i, 0 <= i < l -> Z.testbit (Z.pos p) i = false.
Proof.
  induction p as [p IH | p IH |].
  - exists 0. split; [lia |].
    change (Z.pos p~1) with (2 * Z.pos p + 1).
    split; [| split; [apply Z.testbit_odd_0 | intros i Hi; lia]].
    apply Z.bits_inj'. intros n Hn.
    rewrite Z.land_spec, Z.bits_opp by lia.
    replace (Z.pred (2 * Z.pos p + 1)) with (2 * Z.pos p) by lia.
    rewrite Z.pow2_bits_eqb by lia.
    destruct (Z.eq_dec n 0) as [-> | Hn0].
    + rewrite Z.testbit_odd_0, Z.testbit_even_0. reflexivity.
    + replace n with (Z.succ (n - 1)) by lia.
      rewrite Z.testbit_odd_succ, Z.testbit_even_succ by lia.
      destruct (Z.testbit (Z.pos p) (n - 1)); cbn [andb negb];
        symmetry; apply Z.eqb_neq; lia.
  - destruct IH as (l & Hl & Hland & Hbit & Hlow).
    exists (l + 1). split; [lia |].
    change (Z.pos p~0) with (2 * Z.pos p).
    split; [| split].
    + replace (- (2 * Z.pos p)) with (2 * - Z.pos p) by lia.
      rewrite <- !(Z.mul_comm _ 2).
      change 2 with (2 ^ 1) at 1 2.
      rewrite <- !Z.shiftl_mul_pow2, <- Z.shiftl_land, Hland by lia.
      rewrite Z.shiftl_mul_pow2, <- Z.pow_add_r by lia. reflexivity.
    + replace (l + 1) with (Z.succ l) by lia.
      rewrite Z.testbit_even_succ by lia. exact Hbit.
    + intros i Hi. destruct (Z.eq_dec i 0) as [-> | Hi0].
      * apply Z.testbit_even_0.
      * replace i with (Z.succ (i - 1)) by lia.
        rewrite Z.testbit_even_succ by lia. apply Hlow. lia.
  - exists 0. repeat split; try reflexivity; try lia.
Qed.

(** [__ffs] of a non-zero word is the index of its lowest set bit. *)
Lemma __ffs_spec (m : Z) :
  0 < m ->
  0 <= __ffs m
  /\ Z.testbit m (__ffs m) = true
  /\ forall i, 0 <= i < __ffs m -> Z.testbit m i = false.
Proof.
  intros Hm. destruct m as [| p | p]; try lia.
  destruct (lowest_bit_pos p) as (l & Hl & Hland & Hbit & Hlow).
  unfold __ffs. rewrite Hland, Z.log2_pow2 by lia.
  repeat split; assumption.
Qed.

Lemma __ffs_contiguous (l n : Z) :
  0 <= l -> 0 < n -> __ffs (Z.shiftl (Z.ones n) l) = l.
Proof.
  intros Hl Hn.
  assert (Hbits : forall i, 0 <= i ->
            Z.testbit (Z.shiftl (Z.ones n) l) i = (l <=? i) && (i <? l + n)).
  { intros i Hi. rewrite Z.shiftl_spec by lia.
    destruct (Z.leb_spec l i); destruct (Z.ltb_spec i (l + n)); cbn [andb].
    - apply Z.ones_spec_low. lia.
    - apply Z.ones_spec_high. lia.
    - apply Z.testbit_neg_r. lia.
    - apply Z.testbit_neg_r. lia. }
  assert (Hpos : 0 < Z.shiftl (Z.ones n) l).
  { rewrite Z.shiftl_mul_pow2, Z.ones_equiv by lia.
    assert (1 < 2 ^ n) by (apply Z.pow_gt_1; lia).
    assert (0 < 2 ^ l) by (apply Z.pow_pos_nonneg; lia). nia. }
  destruct (__ffs_spec _ Hpos) as (H0 & Hbit & Hlow).
  rewrite Hbits in Hbit by lia.
  apply andb_true_iff in Hbit. destruct Hbit as [Hge _].
  apply Z.leb_le in Hge.
  destruct (Z.eq_dec (__ffs (Z.shiftl (Z.ones n) l)) l) as [E | E];
    [exact E |].
  specialize (Hlow l ltac:(lia)). rewrite Hbits in Hlow by lia.
  destruct (Z.leb_spec l l); destruct (Z.ltb_spec l (l + n));
    cbn [andb] in Hlow; try discriminate; lia.
Qed.

Lemma set_field_testbit (val field mask i : Z) :
  0 <= i ->
  Z.testbit (set_field val field mask) i
  = if Z.testbit mask i
    then (i <? 32) && Z.testbit field (i - __ffs mask)
    else (i <? 32) && Z.testbit val i.
Proof.
  intros Hi. unfold set_field. cbv zeta.
  rewrite Z.lor_spec, !Z.land_spec, !testbit_u32, Z.lnot_spec,
    Z.shiftl_spec by lia.
  destruct (Z.testbit mask i), (i <? 32), (Z.testbit val i),
    (Z.testbit field (i - __ffs mask)); reflexivity.
Qed.

Lemma set_field_u32 (val field mask : Z) :
  u32 (set_field val field mask) = set_field val field mask.
Proof.
  apply Z.bits_inj'. intros i Hi.
  rewrite testbit_u32, set_field_testbit by lia.
  destruct (Z.testbit mask i), (i <? 32); reflexivity.
Qed.

(** X1: [set_field] gives a 32-bit word in which the bits outside the
    mask are those of the old value and the bits under the mask those of
    the field shifted to the lowest bit of the mask; a second write to the
    same field replaces the first. *)
Theorem set_field_changes_masked_bits_only (val field field' mask : Z) :
  0 <= set_field val field mask < 2 ^ 32
  /\ Z.land (set_field val field mask) (Z.lnot mask)
     = Z.land (u32 val) (Z.lnot mask)
  /\ Z.land (set_field val field mask) mask
     = Z.land (u32 (Z.shiftl field (__ffs mask))) mask
  /\ set_field (set_field val field mask) field' mask
     = set_field val field' mask.
Proof.
  split; [rewrite <- set_field_u32; apply u32_range |].
  split; [| split]; apply Z.bits_inj'; intros i Hi.
  - rewrite !Z.land_spec, Z.lnot_spec, testbit_u32, set_field_testbit by lia.
    destruct (Z.testbit mask i); cbn [negb]; rewrite ?andb_false_r;
      reflexivity.
  - rewrite !Z.land_spec, testbit_u32, Z.shiftl_spec, set_field_testbit by lia.
    destruct (Z.testbit mask i); rewrite ?andb_false_r, ?andb_true_r;
      reflexivity.
  - rewrite !set_field_testbit by lia.
    destruct (Z.testbit mask i), (i <? 32); reflexivity.
Qed.

Lemma s32_small (x : Z) : 0 <= x < 2 ^ 31 -> s32 x = x.
Proof.
  intros H. unfold s32. rewrite Z.mod_small by lia. lia.
Qed.

(** X2: a field written with [set_field] under a contiguous mask of [n]
    bits starting at bit [l], within 32 bits, reads back with [get_field]
    as it was written, provided it fits the [n] bits: as the value that
    was written when the field is narrower than 32 bits, and in general
    as that value taken as an [int], since that is the type [get_field]
    returns. *)
Theorem get_field_set_field (val field l n : Z) :
  0 <= l -> 0 < n -> l + n <= 32 ->
  0 <= field < 2 ^ n ->
  get_field (set_field val field (Z.shiftl (Z.ones n) l))
            (Z.shiftl (Z.ones n) l)
  = s32 field
  /\ (n < 32 ->
      get_field (set_field val field (Z.shiftl (Z.ones n) l))
                (Z.shiftl (Z.ones n) l)
      = field).
Proof.
  intros Hl Hn Hfit Hf.
  assert (Hraw : Z.shiftr (Z.land (set_field val field (Z.shiftl (Z.ones n) l))
                                  (Z.shiftl (Z.ones n) l))
                          (__ffs (Z.shiftl (Z.ones n) l))
                 = field).
  { rewrite __ffs_contiguous by lia.
    apply Z.bits_inj'. intros i Hi.
    rewrite Z.shiftr_spec, Z.land_spec, set_field_testbit by lia.
    rewrite __ffs_contiguous by lia.
    rewrite Z.shiftl_spec by lia.
    replace (i + l - l) with i by lia.
    destruct (Z.ltb_spec i n) as [Hin | Hin].
    - rewrite Z.ones_spec_low by lia.
      destruct (Z.ltb_spec (i + l) 32); [| lia].
      cbn [andb]. rewrite andb_true_r. reflexivity.
    - rewrite Z.ones_spec_high by lia. rewrite andb_false_r.
      symmetry.
      destruct (Z.eq_dec field 0) as [-> | Hf0]; [apply Z.testbit_0_l |].
      apply Z.bits_above_log2; [lia |].
      assert (Z.log2 field < n) by (apply Z.log2_lt_pow2; lia). lia. }
  unfold get_field. rewrite Hraw.
  split; [reflexivity |].
  intros Hn32. apply s32_small.
  assert (2 ^ n <= 2 ^ 31) by (apply Z.pow_le_mono_r; lia). lia.
Qed.

(** X3: fields under masks that share no bit are independent: writing one
    leaves the other as [get_field] reads it, and the two writes can be
    made in either order. *)
Theorem set_field_disjoint_masks (val f g m1 m2 : Z) :
  Z.land m1 m2 = 0 ->
  get_field (set_field val f m1) m2 = get_field (u32 val) m2
  /\ set_field (set_field val f m1) g m2
     = set_field (set_field val g m2) f m1.
Proof.
  intros Hdis.
  assert (Hbit : forall i, Z.testbit m1 i && Z.testbit m2 i = false).
  { intros i. rewrite <- Z.land_spec, Hdis. apply Z.testbit_0_l. }
  split.
  - unfold get_field. do 2 f_equal.
    apply Z.bits_inj'. intros i Hi.
    rewrite !Z.land_spec, testbit_u32, set_field_testbit by lia.
    specialize (Hbit i).
    destruct (Z.testbit m1 i), (Z.testbit m2 i); cbn [andb] in *;
      try discriminate; rewrite ?andb_false_r; reflexivity.
  - apply Z.bits_inj'. intros i Hi.
    rewrite !set_field_testbit by lia.
    specialize (Hbit i).
    destruct (Z.testbit m1 i), (Z.testbit m2 i), (i <? 32);
      cbn [andb] in *; try discriminate; reflexivity.
Qed.

(** ** Format lookups *)

Section Lookups.

Context {uapi : Uapi} {regs : Vc4Regs} {core : MediaCore}.

Local Arguments check_mbus_format : simpl never.

Lemma find_format_by_code_from_sound (tbl : list unicam_fmt) (c : Z)
    (f : unicam_fmt) :
  find_format_by_code_from tbl c = Some f -> In f tbl /\ code f = c.
Proof.
  induction tbl as [| g rest IH]; cbn [find_format_by_code_from];
    [discriminate |].
  destruct (Z.eqb_spec (code g) c) as [Hc | Hc].
  - intros H. injection H as <-. split; [left; reflexivity | exact Hc].
  - intros H. destruct (IH H) as [Hin Hcode].
    split; [right; exact Hin | exact Hcode].
Qed.

Lemma find_format_by_code_from_unique (tbl : list unicam_fmt) (c : Z)
    (f : unicam_fmt) :
  NoDup (map code tbl) ->
  In f tbl -> code f = c -> find_format_by_code_from tbl c = Some f.
Proof.
  induction tbl as [| g rest IH]; intros Hnd Hin Hc; [destruct Hin |].
  cbn [find_format_by_code_from]. cbn [map] in Hnd.
  inversion Hnd as [| x l Hnotin Hnd']. subst x l.
  destruct Hin as [-> | Hin].
  - apply Z.eqb_eq in Hc. rewrite Hc. reflexivity.
  - destruct (Z.eqb_spec (code g) c) as [Hg | Hg].
    + exfalso. apply Hnotin. rewrite Hg, <- Hc. apply in_map. exact Hin.
    + apply IH; assumption.
Qed.

Lemma distinct_codes_sound (l : list Z) :
  distinct_codes l = true -> NoDup l.
Proof.
  induction l as [| c rest IH]; cbn [distinct_codes]; [constructor |].
  intros H. apply andb_true_iff in H. destruct H as [Hc Hrest].
  constructor; [| apply IH; exact Hrest].
  intros Hin. apply negb_true_iff in Hc.
  assert (Hex : existsb (Z.eqb c) rest = true).
  { apply existsb_exists. exists c. split; [exact Hin | apply Z.eqb_refl]. }
  congruence.
Qed.

(** X4: when no two entries of the format table share a transport code,
    the lookup by code and the table agree in both directions: the lookup
    returns [f] for a code exactly when [f] is the entry of the table with
    that code, so every entry is found by its own code and NULL is
    returned only for a code the table does not have. *)
Theorem find_format_by_code_round_trip :
  NoDup (map code formats) ->
  forall c f,
    find_format_by_code c = Some f <-> In f formats /\ code f = c.
Proof.
  intros Hnd c f. unfold find_format_by_code. split.
  - apply find_format_by_code_from_sound.
  - intros [Hin Hc]. apply find_format_by_code_from_unique; assumption.
Qed.

Lemma check_mbus_format_nonzero (dev : unicam_device) (f : unicam_fmt) :
  check_mbus_format dev f <> 0 <-> source_produces (sensor dev) (code f).
Proof.
  rewrite <- check_mbus_format_spec.
  destruct (check_mbus_format_from_bool (sensor dev) f
              (Z.to_nat MAX_ENUM_MBUS_CODE) 0 0) as [H | H];
    unfold check_mbus_format; rewrite H; split; intros; congruence || lia.
Qed.

Lemma matches_pix_eqb (f : unicam_fmt) (pix : Z) :
  (fourcc f =? pix) || (repacked_fourcc f =? pix) = true <-> matches_pix f pix.
Proof.
  unfold matches_pix. rewrite orb_true_iff, !Z.eqb_eq. reflexivity.
Qed.

Lemma not_accepted_cases (dev : unicam_device) (pix : Z) (g : unicam_fmt) :
  ~ accepted dev pix g ->
  ~ matches_pix g pix
  \/ (check_variants g <> 0 /\ ~ source_produces (sensor dev) (code g)).
Proof.
  intros Hn. unfold accepted in Hn.
  destruct ((fourcc g =? pix) || (repacked_fourcc g =? pix)) eqn:Hm.
  - apply matches_pix_eqb in Hm. right.
    destruct (Z.eq_dec (check_variants g) 0) as [Hv | Hv]; [tauto |].
    split; [exact Hv | tauto].
  - left. intros H. apply matches_pix_eqb in H. congruence.
Qed.

Lemma find_format_by_pix_from_first (tbl : list unicam_fmt)
    (dev : unicam_device) (pix : Z) :
  match find_format_by_pix_from tbl dev pix with
  | Some f =>
      exists pre post, tbl = pre ++ f :: post /\ accepted dev pix f
        /\ forall g, In g pre -> ~ accepted dev pix g
  | None => forall g, In g tbl -> ~ accepted dev pix g
  end.
Proof.
  induction tbl as [| g rest IH]; cbn [find_format_by_pix_from];
    [intros g [] |].
  assert (Hskip : ~ accepted dev pix g ->
            match find_format_by_pix_from rest dev pix with
            | Some f =>
                exists pre post, g :: rest = pre ++ f :: post
                  /\ accepted dev pix f
                  /\ forall g', In g' pre -> ~ accepted dev pix g'
            | None => forall g', In g' (g :: rest) -> ~ accepted dev pix g'
            end).
  { intros Hg. destruct (find_format_by_pix_from rest dev pix) as [f |].
    - destruct IH as (pre & post & -> & Hacc & Hpre).
      exists (g :: pre), post. split; [reflexivity |]. split; [exact Hacc |].
      intros g' [<- | Hin]; [exact Hg | exact (Hpre g' Hin)].
    - intros g' [<- | Hin]; [exact Hg | exact (IH g' Hin)]. }
  destruct ((fourcc g =? pix) || (repacked_fourcc g =? pix)) eqn:Hm.
  - apply matches_pix_eqb in Hm.
    destruct (Z.eqb_spec (check_variants g) 0) as [Hv | Hv]; cbn [negb andb].
    + exists [], rest. split; [reflexivity |].
      split; [split; [exact Hm | left; exact Hv] | intros g' []].
    + destruct (Z.eqb_spec (check_mbus_format dev g) 0) as [Hc | Hc].
      * apply Hskip. intros [_ [H | H]]; [contradiction |].
        apply check_mbus_format_zero in Hc. contradiction.
      * exists [], rest. split; [reflexivity |].
        split; [| intros g' []].
        split; [exact Hm | right]. apply check_mbus_format_nonzero. exact Hc.
  - apply Hskip. intros [H _]. apply matches_pix_eqb in H. congruence.
Qed.

Lemma find_format_by_pix_from_app (l1 l2 : list unicam_fmt)
    (dev : unicam_device) (pix : Z) :
  find_format_by_pix_from (l1 ++ l2) dev pix
  = match find_format_by_pix_from l1 dev pix with
    | Some f => Some f
    | None => find_format_by_pix_from l2 dev pix
    end.
Proof.
  induction l1 as [| g l1 IH]; cbn [app find_format_by_pix_from];
    [reflexivity |].
  rewrite IH.
  destruct ((fourcc g =? pix) || (repacked_fourcc g =? pix));
    [| reflexivity].
  destruct (negb (check_variants g =? 0) && (check_mbus_format dev g =? 0));
    reflexivity.
Qed.

(** X5: the lookup by pixel code returns the first entry of the table
    that answers to the code and is unambiguous or has its transport code
    produced by the source, and NULL exactly when the table has no such
    entry. *)
Theorem find_format_by_pix_first_accepted (dev : unicam_device) (pix : Z) :
  (forall f, find_format_by_pix dev pix = Some f <->
     exists pre post, formats = pre ++ f :: post /\ accepted dev pix f
       /\ forall g, In g pre -> ~ accepted dev pix g)
  /\ (find_format_by_pix dev pix = None <->
      forall g, In g formats -> ~ accepted dev pix g).
Proof.
  rewrite find_format_by_pix_unfold.
  pose proof (find_format_by_pix_from_first formats dev pix) as H.
  assert (Hfind : forall f pre post,
            formats = pre ++ f :: post -> accepted dev pix f ->
            (forall g, In g pre -> ~ accepted dev pix g) ->
            find_format_by_pix_from formats dev pix = Some f).
  { intros f pre post E (Hm & Hacc) Hpre. rewrite E.
    rewrite find_format_by_pix_from_skip.
    - apply find_format_by_pix_from_hit; assumption.
    - intros g Hg. apply not_accepted_cases. apply Hpre. exact Hg. }
  destruct (find_format_by_pix_from formats dev pix) as [f0 |].
  - split.
    + intros f. split.
      * intros E. injection E as <-. exact H.
      * intros (pre & post & E & Hacc & Hpre).
        apply (Hfind f pre post); assumption.
    + split; [discriminate |]. intros Hnone. exfalso.
      destruct H as (pre & post & E & Hacc & _).
      apply (Hnone f0); [| exact Hacc].
      rewrite E. apply in_or_app. right. left. reflexivity.
  - split.
    + intros f. split; [discriminate |].
      intros (pre & post & E & Hacc & Hpre).
      apply (Hfind f pre post); assumption.
    + split; [intros _; exact H | reflexivity].
Qed.

(** X6: a pixel code of zero is not refused by the lookup: it equals the
    [repacked_fourcc] of the entries that have no repacked variant, so the
    lookup answers with one of the 16-bit YUV entries that head the table,
    and the stride of that entry is then computed as for a repacked
    format, two bytes a pixel. *)
Theorem zero_pixelformat_resolves (dev : unicam_device) :
  exists f,
    find_format_by_pix dev 0 = Some f
    /\ In f formats
    /\ repacked_fourcc f = 0 /\ depth f = 16 /\ csi_dt f = 0x1e
    /\ forall w, bytes_per_line w f 0 = ALIGN (u32 (Z.shiftl w 1)) BPL_ALIGNMENT.
Proof.
  assert (Hsplit : firstn 5 formats ++ skipn 5 formats = formats)
    by apply firstn_skipn.
  pose proof (find_format_by_pix_from_first (firstn 5 formats) dev 0) as H.
  destruct (find_format_by_pix_from (firstn 5 formats) dev 0) as [f |] eqn:E5.
  - destruct H as (pre & post & E & _ & _).
    assert (Hin : In f (firstn 5 formats))
      by (rewrite E; apply in_or_app; right; left; reflexivity).
    exists f. split.
    { rewrite find_format_by_pix_unfold, <- Hsplit.
      rewrite find_format_by_pix_from_app, E5. reflexivity. }
    split.
    { rewrite <- Hsplit. apply in_or_app. left. exact Hin. }
    clear E Hsplit.
    cbn [firstn formats] in Hin.
    assert (Hf : repacked_fourcc f = 0 /\ depth f = 16 /\ csi_dt f = 0x1e).
    { cbn [In] in Hin.
      repeat (destruct Hin as [Hin | Hin];
              [subst f; repeat split; reflexivity |]).
      contradiction. }
    destruct Hf as (H1 & H2 & H3).
    repeat (split; [assumption |]).
    intros w. unfold bytes_per_line. rewrite H1. reflexivity.
  - exfalso.
    apply (H {| fourcc := V4L2_PIX_FMT_YUYV; repacked_fourcc := 0;
                code := MEDIA_BUS_FMT_YUYV8_1X16; depth := 16;
                csi_dt := 0x1e; check_variants := 0 |}).
    + cbn [firstn formats In]. do 4 right. left. reflexivity.
    + split; [right; reflexivity | left; reflexivity].
Qed.

(** X21: [check_mbus_format] returns 1 or 0 and nothing else: 1 exactly
    when the source yields the transport code of the format, with result
    0, at an index below MAX_ENUM_MBUS_CODE that no call with a non-zero
    result precedes, and 0 otherwise; a source that differs only from
    index MAX_ENUM_MBUS_CODE on gets the same answer. *)
Theorem check_mbus_format_decides (dev : unicam_device) (f : unicam_fmt) :
  (check_mbus_format dev f = 0 \/ check_mbus_format dev f = 1)
  /\ (check_mbus_format dev f = 1 <-> source_produces (sensor dev) (code f))
  /\ (check_mbus_format dev f = 0 <-> ~ source_produces (sensor dev) (code f))
  /\ (forall dev',
        (forall k, 0 <= k < MAX_ENUM_MBUS_CODE ->
           enum_mbus_code (sensor dev') k = enum_mbus_code (sensor dev) k) ->
        check_mbus_format dev' f = check_mbus_format dev f).
Proof.
  split; [| split; [| split]].
  - unfold check_mbus_format. apply check_mbus_format_from_bool.
  - apply check_mbus_format_spec.
  - apply check_mbus_format_zero.
  - intros dev' Hext. unfold check_mbus_format.
    apply check_mbus_format_from_ext;
      [lia | change (Z.of_nat (Z.to_nat MAX_ENUM_MBUS_CODE)) with 128;
             unfold MAX_ENUM_MBUS_CODE; lia | exact Hext].
Qed.

End Lookups.

(** ** Enumeration of the source's formats *)

Section Enumeration.

Context {uapi : Uapi} {regs : Vc4Regs} {core : MediaCore}.

(** X7: what the fallback lookup returns.  When the value read from the
    uninitialised [ret] is neither -EINVAL nor -ENOIOCTLCMD and the calls
    of the enumeration before the one of index [n] return neither of the
    two and no code of the table, the lookup returns the entry of the
    first code of the table that the source yields with a non-negative
    result, and NULL when the call of index [n] fails with one of the
    two values. *)
Theorem get_first_supported_format_result (dev : unicam_device) (ret0 : Z)
    (n : nat) :
  ret0 <> - EINVAL -> ret0 <> - ENOIOCTLCMD ->
  (forall k, (k < n)%nat -> passed_at (sensor dev) k) ->
  (forall f, supported_at (sensor dev) n f ->
     get_first_supported_format dev ret0 (S n) = Some (Some f))
  /\ (refused_at (sensor dev) n ->
      get_first_supported_format dev ret0 (S (S n)) = Some None).
Proof.
  intros H1 H2 Hpass. unfold get_first_supported_format.
  split.
  - intros f Hs.
    apply get_first_supported_format_from_found; [exact H1 | exact H2 | |].
    + intros k Hk. cbv zeta. rewrite Z.add_0_l. apply Hpass. exact Hk.
    + cbv zeta. rewrite Z.add_0_l. exact Hs.
  - intros Hr.
    apply get_first_supported_format_from_refused; [exact H1 | exact H2 | |].
    + intros k Hk. cbv zeta. rewrite Z.add_0_l. apply Hpass. exact Hk.
    + cbv zeta. rewrite Z.add_0_l. exact Hr.
Qed.

Lemma enum_fmt_visit_cases (fcc index want : Z) :
  (enum_fmt_visit fcc index want = inl fcc /\ fcc <> 0)
  \/ (exists index', enum_fmt_visit fcc index want = inr index').
Proof.
  unfold enum_fmt_visit.
  destruct (Z.eqb_spec fcc 0) as [H0 | H0]; cbn [negb].
  - right. eexists. reflexivity.
  - destruct (u32 index =? want).
    + left. split; [reflexivity | exact H0].
    + right. eexists. reflexivity.
Qed.

Lemma unicam_enum_fmt_vid_cap_from_spec (sd : v4l2_subdev) (want pixfmt : Z)
    (remaining : nat) :
  forall ret i index,
  0 <= i -> i + Z.of_nat remaining <= MAX_ENUM_MBUS_CODE ->
  (ret = 0 -> forall j, 0 <= j < i -> fst (enum_mbus_code sd j) = 0) ->
  let R := unicam_enum_fmt_vid_cap_from sd remaining ret i index want pixfmt in
  (fst R = 0 \/ fst R = - EINVAL)
  /\ (snd R = pixfmt
      \/ (fst R = 0 /\ snd R <> 0
          /\ exists k f, 0 <= k < MAX_ENUM_MBUS_CODE
               /\ 0 <= fst (enum_mbus_code sd k)
               /\ find_format_by_code (snd (enum_mbus_code sd k)) = Some f
               /\ (forall j, 0 <= j < k -> fst (enum_mbus_code sd j) = 0)
               /\ matches_pix f (snd R))).
Proof.
  unfold MAX_ENUM_MBUS_CODE.
  induction remaining as [| remaining IH]; intros ret i index Hi Hn Hprev;
    cbn [unicam_enum_fmt_vid_cap_from]; cbv zeta.
  - cbn [fst snd]. auto.
  - destruct (Z.eqb_spec ret 0) as [Hret | Hret]; cbn [negb];
      [| cbn [fst snd]; auto].
    specialize (Hprev Hret).
    rewrite u32_small by lia.
    destruct (enum_mbus_code sd i) as [r c] eqn:He.
    destruct (Z.ltb_spec r 0) as [Hneg | Hpos]; [cbn [fst snd]; auto |].
    assert (Hrec : forall index',
              let R := unicam_enum_fmt_vid_cap_from sd remaining r (i + 1)
                         index' want pixfmt in
              (fst R = 0 \/ fst R = - EINVAL)
              /\ (snd R = pixfmt
                  \/ (fst R = 0 /\ snd R <> 0
                      /\ exists k f, 0 <= k < 128
                           /\ 0 <= fst (enum_mbus_code sd k)
                           /\ find_format_by_code (snd (enum_mbus_code sd k))
                              = Some f
                           /\ (forall j, 0 <= j < k ->
                                 fst (enum_mbus_code sd j) = 0)
                           /\ matches_pix f (snd R)))).
    { intros index'. apply IH; [lia | lia |].
      intros Hr j Hj. destruct (Z.eq_dec j i) as [-> | Hji].
      - rewrite He. exact Hr.
      - apply Hprev. lia. }
    assert (Hhit : forall f fcc,
              find_format_by_code c = Some f -> fcc <> 0 ->
              matches_pix f fcc ->
              let R := (0, fcc) in
              (fst R = 0 \/ fst R = - EINVAL)
              /\ (snd R = pixfmt
                  \/ (fst R = 0 /\ snd R <> 0
                      /\ exists k f, 0 <= k < 128
                           /\ 0 <= fst (enum_mbus_code sd k)
                           /\ find_format_by_code (snd (enum_mbus_code sd k))
                              = Some f
                           /\ (forall j, 0 <= j < k ->
                                 fst (enum_mbus_code sd j) = 0)
                           /\ matches_pix f (snd R)))).
    { intros f fcc Hf Hnz Hm. cbv zeta. cbn [fst snd].
      split; [left; reflexivity |]. right.
      split; [reflexivity |]. split; [exact Hnz |].
      exists i, f. rewrite He. cbn [fst snd].
      split; [lia |]. split; [lia |]. split; [exact Hf |].
      split; [exact Hprev | exact Hm]. }
    destruct (find_format_by_code c) as [f |] eqn:Hf; [| apply Hrec].
    destruct (enum_fmt_visit_cases (fourcc f) index want)
      as [[E Hnz] | [index1 E]]; rewrite E.
    { apply (Hhit f); [reflexivity | exact Hnz | left; reflexivity]. }
    destruct (enum_fmt_visit_cases (repacked_fourcc f) index1 want)
      as [[E' Hnz] | [index2 E']]; rewrite E'.
    { apply (Hhit f); [reflexivity | exact Hnz | right; reflexivity]. }
    apply Hrec.
Qed.

Lemma unicam_enum_fmt_vid_cap_from_blank (sd : v4l2_subdev) (want pixfmt : Z)
    (remaining : nat) :
  forall ret i index,
  0 <= i -> i + Z.of_nat remaining <= MAX_ENUM_MBUS_CODE ->
  (forall k, 0 <= k < MAX_ENUM_MBUS_CODE ->
     0 <= fst (enum_mbus_code sd k)
     /\ find_format_by_code (snd (enum_mbus_code sd k)) = None) ->
  unicam_enum_fmt_vid_cap_from sd remaining ret i index want pixfmt
  = (0, pixfmt).
Proof.
  unfold MAX_ENUM_MBUS_CODE.
  induction remaining as [| remaining IH]; intros ret i index Hi Hn Hall;
    cbn [unicam_enum_fmt_vid_cap_from]; [reflexivity |].
  destruct (negb (ret =? 0)); [reflexivity |].
  rewrite u32_small by lia.
  destruct (Hall i ltac:(lia)) as [Hr Hf].
  destruct (enum_mbus_code sd i) as [r c]. cbn [fst snd] in Hr, Hf.
  destruct (Z.ltb_spec r 0); [lia |].
  rewrite Hf. apply IH; [lia | lia | exact Hall].
Qed.

Lemma unicam_enum_fmt_vid_cap_stored (dev : unicam_device)
    (want pixfmt : Z) :
  let R := unicam_enum_fmt_vid_cap dev want pixfmt in
  (fst R = 0 \/ fst R = - EINVAL)
  /\ (snd R = pixfmt
      \/ (fst R = 0 /\ snd R <> 0
          /\ exists k f, 0 <= k < MAX_ENUM_MBUS_CODE
               /\ 0 <= fst (enum_mbus_code (sensor dev) k)
               /\ find_format_by_code (snd (enum_mbus_code (sensor dev) k))
                  = Some f
               /\ (forall j, 0 <= j < k ->
                     fst (enum_mbus_code (sensor dev) j) = 0)
               /\ matches_pix f (snd R))).
Proof.
  intros R. unfold R, unicam_enum_fmt_vid_cap.
  apply (unicam_enum_fmt_vid_cap_from_spec (sensor dev) want pixfmt
           (Z.to_nat MAX_ENUM_MBUS_CODE) 0 0 0);
    [lia | change (Z.of_nat (Z.to_nat MAX_ENUM_MBUS_CODE)) with 128;
           unfold MAX_ENUM_MBUS_CODE; lia
    | intros _ j Hj; lia].
Qed.

(** X8: the format enumeration returns 0 or -EINVAL and nothing else.
    When it stores a pixel format, it returns 0 and the format is a
    non-zero [fourcc] or [repacked_fourcc] of the table entry of a code
    that the source yielded, without error, at an index below
    MAX_ENUM_MBUS_CODE that no failing call preceded.  It has no result for
    the end of the list: when the source answers every index below
    MAX_ENUM_MBUS_CODE without error and with codes the table does not
    have, it returns 0 and leaves the pixel format as it found it,
    whatever the index asked for. *)
Theorem unicam_enum_fmt_vid_cap_result (dev : unicam_device)
    (want pixfmt : Z) :
  let R := unicam_enum_fmt_vid_cap dev want pixfmt in
  (fst R = 0 \/ fst R = - EINVAL)
  /\ (snd R = pixfmt
      \/ (fst R = 0 /\ snd R <> 0
          /\ exists k f, 0 <= k < MAX_ENUM_MBUS_CODE
               /\ 0 <= fst (enum_mbus_code (sensor dev) k)
               /\ find_format_by_code (snd (enum_mbus_code (sensor dev) k))
                  = Some f
               /\ (forall j, 0 <= j < k ->
                     fst (enum_mbus_code (sensor dev) j) = 0)
               /\ matches_pix f (snd R)))
  /\ ((forall k, 0 <= k < MAX_ENUM_MBUS_CODE ->
         0 <= fst (enum_mbus_code (sensor dev) k)
         /\ find_format_by_code (snd (enum_mbus_code (sensor dev) k)) = None) ->
      R = (0, pixfmt)).
Proof.
  intros R.
  destruct (unicam_enum_fmt_vid_cap_stored dev want pixfmt) as [H1 H2].
  split; [exact H1 |]. split; [exact H2 |].
  intros Hall. unfold R, unicam_enum_fmt_vid_cap.
  apply unicam_enum_fmt_vid_cap_from_blank;
    [lia | change (Z.of_nat (Z.to_nat MAX_ENUM_MBUS_CODE)) with 128;
           unfold MAX_ENUM_MBUS_CODE; lia
    | exact Hall].
Qed.

(** X9: enumeration and lookup agree.  With a source whose enumeration
    returns 0 or a negative value for the indices below
    MAX_ENUM_MBUS_CODE, every pixel format that the format enumeration
    stores is one the lookup by pixel code resolves to an entry that
    answers to it. *)
Theorem enumerated_format_is_found (dev : unicam_device) (want pixfmt : Z) :
  (forall k, 0 <= k < MAX_ENUM_MBUS_CODE ->
     fst (enum_mbus_code (sensor dev) k) <= 0) ->
  snd (unicam_enum_fmt_vid_cap dev want pixfmt) <> pixfmt ->
  exists f,
    find_format_by_pix dev (snd (unicam_enum_fmt_vid_cap dev want pixfmt))
    = Some f
    /\ matches_pix f (snd (unicam_enum_fmt_vid_cap dev want pixfmt)).
Proof.
  intros Hconv Hstored.
  destruct (unicam_enum_fmt_vid_cap_stored dev want pixfmt)
    as (_ & [H | (_ & _ & k & g & Hk & Hr & Hg & Hprev & Hm)]);
    [contradiction |].
  set (p := snd (unicam_enum_fmt_vid_cap dev want pixfmt)) in *.
  assert (Hacc : accepted dev p g).
  { split; [exact Hm | right].
    apply find_format_by_code_from_sound in Hg. destruct Hg as [_ Hc].
    exists k. split; [exact Hk |]. split; [| exact Hprev].
    specialize (Hconv k Hk).
    destruct (enum_mbus_code (sensor dev) k) as [r c]. cbn [fst snd] in *.
    f_equal; lia. }
  assert (Hin : In g formats).
  { apply find_format_by_code_from_sound in Hg. tauto. }
  rewrite find_format_by_pix_unfold.
  pose proof (find_format_by_pix_from_first formats dev p) as H.
  destruct (find_format_by_pix_from formats dev p) as [f |].
  - exists f. split; [reflexivity |].
    destruct H as (_ & _ & _ & [Hmf _] & _). exact Hmf.
  - exfalso. exact (H g Hin Hacc).
Qed.

End Enumeration.

(** ** Image layout and buffer sizes *)

Section Sizes.

Context {uapi : Uapi} {regs : Vc4Regs} {core : MediaCore}.

Lemma calc_sizeimage (f : unicam_fmt) (pix : v4l2_pix_format) :
  let r := unicam_calc_format_size_bpl f pix in
  sizeimage r = u32 (ALIGN (height r) HEIGHT_ALIGNMENT * bytesperline r)
  /\ pixelformat r = pixelformat pix.
Proof.
  unfold unicam_calc_format_size_bpl.
  destruct (v4l_bound_align_image _ _ _ _ _ _ _ _ _) as [w h].
  split; reflexivity.
Qed.

Lemma round_up_16_le (x c : Z) :
  x <= c -> c mod 16 = 0 -> 16 * ((x + 15) / 16) <= c.
Proof.
  intros Hx Hc.
  pose proof (round_up_16_bounds x).
  pose proof (Z.div_mod c 16 ltac:(lia)). lia.
Qed.

Lemma bytes_per_line_bound (w : Z) (f : unicam_fmt) (pix : Z) :
  In f formats -> MIN_WIDTH <= w <= MAX_WIDTH ->
  bytes_per_line w f pix <= MAX_BYTESPERLINE.
Proof.
  intros Hf Hw. pose proof (formats_depth f Hf) as Hd.
  assert (HW : MAX_WIDTH = 16380) by reflexivity.
  assert (Hmax : MAX_BYTESPERLINE = 65520) by reflexivity.
  unfold MIN_WIDTH in Hw. rewrite HW in Hw. rewrite Hmax.
  unfold bytes_per_line, BPL_ALIGNMENT.
  destruct (pix =? repacked_fourcc f).
  - rewrite Z.shiftl_mul_pow2 by lia. change (2 ^ 1) with 2.
    rewrite u32_small by lia.
    rewrite ALIGN_16_round_up by lia.
    apply round_up_16_le; [lia | reflexivity].
  - assert (Hbits : 0 <= w * depth f <= 524160) by nia.
    rewrite u32_small by lia.
    rewrite Z.shiftr_div_pow2 by lia. change (2 ^ 3) with 8.
    assert (Hq : 0 <= w * depth f / 8 <= 65520).
    { split; [apply Z.div_pos; lia |].
      apply Z.div_le_upper_bound; [lia | lia]. }
    rewrite ALIGN_16_round_up by lia.
    apply round_up_16_le; [lia | reflexivity].
Qed.

Lemma stride_choice_fixed (m req : Z) :
  0 <= m ->
  let bpl := if (m <? req) && (req <=? MAX_BYTESPERLINE)
             then ALIGN req BPL_ALIGNMENT else m in
  (if (m <? bpl) && (bpl <=? MAX_BYTESPERLINE)
   then ALIGN bpl BPL_ALIGNMENT else m) = bpl.
Proof.
  intros Hm. cbv zeta.
  assert (Hmax : MAX_BYTESPERLINE = 65520) by reflexivity.
  rewrite Hmax. unfold BPL_ALIGNMENT.
  destruct (Z.ltb_spec m req) as [H1 | H1];
    destruct (Z.leb_spec req 65520) as [H2 | H2]; cbn [andb];
    try (rewrite Z.ltb_irrefl; reflexivity).
  rewrite (ALIGN_16_round_up req) by lia.
  set (a := 16 * ((req + 15) / 16)).
  assert (Ha : req <= a <= 65520 /\ a mod 16 = 0).
  { unfold a. split; [| rewrite Z.mul_comm; apply Z.mod_mul; lia].
    split; [apply round_up_16_bounds |].
    apply round_up_16_le; [lia | reflexivity]. }
  destruct Ha as [Ha Ha16].
  destruct (Z.ltb_spec m a); [| lia].
  destruct (Z.leb_spec a 65520); [| lia]. cbn [andb].
  rewrite ALIGN_16_round_up by lia.
  apply round_up_16_fixed. exact Ha16.
Qed.

(** X10: when the width and the height the layout computation stores lie
    within the bounds of the driver and the format is one of the table,
    the stored stride is at most MAX_BYTESPERLINE, and the stored image
    size is the stride times the height rounded up to a multiple of 16,
    computed without wrap-around, so it covers every line of the image. *)
Theorem layout_within_limits (f : unicam_fmt) (pix : v4l2_pix_format) :
  let r := unicam_calc_format_size_bpl f pix in
  In f formats ->
  MIN_WIDTH <= width r <= MAX_WIDTH ->
  MIN_HEIGHT <= height r <= MAX_HEIGHT ->
  0 <= bytesperline r <= MAX_BYTESPERLINE
  /\ sizeimage r = 16 * ((height r + 15) / 16) * bytesperline r
  /\ height r * bytesperline r <= sizeimage r
  /\ sizeimage r < 2 ^ 32.
Proof.
  intros r Hf Hw Hh.
  pose proof (calc_bytesperline f pix) as Hb. cbv zeta in Hb. fold r in Hb.
  destruct (calc_sizeimage f pix) as [Hs _]. fold r in Hs.
  pose proof (bytes_per_line_bound (width r) f (pixelformat pix) Hf Hw) as Hm.
  pose proof (bytes_per_line_nonneg (width r) f (pixelformat pix)) as Hm0.
  set (m := bytes_per_line (width r) f (pixelformat pix)) in *.
  assert (Hmax : MAX_BYTESPERLINE = 65520) by reflexivity.
  assert (HH : MAX_HEIGHT = 16380) by reflexivity.
  unfold MIN_HEIGHT in Hh. rewrite HH in Hh. rewrite Hmax in *.
  assert (Hbpl : 0 <= bytesperline r <= 65520).
  { rewrite Hb. unfold BPL_ALIGNMENT.
    destruct (Z.ltb_spec m (bytesperline pix));
      destruct (Z.leb_spec (bytesperline pix) 65520); cbn [andb]; try lia.
    rewrite ALIGN_16_round_up by lia.
    pose proof (round_up_16_bounds (bytesperline pix)).
    pose proof (round_up_16_le (bytesperline pix) 65520 ltac:(lia) eq_refl).
    lia. }
  split; [exact Hbpl |].
  unfold HEIGHT_ALIGNMENT in Hs.
  rewrite ALIGN_16_round_up in Hs by lia.
  assert (Hrows : height r <= 16 * ((height r + 15) / 16) <= 16384).
  { pose proof (round_up_16_bounds (height r)).
    pose proof (round_up_16_le (height r) 16384 ltac:(lia) eq_refl). lia. }
  rewrite u32_small in Hs by nia.
  split; [exact Hs |]. rewrite Hs. split; nia.
Qed.

Lemma calc_format_size_bpl_eq (f : unicam_fmt) (pix : v4l2_pix_format)
    (w h : Z) :
  v4l_bound_align_image (width pix) MIN_WIDTH MAX_WIDTH 2
                        (height pix) MIN_HEIGHT MAX_HEIGHT 0 0 = (w, h) ->
  unicam_calc_format_size_bpl f pix
  = let m := bytes_per_line w f (pixelformat pix) in
    let bpl := if (m <? bytesperline pix)
                  && (bytesperline pix <=? MAX_BYTESPERLINE)
               then ALIGN (bytesperline pix) BPL_ALIGNMENT else m in
    {| width := w; height := h; pixelformat := pixelformat pix;
       bytesperline := bpl;
       sizeimage := u32 (ALIGN h HEIGHT_ALIGNMENT * bpl) |}.
Proof.
  intros E. unfold unicam_calc_format_size_bpl. rewrite E. reflexivity.
Qed.

(** X11: the layout computation is idempotent: when the bounding of the
    V4L2 core leaves the stored width and height as they are, computing
    the layout of a computed layout changes nothing. *)
Theorem layout_idempotent (f : unicam_fmt) (pix : v4l2_pix_format) :
  let r := unicam_calc_format_size_bpl f pix in
  v4l_bound_align_image (width r) MIN_WIDTH MAX_WIDTH 2
                        (height r) MIN_HEIGHT MAX_HEIGHT 0 0
  = (width r, height r) ->
  unicam_calc_format_size_bpl f r = r.
Proof.
  cbv zeta.
  destruct (v4l_bound_align_image (width pix) MIN_WIDTH MAX_WIDTH 2
              (height pix) MIN_HEIGHT MAX_HEIGHT 0 0) as [w h] eqn:E.
  rewrite (calc_format_size_bpl_eq f pix w h E). cbv zeta.
  set (r := {| width := w; height := h; pixelformat := pixelformat pix;
               bytesperline := _; sizeimage := _ |}).
  intros Hfix.
  rewrite (calc_format_size_bpl_eq f r w h Hfix). cbv zeta.
  unfold r. cbn [pixelformat bytesperline].
  pose proof (stride_choice_fixed (bytes_per_line w f (pixelformat pix))
                (bytesperline pix)
                (bytes_per_line_nonneg w f (pixelformat pix))) as Hs.
  cbv zeta in Hs. rewrite Hs. reflexivity.
Qed.

(** X12: what [unicam_queue_setup] leaves behind, for counts that do not
    wrap.  The buffer count is raised so that the queue has at least
    three buffers and is never lowered, also when the call then fails.
    The call fails, with -EINVAL and the plane data untouched, exactly
    when the caller names planes and a first plane smaller than the image;
    otherwise it returns 0 with one plane that is at least as large as the
    image: the caller's own size when planes were named, the image size
    when not. *)
Theorem unicam_queue_setup_result (dev : unicam_device)
    (num_buffers nbuffers nplanes size0 : Z) :
  0 <= num_buffers -> 0 <= nbuffers -> num_buffers + nbuffers < 2 ^ 32 ->
  exists ret nbuffers' nplanes' size0',
    unicam_queue_setup dev num_buffers nbuffers nplanes size0
    = (ret, (nbuffers', nplanes', size0'))
    /\ num_buffers + nbuffers' = Z.max 3 (num_buffers + nbuffers)
    /\ nbuffers <= nbuffers'
    /\ (nplanes <> 0 /\ size0 < sizeimage (v_fmt dev) ->
        ret = - EINVAL /\ nplanes' = nplanes /\ size0' = size0)
    /\ (~ (nplanes <> 0 /\ size0 < sizeimage (v_fmt dev)) ->
        ret = 0 /\ nplanes' = 1
        /\ sizeimage (v_fmt dev) <= size0'
        /\ size0' = if nplanes =? 0 then sizeimage (v_fmt dev) else size0).
Proof.
  intros Hn Hb Hsum. unfold unicam_queue_setup. cbv zeta.
  rewrite (u32_small (num_buffers + nbuffers)) by lia.
  set (nb := if num_buffers + nbuffers <? 3 then u32 (3 - num_buffers)
             else nbuffers).
  assert (Hnb : num_buffers + nb = Z.max 3 (num_buffers + nbuffers)
                /\ nbuffers <= nb).
  { unfold nb. destruct (Z.ltb_spec (num_buffers + nbuffers) 3).
    - rewrite u32_small by lia. lia.
    - lia. }
  destruct Hnb as [Hnb1 Hnb2].
  destruct (Z.eqb_spec nplanes 0) as [Hp | Hp]; cbn [negb].
  - do 4 eexists. split; [reflexivity |].
    split; [exact Hnb1 |]. split; [exact Hnb2 |].
    split; [intros [H _]; contradiction |].
    intros _. repeat split. lia.
  - destruct (Z.ltb_spec size0 (sizeimage (v_fmt dev))) as [Hs | Hs].
    + do 4 eexists. split; [reflexivity |].
      split; [exact Hnb1 |]. split; [exact Hnb2 |].
      split; [intros _; repeat split |].
      intros H. exfalso. apply H. split; assumption.
    + do 4 eexists. split; [reflexivity |].
      split; [exact Hnb1 |]. split; [exact Hnb2 |].
      split; [intros [_ H]; lia |].
      intros _. repeat split. exact Hs.
Qed.

End Sizes.

(** ** The interrupt handler, block by block *)

Section Ownership.

Context {uapi : Uapi} {regs : Vc4Regs} {core : MediaCore}.

(** A relation that holds across each block of the handler holds across
    the handler, which never faults. *)
Lemma unicam_isr_by_blocks (R : unicam_device -> unicam_device -> Prop) :
  (forall d, R d d) ->
  (forall d1 d2 d3, R d1 d2 -> R d2 d3 -> R d1 d3) ->
  (forall d v1 v2,
     R d (set_cfg (reg_write (reg_write (cfg d) UNICAM_STA v1)
                             UNICAM_ISTA v2) d)) ->
  (forall d now, R d (isr_timestamp d now)) ->
  (forall d d', isr_complete d = Some d' -> R d d') ->
  (forall d d', isr_next_buffer d = Some d' -> R d d') ->
  (forall d, R d (isr_leave_trigger_mode d)) ->
  forall dev now,
  exists dev', unicam_isr dev now = Some (IRQ_HANDLED, dev') /\ R dev dev'.
Proof.
  intros Hrefl Htrans Hack Hts Hcomp Hnext Hleave dev now.
  unfold unicam_isr.
  destruct (streaming dev =? 0); [exists dev; auto |].
  cbv zeta.
  set (dev1 := set_cfg (reg_write (reg_write (cfg dev) UNICAM_STA (isr_sta dev))
                                  UNICAM_ISTA (isr_ista dev)) dev).
  assert (R1 : R dev dev1) by apply Hack.
  destruct (isr_serviced dev); cbn [negb]; [| exists dev1; auto].
  set (dev2 := if isr_frame_start dev then isr_timestamp dev1 now else dev1).
  assert (R2 : R dev dev2).
  { unfold dev2. destruct (isr_frame_start dev); [| exact R1].
    apply (Htrans _ dev1); [exact R1 | apply Hts]. }
  assert (H3 : exists dev3,
             (if isr_frame_end dev then isr_complete dev2 else Some dev2)
             = Some dev3 /\ R dev dev3).
  { destruct (isr_frame_end dev); [| exists dev2; auto].
    destruct (isr_complete_numbered dev2) as (d & new & E & _).
    exists d. split; [exact E |].
    apply (Htrans _ dev2); [exact R2 | apply Hcomp; exact E]. }
  destruct H3 as (dev3 & E3 & R3). rewrite E3. cbn [bind].
  assert (H4 : exists dev4,
             (if isr_schedule dev then isr_next_buffer dev3 else Some dev3)
             = Some dev4 /\ R dev dev4).
  { destruct (isr_schedule dev); [| exists dev3; auto].
    destruct (isr_next_buffer_total dev3) as (d & E & _).
    exists d. split; [exact E |].
    apply (Htrans _ dev3); [exact R3 | apply Hnext; exact E]. }
  destruct H4 as (dev4 & E4 & R4). rewrite E4. cbn [bind].
  eexists. split; [reflexivity |].
  apply (Htrans _ dev4); [exact R4 | apply Hleave].
Qed.

(** *** No buffer is lost and none is handed over twice *)

Lemma hands_over_refl (d : unicam_device) : hands_over d d [].
Proof.
  split; [symmetry; apply app_nil_r | apply Permutation_refl].
Qed.

Lemma hands_over_trans (d1 d2 d3 : unicam_device) (n1 n2 : list completion) :
  hands_over d1 d2 n1 -> hands_over d2 d3 n2 -> hands_over d1 d3 (n1 ++ n2).
Proof.
  intros [D1 P1] [D2 P2]. split.
  - rewrite D2, D1, app_assoc. reflexivity.
  - rewrite map_app, <- app_assoc.
    apply (Permutation_trans P1).
    apply Permutation_app_head. exact P2.
Qed.

Lemma hands_over_same (d d' : unicam_device) :
  cur_frm d' = cur_frm d -> next_frm d' = next_frm d ->
  dma_queue d' = dma_queue d -> done d' = done d ->
  hands_over d d' [].
Proof.
  intros Hc Hn Hq Hd. split.
  - rewrite Hd, app_nil_r. reflexivity.
  - unfold holdings, slots. rewrite Hc, Hn, Hq. apply Permutation_refl.
Qed.

Lemma hands_over_nodup (d d' : unicam_device) (new : list completion) :
  NoDup (holdings d) -> hands_over d d' new ->
  NoDup (map c_buf new) /\ NoDup (holdings d').
Proof.
  intros Hnd [_ P].
  pose proof (Permutation_NoDup P Hnd) as H.
  split; [exact (NoDup_app_remove_r _ _ H) | exact (NoDup_app_remove_l _ _ H)].
Qed.

Lemma isr_complete_hands_over (d d' : unicam_device) :
  isr_complete d = Some d' ->
  exists new, hands_over d d' new /\ (length new <= 1)%nat.
Proof.
  unfold isr_complete.
  destruct (cur_frm d) as [a |] eqn:Hc.
  2:{ intros E. injection E as <-. exists []. split;
        [apply hands_over_refl | cbn; lia]. }
  destruct (ptr_eqb (Some a) (next_frm d)) eqn:He; cbn [negb].
  { intros E. injection E as <-. exists []. split;
      [apply hands_over_refl | cbn; lia]. }
  unfold unicam_process_buffer_complete. rewrite Hc.
  intros E. injection E as <-.
  eexists [_]. split; [| cbn; lia].
  split; [reflexivity |].
  unfold holdings, slots. cbn. rewrite Hc.
  destruct (next_frm d) as [b |] eqn:Hn.
  - cbn [ptr_eqb] in He. rewrite He, Nat.eqb_refl. apply Permutation_refl.
  - apply Permutation_refl.
Qed.

Lemma isr_next_buffer_hands_over (d d' : unicam_device) :
  NoDup (holdings d) ->
  isr_next_buffer d = Some d' -> hands_over d d' [].
Proof.
  intros Hnd. unfold isr_next_buffer, unicam_schedule_next_buffer.
  destruct (dma_queue d) as [| b q] eqn:Hq.
  { intros E. injection E as <-. apply hands_over_refl. }
  destruct (ptr_eqb (cur_frm d) (next_frm d)) eqn:He.
  2:{ intros E. injection E as <-. apply hands_over_refl. }
  apply ptr_eqb_eq in He.
  intros E. injection E as <-.
  split; [cbn; rewrite app_nil_r; reflexivity |].
  unfold holdings, slots in *. cbn. rewrite Hq in *. rewrite <- He in *.
  destruct (cur_frm d) as [a |].
  - rewrite Nat.eqb_refl in *.
    destruct (Nat.eqb_spec a b) as [-> | Hab].
    + exfalso. cbn in Hnd. inversion Hnd as [| x l Hnotin _]. subst.
      apply Hnotin. left. reflexivity.
    + apply Permutation_refl.
  - apply Permutation_refl.
Qed.

Lemma unicam_isr_hands_over (dev : unicam_device) (now : Z) :
  exists dev',
    unicam_isr dev now = Some (IRQ_HANDLED, dev')
    /\ (NoDup (holdings dev) ->
        exists new, hands_over dev dev' new /\ (length new <= 1)%nat
                    /\ (cur_frm dev = next_frm dev -> new = [])).
Proof.
  (* the frame-end block is the only one that completes a buffer *)
  unfold unicam_isr.
  destruct (streaming dev =? 0).
  { exists dev. split; [reflexivity |]. intros _. exists [].
    split; [apply hands_over_refl | split; [cbn; lia | reflexivity]]. }
  cbv zeta.
  set (dev1 := set_cfg (reg_write (reg_write (cfg dev) UNICAM_STA (isr_sta dev))
                                  UNICAM_ISTA (isr_ista dev)) dev).
  destruct (isr_serviced dev); cbn [negb].
  2:{ exists dev1. split; [reflexivity |]. intros _. exists [].
      split; [apply hands_over_same; reflexivity
             | split; [cbn; lia | reflexivity]]. }
  destruct (isr_entry_frame dev now)
    as (E1 & E2 & E3 & E4 & _).
  cbv zeta in E1, E2, E3, E4. fold dev1 in E1, E2, E3, E4.
  set (dev2 := if isr_frame_start dev then isr_timestamp dev1 now else dev1)
    in *.
  assert (R2 : hands_over dev dev2 [])
    by (apply hands_over_same; assumption).
  assert (H3 : exists dev3,
             (if isr_frame_end dev then isr_complete dev2 else Some dev2)
             = Some dev3
             /\ exists new, hands_over dev2 dev3 new /\ (length new <= 1)%nat
                  /\ (cur_frm dev = next_frm dev -> new = [])).
  { destruct (isr_frame_end dev).
    - destruct (isr_complete_numbered dev2) as (d & new0 & E & _).
      exists d. split; [exact E |].
      destruct (ptr_eqb (cur_frm dev2) (next_frm dev2)) eqn:Hsame.
      + apply ptr_eqb_eq in Hsame.
        rewrite isr_complete_starved in E by exact Hsame.
        injection E as <-. exists [].
        split; [apply hands_over_refl | split; [cbn; lia | reflexivity]].
      + destruct (isr_complete_hands_over dev2 d E) as (new & Hh & Hl).
        exists new. split; [exact Hh |]. split; [exact Hl |].
        intros Heq. exfalso.
        assert (Hp : ptr_eqb (cur_frm dev2) (next_frm dev2) = true)
          by (apply ptr_eqb_eq; congruence).
        congruence.
    - exists dev2. split; [reflexivity |]. exists [].
      split; [apply hands_over_refl | split; [cbn; lia | reflexivity]]. }
  destruct H3 as (dev3 & E3' & H3). rewrite E3'. cbn [bind].
  assert (H4 : exists dev4,
             (if isr_schedule dev then isr_next_buffer dev3 else Some dev3)
             = Some dev4
             /\ (NoDup (holdings dev3) -> hands_over dev3 dev4 [])).
  { destruct (isr_schedule dev).
    - destruct (isr_next_buffer_total dev3) as (d & E & _).
      exists d. split; [exact E |]. intros Hnd.
      apply isr_next_buffer_hands_over; assumption.
    - exists dev3. split; [reflexivity |]. intros _. apply hands_over_refl. }
  destruct H4 as (dev4 & E4' & H4). rewrite E4'. cbn [bind].
  eexists. split; [reflexivity |].
  intros Hnd.
  destruct H3 as (new & Hh3 & Hl & Hnone).
  exists new. split; [| split; [exact Hl | exact Hnone]].
  destruct (hands_over_nodup dev dev2 [] Hnd R2) as [_ Hnd2].
  destruct (hands_over_nodup dev2 dev3 new Hnd2 Hh3) as [_ Hnd3].
  specialize (H4 Hnd3).
  destruct (isr_leave_trigger_mode_frame dev4)
    as (L1 & L2 & L3 & L4 & _).
  cbv zeta in L1, L2, L3, L4.
  pose proof (hands_over_same dev4 (isr_leave_trigger_mode dev4) L1 L2 L3 L4)
    as H5.
  pose proof (hands_over_trans _ _ _ _ _ R2 Hh3) as T1.
  pose proof (hands_over_trans _ _ _ _ _ T1 H4) as T2.
  pose proof (hands_over_trans _ _ _ _ _ T2 H5) as T3.
  cbn [app] in T3. rewrite !app_nil_r in T3. exact T3.
Qed.

(** X13: the interrupt handler loses no buffer and hands none over
    twice.  When the buffers the driver holds, in its two slots and in
    its queue, are pairwise distinct, the handler returns IRQ_HANDLED
    having completed at most one buffer, none when both slots held the
    same buffer; the buffers it held are the one it completed and those
    it still holds, which are again pairwise distinct. *)
Theorem unicam_isr_conserves_buffers (dev : unicam_device) (now : Z) :
  NoDup (holdings dev) ->
  exists dev' new,
    unicam_isr dev now = Some (IRQ_HANDLED, dev')
    /\ done dev' = done dev ++ new
    /\ (length new <= 1)%nat
    /\ (cur_frm dev = next_frm dev -> new = [])
    /\ Permutation (holdings dev) (map c_buf new ++ holdings dev')
    /\ NoDup (holdings dev').
Proof.
  intros Hnd.
  destruct (unicam_isr_hands_over dev now) as (dev' & E & H).
  destruct (H Hnd) as (new & Hh & Hl & Hnone).
  exists dev', new. split; [exact E |].
  destruct (hands_over_nodup dev dev' new Hnd Hh) as [_ Hnd'].
  destruct Hh as [Hd Hp].
  repeat (split; [assumption |]). exact Hnd'.
Qed.

Lemma holdings_queue (dev : unicam_device) (b : bufptr) :
  holdings (unicam_buffer_queue dev b) = holdings dev ++ [b].
Proof. unfold holdings, slots. cbn. apply app_assoc. Qed.

Lemma holdings_raise_irq (dev : unicam_device) (sta ista : Z) :
  holdings (raise_irq dev sta ista) = holdings dev.
Proof. reflexivity. Qed.

Lemma run_hands_over (es : list event) :
  forall dev,
  NoDup (holdings dev ++ submitted es) ->
  exists dev' new,
    run dev es = Some dev'
    /\ done dev' = done dev ++ new
    /\ Permutation (holdings dev ++ submitted es)
                   (map c_buf new ++ holdings dev').
Proof.
  induction es as [| e es IH]; intros dev Hnd.
  - exists dev, []. cbn. rewrite !app_nil_r.
    repeat split. apply Permutation_refl.
  - destruct e as [b | sta ista now].
    + cbn [run step bind submitted] in *.
      destruct (IH (unicam_buffer_queue dev b)) as (dev' & new & E & D & P).
      { rewrite holdings_queue, <- app_assoc. exact Hnd. }
      exists dev', new. split; [exact E |]. split; [exact D |].
      rewrite holdings_queue, <- app_assoc in P. exact P.
    + cbn [run step submitted] in *.
      destruct (unicam_isr_hands_over (raise_irq dev sta ista) now)
        as (d1 & E1 & H1).
      rewrite E1. cbn [bind snd].
      rewrite holdings_raise_irq in H1.
      destruct (H1 (NoDup_app_remove_r _ _ Hnd)) as (n1 & [D1 P1] & _).
      change (done (raise_irq dev sta ista)) with (done dev) in D1.
      assert (P1' : Permutation (holdings dev ++ submitted es)
                      (map c_buf n1 ++ holdings d1 ++ submitted es)).
      { rewrite app_assoc. apply Permutation_app_tail. exact P1. }
      pose proof (Permutation_NoDup P1' Hnd) as Hnd1.
      destruct (IH d1 (NoDup_app_remove_l _ _ Hnd1)) as (dev' & n2 & E & D & P).
      exists dev', (n1 ++ n2). split; [exact E |].
      split; [rewrite D, D1, app_assoc; reflexivity |].
      rewrite map_app, <- app_assoc.
      apply (Permutation_trans P1').
      apply Permutation_app_head. exact P.
Qed.

Lemma NoDup_app_disjoint (l1 l2 : list bufptr) :
  NoDup (l1 ++ l2) -> forall p, In p l1 -> ~ In p l2.
Proof.
  induction l1 as [| x l1 IH]; intros Hnd p Hp; [destruct Hp |].
  cbn [app] in Hnd. inversion Hnd as [| y l Hnotin Hnd']. subst y l.
  destruct Hp as [-> | Hp].
  - intros Hin. apply Hnotin. apply in_or_app. right. exact Hin.
  - apply IH; assumption.
Qed.

(** X14: over every run of queueing and interrupts, when the buffers the
    driver holds at the start and the buffers submitted during the run are
    pairwise distinct, the run does not fault, every buffer held or
    submitted is, at the end, either completed or still held, never both,
    and no buffer is completed twice. *)
Theorem run_conserves_buffers (dev : unicam_device) (es : list event) :
  NoDup (holdings dev ++ submitted es) ->
  exists dev' new,
    run dev es = Some dev'
    /\ done dev' = done dev ++ new
    /\ Permutation (holdings dev ++ submitted es)
                   (map c_buf new ++ holdings dev')
    /\ NoDup (map c_buf new)
    /\ NoDup (holdings dev')
    /\ (forall p, In p (map c_buf new) -> ~ In p (holdings dev')).
Proof.
  intros Hnd.
  destruct (run_hands_over es dev Hnd) as (dev' & new & E & D & P).
  exists dev', new. split; [exact E |]. split; [exact D |].
  split; [exact P |].
  pose proof (Permutation_NoDup P Hnd) as H.
  split; [exact (NoDup_app_remove_r _ _ H) |].
  split; [exact (NoDup_app_remove_l _ _ H) |].
  apply NoDup_app_disjoint. exact H.
Qed.

End Ownership.

(** ** The receiver's registers *)

Section Receiver.

Context {uapi : Uapi} {regs : Vc4Regs} {core : MediaCore}.

Lemma reg_write_field_same (c : unicam_cfg) (o : unicam_reg)
    (field mask : Z) :
  base (reg_write_field c o field mask) o
  = set_field (base c o) field mask.
Proof.
  unfold reg_write_field, reg_read. rewrite reg_write_same.
  apply set_field_u32.
Qed.

Lemma set_field_clear (val mask : Z) :
  Z.land (set_field val 0 mask) mask = 0.
Proof.
  apply Z.bits_inj'. intros i Hi.
  rewrite Z.land_spec, set_field_testbit, !Z.testbit_0_l by lia.
  destruct (Z.testbit mask i); rewrite ?andb_false_r; reflexivity.
Qed.

Lemma set_field_other (val field m m' : Z) :
  Z.land m m' = 0 ->
  Z.land (set_field val field m) m' = Z.land (u32 val) m'.
Proof.
  intros Hdis. apply Z.bits_inj'. intros i Hi.
  rewrite !Z.land_spec, testbit_u32, set_field_testbit by lia.
  assert (Hbit : Z.testbit m i && Z.testbit m' i = false)
    by (rewrite <- Z.land_spec, Hdis; apply Z.testbit_0_l).
  destruct (Z.testbit m i), (Z.testbit m' i); cbn [andb] in *;
    try discriminate; rewrite ?andb_false_r; reflexivity.
Qed.

Lemma set_field_one (val mask : Z) :
  0 < mask < 2 ^ 32 ->
  Z.testbit (Z.land (set_field val 1 mask) mask) (__ffs mask) = true.
Proof.
  intros Hm.
  destruct (__ffs_spec mask ltac:(lia)) as (H0 & Hbit & _).
  rewrite Z.land_spec, set_field_testbit, Hbit by lia.
  rewrite Z.sub_diag. cbn [Z.testbit Z.odd andb].
  rewrite !andb_true_r. apply Z.ltb_lt.
  destruct (Z.lt_ge_cases (__ffs mask) 32) as [Hlt | Hge]; [exact Hlt |].
  exfalso.
  assert (Hlog : Z.log2 mask < 32) by (apply Z.log2_lt_pow2; lia).
  rewrite Z.bits_above_log2 in Hbit by lia. discriminate.
Qed.

Lemma land_comm0 (a b : Z) : Z.land a b = 0 -> Z.land b a = 0.
Proof. intros H. rewrite Z.land_comm. exact H. Qed.

(** X15: [unicam_disable] leaves the receiver stopped.  With the
    output-engine, reset and enable bits of the control register on
    different bits, afterwards the enable and the reset bits are clear,
    the stop-output-engine bit is set, the data-lane registers the
    instance has hold zero (the third and fourth only when it has more
    than two lanes; they are not written otherwise), the clock gate holds
    the password with every lane clock off, and no register other than
    the analogue, the control and the data-lane registers has changed. *)
Theorem unicam_disable_stops_receiver (dev : unicam_device) :
  0 < UNICAM_SOE < 2 ^ 32 ->
  Z.land UNICAM_SOE UNICAM_CPR = 0 ->
  Z.land UNICAM_SOE UNICAM_CPE = 0 ->
  Z.land UNICAM_CPR UNICAM_CPE = 0 ->
  let c := cfg (unicam_disable dev) in
  Z.land (base c UNICAM_CTRL) UNICAM_CPE = 0
  /\ Z.land (base c UNICAM_CTRL) UNICAM_CPR = 0
  /\ Z.land (base c UNICAM_CTRL) UNICAM_SOE <> 0
  /\ base c UNICAM_DAT0 = 0 /\ base c UNICAM_DAT1 = 0
  /\ (if 2 <? max_data_lanes dev
      then base c UNICAM_DAT2 = 0 /\ base c UNICAM_DAT3 = 0
      else base c UNICAM_DAT2 = base (cfg dev) UNICAM_DAT2
           /\ base c UNICAM_DAT3 = base (cfg dev) UNICAM_DAT3)
  /\ clk_gate_base c = 0x5a000000
  /\ (forall r, r <> UNICAM_ANA -> r <> UNICAM_CTRL ->
        r <> UNICAM_DAT0 -> r <> UNICAM_DAT1 ->
        r <> UNICAM_DAT2 -> r <> UNICAM_DAT3 ->
        base c r = base (cfg dev) r).
Proof.
  intros Hsoe H1 H2 H3 c. unfold c, unicam_disable. cbv zeta.
  cbn [cfg set_cfg]. rewrite !clk_write_base.
  set (c1 := reg_write_field (reg_write_field (cfg dev) UNICAM_ANA 1 UNICAM_DDL)
               UNICAM_CTRL 1 UNICAM_SOE).
  set (c2 := reg_write (reg_write c1 UNICAM_DAT0 0) UNICAM_DAT1 0).
  set (c3 := if 2 <? max_data_lanes dev
             then reg_write (reg_write c2 UNICAM_DAT2 0) UNICAM_DAT3 0
             else c2).
  assert (Hc3 : forall r, r <> UNICAM_DAT0 -> r <> UNICAM_DAT1 ->
                  r <> UNICAM_DAT2 -> r <> UNICAM_DAT3 ->
                  base c3 r = base c1 r).
  { intros r R0 R1 R2 R3. unfold c3, c2.
    destruct (2 <? max_data_lanes dev);
      rewrite !reg_write_other by assumption; reflexivity. }
  assert (Hctrl : base c3 UNICAM_CTRL
                  = set_field (base (cfg dev) UNICAM_CTRL) 1 UNICAM_SOE).
  { rewrite Hc3 by discriminate. unfold c1.
    rewrite reg_write_field_same.
    rewrite reg_write_field_other by discriminate. reflexivity. }
  split; [| split; [| split]].
  - rewrite reg_write_field_same. apply set_field_clear.
  - rewrite reg_write_field_same.
    rewrite set_field_other by (apply land_comm0; exact H3).
    rewrite reg_write_field_same, set_field_u32.
    apply set_field_clear.
  - rewrite reg_write_field_same.
    rewrite set_field_other by (apply land_comm0; exact H2).
    rewrite reg_write_field_same, set_field_u32.
    rewrite set_field_other by (apply land_comm0; exact H1).
    rewrite reg_write_field_same, set_field_u32.
    rewrite set_field_other by (apply land_comm0; exact H1).
    rewrite Hctrl, set_field_u32.
    intros Hz.
    pose proof (set_field_one (base (cfg dev) UNICAM_CTRL) UNICAM_SOE Hsoe)
      as Hbit.
    rewrite Hz, Z.testbit_0_l in Hbit. discriminate.
  - assert (Hd : forall r, r <> UNICAM_CTRL ->
                   base (reg_write_field
                           (reg_write_field
                              (reg_write_field c3 UNICAM_CTRL 1 UNICAM_CPR)
                              UNICAM_CTRL 0 UNICAM_CPR)
                           UNICAM_CTRL 0 UNICAM_CPE) r
                   = base c3 r).
    { intros r Hr. rewrite !reg_write_field_other by exact Hr. reflexivity. }
    rewrite !Hd by discriminate.
    split; [| split; [| split; [| split]]].
    + unfold c3, c2. destruct (2 <? max_data_lanes dev);
        rewrite ?reg_write_other by discriminate;
        rewrite reg_write_same; reflexivity.
    + unfold c3, c2. destruct (2 <? max_data_lanes dev);
        rewrite ?reg_write_other by discriminate;
        rewrite reg_write_same; reflexivity.
    + unfold c3. destruct (2 <? max_data_lanes dev).
      * split; rewrite ?reg_write_other by discriminate;
          rewrite reg_write_same; reflexivity.
      * split; unfold c2, c1;
          rewrite !reg_write_other by discriminate;
          rewrite !reg_write_field_other by discriminate; reflexivity.
    + reflexivity.
    + intros r R0 R1 R2 R3 R4 R5. rewrite Hd by exact R1.
      rewrite Hc3 by assumption. unfold c1.
      rewrite !reg_write_field_other by assumption. reflexivity.
Qed.

Lemma unicam_wr_dma_addr_clk (dev : unicam_device) (addr : Z) :
  clk_gate_base (cfg (unicam_wr_dma_addr dev addr)) = clk_gate_base (cfg dev).
Proof. reflexivity. Qed.

Lemma unicam_cfg_image_id_clk (dev : unicam_device) :
  clk_gate_base (cfg (unicam_cfg_image_id dev)) = clk_gate_base (cfg dev).
Proof. unfold unicam_cfg_image_id. destruct (is_csi2 dev); reflexivity. Qed.

Lemma unicam_start_rx_clock_gate (dev : unicam_device) (addr : Z) :
  clk_gate_base (cfg (unicam_start_rx dev addr))
  = u32 (Z.lor (lane_clock_bits (Z.to_nat (active_data_lanes dev)) 1)
               0x5a000000).
Proof.
  unfold unicam_start_rx. cbv zeta. cbn [cfg set_cfg].
  rewrite !reg_write_field_clk, !reg_write_clk.
  rewrite unicam_cfg_image_id_clk.
  unfold unicam_set_packing_config. cbv zeta. cbn [cfg set_cfg].
  rewrite reg_write_clk, unicam_wr_dma_addr_clk.
  unfold unicam_wr_dma_config. cbn [cfg set_cfg]. rewrite reg_write_clk.
  destruct (2 <? max_data_lanes dev);
    rewrite ?reg_write_field_clk, ?reg_write_clk;
    repeat (rewrite ?reg_write_field_clk, ?reg_write_clk);
    reflexivity.
Qed.

(** X16: the lane clocks [unicam_start_rx] enables.  With at most four
    active data lanes, the clock-gate register is left holding the
    password 0x5a000000 and, below it, one enable bit in every second
    position for the clock lane and for each active data lane, that is
    (4^(lanes+1) - 1) / 3. *)
Theorem unicam_start_rx_lane_clocks (dev : unicam_device) (addr : Z) :
  0 <= active_data_lanes dev <= 4 ->
  clk_gate_base (cfg (unicam_start_rx dev addr))
  = 0x5a000000 + (4 ^ (active_data_lanes dev + 1) - 1) / 3.
Proof.
  intros Hl. rewrite unicam_start_rx_clock_gate.
  assert (Hcases : active_data_lanes dev = 0 \/ active_data_lanes dev = 1
                   \/ active_data_lanes dev = 2 \/ active_data_lanes dev = 3
                   \/ active_data_lanes dev = 4) by lia.
  destruct Hcases as [-> | [-> | [-> | [-> | ->]]]]; reflexivity.
Qed.

Lemma unicam_start_rx_dma_end (dev : unicam_device) (addr : Z) :
  base (cfg (unicam_start_rx dev addr)) UNICAM_IBEA0
  = u32 (u32 addr + sizeimage (v_fmt dev))
  /\ base (cfg (unicam_start_rx dev addr)) UNICAM_IBLS
     = u32 (bytesperline (v_fmt dev)).
Proof.
  unfold unicam_start_rx. cbv zeta. cbn [cfg set_cfg].
  split.
  - rewrite !reg_write_field_other by discriminate.
    rewrite !reg_write_other by discriminate.
    rewrite unicam_cfg_image_id_base by discriminate.
    rewrite unicam_set_packing_config_base by discriminate.
    unfold unicam_wr_dma_addr. cbv zeta. cbn [cfg set_cfg].
    rewrite reg_write_same. reflexivity.
  - rewrite !reg_write_field_other by discriminate.
    rewrite !reg_write_other by discriminate.
    rewrite unicam_cfg_image_id_base by discriminate.
    rewrite unicam_set_packing_config_base by discriminate.
    unfold unicam_wr_dma_addr. cbv zeta. cbn [cfg set_cfg].
    rewrite !reg_write_other by discriminate.
    unfold unicam_wr_dma_config. cbn [cfg set_cfg].
    rewrite reg_write_same. reflexivity.
Qed.

End Receiver.

(** ** Stream start and stop, end to end *)

Section Sessions.

Context {uapi : Uapi} {regs : Vc4Regs} {core : MediaCore}.

Lemma err_release_buffers_counts (d : unicam_device) (ret : Z) (b : bufptr) :
  cur_frm d = Some b -> next_frm d = Some b ->
  exists d',
    err_release_buffers d ret = Some (ret, d')
    /\ pm_usage d' = pm_usage d /\ clk_enabled d' = clk_enabled d.
Proof.
  intros Hc Hn. unfold err_release_buffers. cbv zeta.
  destruct (release_queue_spec VB2_BUF_STATE_QUEUED (dma_queue d) d)
    as (_ & _ & R3 & R4 & _ & _ & _ & _ & R9 & R10).
  cbv zeta in R3, R4, R9, R10.
  set (d1 := release_queue (dma_queue d) VB2_BUF_STATE_QUEUED d) in *.
  rewrite R3, R4, Hc, Hn, ptr_eqb_refl. cbn [negb].
  eexists. split; [reflexivity |].
  cbn -[d1]. split; assumption.
Qed.

Lemma err_pm_put_counts (d : unicam_device) (ret : Z) (b : bufptr) :
  cur_frm d = Some b -> next_frm d = Some b ->
  exists d',
    err_pm_put d ret = Some (ret, d')
    /\ pm_usage d' = pm_usage d - 1 /\ clk_enabled d' = clk_enabled d.
Proof.
  intros Hc Hn. unfold err_pm_put.
  apply (err_release_buffers_counts (unicam_runtime_put d) ret b); assumption.
Qed.

Lemma err_disable_unicam_counts (d : unicam_device) (ret : Z) (b : bufptr) :
  cur_frm d = Some b -> next_frm d = Some b ->
  exists d',
    err_disable_unicam d ret = Some (ret, d')
    /\ pm_usage d' = pm_usage d - 1 /\ clk_enabled d' = clk_enabled d - 1.
Proof.
  intros Hc Hn. unfold err_disable_unicam. cbv zeta.
  rewrite unicam_disable_frame.
  set (d1 := clk_disable_unprepare (set_cfg (cfg (unicam_disable d)) d)).
  destruct (err_pm_put_counts d1 ret b) as (d' & E & H1 & H2);
    [exact Hc | exact Hn |].
  exists d'. split; [exact E |]. split; assumption.
Qed.

(** What a start leaves behind, counts and registers included. *)
Lemma unicam_start_streaming_counts (dev : unicam_device) (b : bufptr)
    (q : list bufptr) :
  dma_queue dev = b :: q ->
  exists ret dev',
    unicam_start_streaming dev = Some (ret, dev')
    /\ ((start_conditions dev /\ ret = 0
         /\ cur_frm dev' = Some b /\ next_frm dev' = Some b
         /\ dma_queue dev' = q /\ done dev' = done dev
         /\ bufs dev' = bufs dev /\ v_fmt dev' = v_fmt dev
         /\ streaming dev' = 1
         /\ pm_usage dev' = pm_usage dev + 1
         /\ clk_enabled dev' = clk_enabled dev + 1
         /\ active_data_lanes dev'
            = active_data_lanes (snd (start_streaming_lanes dev))
         /\ max_data_lanes dev' = max_data_lanes dev
         /\ base (cfg dev') UNICAM_IBSA0 = u32 (plane_dma_addr (bufs dev b))
         /\ base (cfg dev') UNICAM_IBEA0
            = u32 (u32 (plane_dma_addr (bufs dev b)) + sizeimage (v_fmt dev))
         /\ base (cfg dev') UNICAM_IBLS = u32 (bytesperline (v_fmt dev))
         /\ sequence dev' = 0)
        \/ (~ start_conditions dev
            /\ clk_enabled dev' = clk_enabled dev
            /\ pm_usage dev'
               = if pm_runtime_get_sync (platform dev) <? 0
                 then pm_usage dev + 1 else pm_usage dev)).
Proof.
  intros Hq. unfold unicam_start_streaming. rewrite Hq. cbv zeta.
  cbn [hd tl unicam_runtime_get fst snd].
  set (d0 := set_sequence 0
               (set_dma_queue q
                  (set_next_frm (Some b) (set_cur_frm (Some b) dev)))).
  change (platform d0) with (platform dev).
  change (pm_usage d0) with (pm_usage dev).
  set (d1 := set_pm_usage (pm_usage dev + 1) d0).
  unfold start_conditions.
  destruct (Z.ltb_spec (pm_runtime_get_sync (platform dev)) 0) as [Hpm | Hpm].
  { destruct (err_release_buffers_counts d1
                (pm_runtime_get_sync (platform dev)) b)
      as (d' & E & H1 & H2); try reflexivity.
    eexists. exists d'. split; [exact E |]. right.
    split; [lia |]. split; assumption. }
  destruct (start_streaming_lanes_indep dev d1) as [L1 L2]; try reflexivity.
  rewrite (start_streaming_lanes_frame d1), L1, L2.
  set (A := active_data_lanes (snd (start_streaming_lanes dev))).
  set (d2 := set_active_data_lanes A d1).
  change (max_data_lanes d2) with (max_data_lanes dev).
  change (active_data_lanes d2) with A.
  change (platform d2) with (platform dev).
  change (clk_enabled d2) with (clk_enabled dev).
  set (d3 := set_streaming 1 (set_clk_enabled (clk_enabled dev + 1) d2)).
  change (bufs (set_dma_queue q
                  (set_next_frm (Some b) (set_cur_frm (Some b) dev))) b)
    with (bufs dev b).
  set (addr := plane_dma_addr (bufs dev b)).
  rewrite (unicam_start_rx_frame d3 addr).
  set (d4 := set_cfg (cfg (unicam_start_rx d3 addr)) d3).
  change (sensor d4) with (sensor dev).
  assert (Hpmput : forall ret,
             exists d',
               err_pm_put d2 ret = Some (ret, d')
               /\ clk_enabled d' = clk_enabled dev
               /\ pm_usage d' = pm_usage dev).
  { intros ret.
    destruct (err_pm_put_counts d2 ret b) as (d' & E & H1 & H2);
      try reflexivity.
    exists d'. split; [exact E |]. split; [exact H2 |].
    rewrite H1. cbn. lia. }
  destruct (Z.ltb_spec (fst (start_streaming_lanes dev)) 0) as [Hl | Hl].
  { destruct (Hpmput (fst (start_streaming_lanes dev))) as (d' & E & H1 & H2).
    eexists. exists d'. split; [exact E |]. right.
    split; [lia |]. split; assumption. }
  destruct (Z.ltb_spec (max_data_lanes dev) A) as [Hm | Hm].
  { destruct (Hpmput (- EINVAL)) as (d' & E & H1 & H2).
    eexists. exists d'. split; [exact E |]. right.
    split; [lia |]. split; assumption. }
  destruct (Z.eqb_spec (clk_set_rate (platform dev) (100 * 1000 * 1000)) 0)
    as [Hr | Hr]; cbn [negb].
  2:{ destruct (Hpmput (clk_set_rate (platform dev) (100 * 1000 * 1000)))
        as (d' & E & H1 & H2).
      eexists. exists d'. split; [exact E |]. right.
      split; [tauto |]. split; assumption. }
  destruct (Z.eqb_spec (clk_prepare_enable (platform dev)) 0)
    as [He | He]; cbn [negb].
  2:{ destruct (Hpmput (clk_prepare_enable (platform dev)))
        as (d' & E & H1 & H2).
      eexists. exists d'. split; [exact E |]. right.
      split; [tauto |]. split; assumption. }
  destruct (Z.ltb_spec (s_stream (sensor dev) 1) 0) as [Hs | Hs].
  { destruct (err_disable_unicam_counts d4 (s_stream (sensor dev) 1) b)
      as (d' & E & H1 & H2); try reflexivity.
    eexists. exists d'. split; [exact E |]. right.
    split; [lia |].
    rewrite H1, H2. cbn. split; lia. }
  exists 0, d4. split; [reflexivity |]. left.
  split; [tauto |].
  do 12 (split; [reflexivity |]).
  unfold d4. rewrite cfg_set_cfg.
  destruct (unicam_start_rx_dma_end d3 addr) as [HE HS].
  split; [apply unicam_start_rx_dma_address |].
  split; [exact HE |]. split; [exact HS | reflexivity].
Qed.

(** X17: what a start holds on to.  Counting in [pm_usage] the calls of
    [pm_runtime_get_sync] less those of [pm_runtime_put_sync], and in
    [clk_enabled] the successful calls of [clk_prepare_enable] less those
    of [clk_disable_unprepare], and with -EINVAL different from 0: a start
    returns 0 exactly when every collaborator succeeds; a start that
    returns 0 leaves both counts one higher, with the active lanes no more
    than the configured maximum; a start that returns anything else leaves
    the clock count as it was and the runtime-PM count as it was too,
    except when [pm_runtime_get_sync] itself is the call that failed: that
    path jumps past the put, and the count stays one higher. *)
Theorem unicam_start_streaming_accounting (dev : unicam_device) (b : bufptr)
    (q : list bufptr) :
  dma_queue dev = b :: q ->
  0 < EINVAL ->
  exists ret dev',
    unicam_start_streaming dev = Some (ret, dev')
    /\ (ret = 0 <-> start_conditions dev)
    /\ (ret = 0 ->
        pm_usage dev' = pm_usage dev + 1
        /\ clk_enabled dev' = clk_enabled dev + 1
        /\ active_data_lanes dev' <= max_data_lanes dev'
        /\ max_data_lanes dev' = max_data_lanes dev)
    /\ (ret <> 0 ->
        clk_enabled dev' = clk_enabled dev
        /\ pm_usage dev'
           = if pm_runtime_get_sync (platform dev) <? 0
             then pm_usage dev + 1 else pm_usage dev).
Proof.
  intros Hq He.
  destruct (unicam_start_streaming_returns dev) as (d2 & E2).
  destruct (unicam_start_streaming_counts dev b q Hq)
    as (ret & dev' & E
        & [(Hok & H0 & _ & _ & _ & _ & _ & _ & _ & P & K & A & M & _)
          | (Hno & H1 & H2)]);
    exists ret, dev'; (split; [exact E |]).
  - subst ret. split; [tauto |]. split; [| intros H; contradiction].
    intros _. destruct Hok as (_ & _ & Hlanes & _).
    rewrite A, M. repeat split; assumption.
  - assert (Hret : ret = start_result dev).
    { rewrite E2 in E. injection E as <- _. reflexivity. }
    assert (Hnz : ret <> 0).
    { intros Hz. apply Hno. apply start_result_zero; [exact He |].
      rewrite <- Hret. exact Hz. }
    split; [split; [intros Hz; contradiction | intros Hok; contradiction] |].
    split; [intros Hz; contradiction |].
    intros _. split; assumption.
Qed.

Lemma unicam_stop_streaming_spec (dev : unicam_device) (a b : bufptr) :
  cur_frm dev = Some a -> next_frm dev = Some b ->
  exists dev',
    unicam_stop_streaming dev = Some dev'
    /\ done dev'
       = done dev ++ map (returned dev VB2_BUF_STATE_ERROR)
                         (dma_queue dev ++ (if Nat.eqb a b then [a] else [a; b]))
    /\ cur_frm dev' = None /\ next_frm dev' = None /\ dma_queue dev' = []
    /\ pm_usage dev' = pm_usage dev - 1
    /\ clk_enabled dev' = clk_enabled dev - 1
    /\ streaming dev' = streaming dev
    /\ cfg dev' = cfg (unicam_disable dev)
    /\ bufs dev' = bufs dev.
Proof.
  intros Hc Hn.
  unfold unicam_stop_streaming. cbv zeta.
  rewrite unicam_disable_frame.
  set (d1 := set_cfg (cfg (unicam_disable dev)) dev).
  change (dma_queue d1) with (dma_queue dev).
  destruct (release_queue_spec VB2_BUF_STATE_ERROR (dma_queue dev) d1)
    as (R1 & R2 & R3 & R4 & R5 & R6 & _ & R8 & R9 & R10).
  cbv zeta in R1, R2, R3, R4, R5, R6, R8, R9, R10.
  set (d2 := release_queue (dma_queue dev) VB2_BUF_STATE_ERROR d1) in *.
  change (done d1) with (done dev) in R1.
  change (cur_frm d1) with (cur_frm dev) in R3.
  change (next_frm d1) with (next_frm dev) in R4.
  change (dma_queue d1) with (dma_queue dev) in R2.
  change (bufs d1) with (bufs dev) in R5.
  change (cfg d1) with (cfg (unicam_disable dev)) in R6.
  change (streaming d1) with (streaming dev) in R8.
  change (pm_usage d1) with (pm_usage dev) in R9.
  change (clk_enabled d1) with (clk_enabled dev) in R10.
  change (returned d1) with (returned dev) in R1.
  rewrite R3, R4, Hc, Hn.
  assert (Hq2 : dma_queue d2 = [])
    by (rewrite R2; destruct (dma_queue dev); reflexivity).
  cbn [ptr_eqb].
  destruct (Nat.eqb a b); eexists; (split; [reflexivity |]);
    cbn -[d2 unicam_disable]; rewrite R1, R5, R6, R8, R9, R10, Hq2, map_app,
      <- ?app_assoc; repeat split.
Qed.

(** X18: a stream that is started and then stopped.  A start whose
    collaborators succeed, on a queue headed by [b], followed by a stop,
    hands back the rest of the queue and then [b], each tagged Error and
    each once, leaves both slots and the queue empty and the runtime-PM
    and clock counts where they were before the start, and leaves the
    registers as [unicam_disable] sets them; the streaming flag, set by
    the start, is not cleared by the stop. *)
Theorem start_then_stop (dev : unicam_device) (b : bufptr) (q : list bufptr) :
  dma_queue dev = b :: q ->
  start_conditions dev ->
  exists dev1 dev2,
    unicam_start_streaming dev = Some (0, dev1)
    /\ unicam_stop_streaming dev1 = Some dev2
    /\ done dev2
       = done dev ++ map (returned dev VB2_BUF_STATE_ERROR) (q ++ [b])
    /\ cur_frm dev2 = None /\ next_frm dev2 = None /\ dma_queue dev2 = []
    /\ pm_usage dev2 = pm_usage dev
    /\ clk_enabled dev2 = clk_enabled dev
    /\ cfg dev2 = cfg (unicam_disable dev1)
    /\ streaming dev2 = 1.
Proof.
  intros Hq Hok.
  destruct (unicam_start_streaming_counts dev b q Hq)
    as (ret & dev1 & E
        & [(_ & -> & F1 & F2 & F4 & F3 & F5 & _ & F8 & F6 & F7 & _)
          | (Hno & _)]); [| contradiction].
  destruct (unicam_stop_streaming_spec dev1 b b F1 F2)
    as (dev2 & E2 & D & C & N & Q & P & K & S & G & _).
  exists dev1, dev2. split; [exact E |]. split; [exact E2 |].
  rewrite D, C, N, Q, P, K, S, G, Nat.eqb_refl, F3, F4, F6, F7, F8.
  unfold returned. rewrite F5.
  repeat split; lia.
Qed.

(** *** The DMA window *)

Lemma dma_window_ack (d : unicam_device) (v1 v2 : Z) :
  dma_window_on_next d ->
  dma_window_on_next
    (set_cfg (reg_write (reg_write (cfg d) UNICAM_STA v1) UNICAM_ISTA v2) d).
Proof.
  intros H b Hb. cbn [cfg set_cfg bufs v_fmt] in *.
  rewrite !reg_write_other by discriminate. apply H. exact Hb.
Qed.

Lemma dma_window_timestamp (d : unicam_device) (now : Z) :
  dma_window_on_next d -> dma_window_on_next (isr_timestamp d now).
Proof.
  intros H b Hb.
  destruct (isr_timestamp_frame d now)
    as (_ & T2 & _ & _ & _ & _ & T7 & T8 & _ & T10).
  cbv zeta in T2, T7, T8, T10.
  rewrite T7, T8, T10. apply H. rewrite <- T2. exact Hb.
Qed.

Lemma dma_window_complete (d d' : unicam_device) :
  isr_complete d = Some d' ->
  dma_window_on_next d -> dma_window_on_next d'.
Proof.
  unfold isr_complete.
  destruct (cur_frm d) as [a |] eqn:Hc; [| intros E; injection E as <-; auto].
  destruct (negb (ptr_eqb (Some a) (next_frm d)));
    [| intros E; injection E as <-; auto].
  unfold unicam_process_buffer_complete. rewrite Hc.
  intros E. injection E as <-. intros H b Hb.
  cbn in Hb |- *.
  destruct (H b Hb) as [H1 H2].
  destruct (Nat.eqb_spec b a) as [-> | Hba]; cbn; split; assumption.
Qed.

Lemma dma_window_next_buffer (d d' : unicam_device) :
  isr_next_buffer d = Some d' ->
  dma_window_on_next d -> dma_window_on_next d'.
Proof.
  unfold isr_next_buffer, unicam_schedule_next_buffer.
  destruct (dma_queue d) as [| x q]; [intros E; injection E as <-; auto |].
  destruct (ptr_eqb (cur_frm d) (next_frm d));
    [| intros E; injection E as <-; auto].
  intros E. injection E as <-. intros _ b Hb.
  cbn [next_frm set_next_frm set_dma_queue unicam_wr_dma_addr set_cfg] in Hb.
  injection Hb as <-.
  unfold unicam_wr_dma_addr. cbv zeta.
  cbn [cfg set_cfg bufs v_fmt set_next_frm set_dma_queue].
  split.
  - rewrite reg_write_other by discriminate.
    rewrite reg_write_same. apply u32_idem.
  - rewrite reg_write_same. reflexivity.
Qed.

Lemma dma_window_leave (d : unicam_device) :
  dma_window_on_next d -> dma_window_on_next (isr_leave_trigger_mode d).
Proof.
  intros H b Hb.
  destruct (isr_leave_trigger_mode_frame d)
    as (_ & L2 & _ & _ & _ & _ & L7 & _ & L9 & _ & L11).
  cbv zeta in L2, L7, L9, L11.
  rewrite L7, L9, !L11 by discriminate. apply H. rewrite <- L2. exact Hb.
Qed.

Lemma unicam_isr_dma_window (dev : unicam_device) (now : Z) :
  exists dev',
    unicam_isr dev now = Some (IRQ_HANDLED, dev')
    /\ (dma_window_on_next dev -> dma_window_on_next dev').
Proof.
  apply (unicam_isr_by_blocks
           (fun d d' => dma_window_on_next d -> dma_window_on_next d')).
  - auto.
  - auto.
  - intros d v1 v2. apply dma_window_ack.
  - intros d t. apply dma_window_timestamp.
  - apply dma_window_complete.
  - apply dma_window_next_buffer.
  - apply dma_window_leave.
Qed.

Lemma run_dma_window (es : list event) :
  forall dev, dma_window_on_next dev ->
  exists dev', run dev es = Some dev' /\ dma_window_on_next dev'.
Proof.
  induction es as [| e es IH]; intros dev H; [exists dev; auto |].
  destruct e as [b | sta ista now]; cbn [run step bind].
  - apply IH. intros x Hx. apply H. exact Hx.
  - destruct (unicam_isr_dma_window (raise_irq dev sta ista) now)
      as (d1 & E1 & H1).
    rewrite E1. cbn [bind snd]. apply IH. apply H1.
    unfold raise_irq. apply dma_window_ack. exact H.
Qed.

(** X19: the receiver writes where the driver expects it to.  After a
    start whose collaborators succeed, and after every run of queueing
    and interrupts that follows, the DMA start and end address registers
    hold the plane of the buffer in the next slot: its address, and its
    address plus the image size.  The start also leaves the stride
    register holding the stride of the format. *)
Theorem dma_window_follows_next_slot (dev : unicam_device) (b : bufptr)
    (q : list bufptr) (es : list event) :
  dma_queue dev = b :: q ->
  start_conditions dev ->
  exists dev1 dev2,
    unicam_start_streaming dev = Some (0, dev1)
    /\ run dev1 es = Some dev2
    /\ base (cfg dev1) UNICAM_IBLS = u32 (bytesperline (v_fmt dev))
    /\ dma_window_on_next dev1
    /\ dma_window_on_next dev2.
Proof.
  intros Hq Hok.
  destruct (unicam_start_streaming_counts dev b q Hq)
    as (ret & dev1 & E
        & [(_ & -> & _ & F2 & _ & _ & F5 & F6 & _ & _ & _ & _ & _
            & HA & HE & HS & _)
          | (Hno & _)]); [| contradiction].
  assert (H1 : dma_window_on_next dev1).
  { intros x Hx. rewrite F2 in Hx. injection Hx as <-.
    rewrite F5, F6. split; assumption. }
  destruct (run_dma_window es dev1 H1) as (dev2 & E2 & H2).
  exists dev1, dev2. split; [exact E |]. split; [exact E2 |].
  split; [exact HS |]. split; assumption.
Qed.

(** *** Time stamps *)

(** X20: what a completed buffer carries.  A serviced interrupt with the
    frame-end condition, taken while the slots hold the different buffers
    [a] and [b], completes [a] as Done with the field of the format and
    the current sequence number.  The time stamp it carries is the one
    stored for [a] by an earlier frame start, unless this interrupt also
    carries the frame-start bit: the frame-start block runs first and
    stamps the current buffer, so [a] then leaves with the time of this
    interrupt. *)
Theorem completed_buffer_stamp (dev : unicam_device) (now : Z) (a b : bufptr) :
  streaming dev <> 0 ->
  isr_serviced dev = true -> isr_frame_end dev = true ->
  cur_frm dev = Some a -> next_frm dev = Some b -> a <> b ->
  exists dev' c,
    unicam_isr dev now = Some (IRQ_HANDLED, dev')
    /\ done dev' = done dev ++ [c]
    /\ c_buf c = a /\ c_state c = VB2_BUF_STATE_DONE
    /\ vb_field (c_vb c) = m_fmt_field dev
    /\ vb_sequence (c_vb c) = sequence dev
    /\ vb_timestamp (c_vb c)
       = (if isr_frame_start dev then now else vb_timestamp (bufs dev a))
    /\ plane_dma_addr (c_vb c) = plane_dma_addr (bufs dev a).
Proof.
  intros Hstr Hserv Hend Hc Hn Hab.
  unfold unicam_isr.
  apply Z.eqb_neq in Hstr. rewrite Hstr, Hserv, Hend. cbn [negb].
  cbv zeta.
  set (dev1 := set_cfg (reg_write (reg_write (cfg dev) UNICAM_STA (isr_sta dev))
                                  UNICAM_ISTA (isr_ista dev)) dev).
  set (dev2 := if isr_frame_start dev then isr_timestamp dev1 now else dev1).
  assert (H2 : cur_frm dev2 = Some a /\ next_frm dev2 = Some b
               /\ done dev2 = done dev /\ sequence dev2 = sequence dev
               /\ m_fmt_field dev2 = m_fmt_field dev
               /\ plane_dma_addr (bufs dev2 a) = plane_dma_addr (bufs dev a)
               /\ vb_timestamp (bufs dev2 a)
                  = if isr_frame_start dev then now
                    else vb_timestamp (bufs dev a)).
  { unfold dev2. destruct (isr_frame_start dev).
    - unfold isr_timestamp.
      change (cur_frm dev1) with (cur_frm dev). rewrite Hc.
      cbn. rewrite Nat.eqb_refl. cbn. repeat split; assumption.
    - cbn. repeat split; assumption. }
  destruct H2 as (C2 & N2 & D2 & S2 & F2 & A2 & T2).
  destruct (isr_complete_distinct dev2 a b C2 N2 Hab)
    as (dev3 & C0 & C1 & _).
  rewrite C0. cbn [bind].
  assert (H4 : exists dev4,
             (if isr_schedule dev then isr_next_buffer dev3 else Some dev3)
             = Some dev4 /\ done dev4 = done dev3).
  { destruct (isr_schedule dev); [| exists dev3; auto].
    destruct (isr_next_buffer_total dev3) as (d & E & D & _).
    exists d. auto. }
  destruct H4 as (dev4 & N0 & N1).
  rewrite N0. cbn [bind].
  destruct (isr_leave_trigger_mode_frame dev4) as (_ & _ & _ & L4 & _).
  cbv zeta in L4.
  eexists. eexists. split; [reflexivity |].
  rewrite L4, N1, C1, D2, F2, S2, A2, T2.
  split; [reflexivity |]. cbn. repeat split.
Qed.

End Sessions.

(** ** A whole capture session *)

Section WholeSession.

Context {uapi : Uapi} {regs : Vc4Regs} {core : MediaCore}.

Lemma run_numbered (es : list event) :
  forall dev,
  exists dev' new,
    run dev es = Some dev'
    /\ done dev' = done dev ++ new
    /\ numbered_from (sequence dev) new.
Proof.
  induction es as [| e es IH]; intros dev.
  - exists dev, []. rewrite app_nil_r. cbn. auto.
  - destruct (step_numbered dev e) as (d1 & new1 & E1 & D1 & N1 & S1 & _).
    destruct (IH d1) as (d2 & new2 & E2 & D2 & N2).
    exists d2, (new1 ++ new2). cbn [run]. rewrite E1. cbn [bind].
    split; [exact E2 |].
    split; [rewrite D2, D1, app_assoc; reflexivity |].
    apply numbered_from_app; [exact N1 |]. rewrite <- S1. exact N2.
Qed.

Lemma numbered_from_done (l : list completion) :
  forall s, numbered_from s l ->
  Forall (fun c => c_state c = VB2_BUF_STATE_DONE) l.
Proof.
  induction l as [| c l IH]; intros s H; [constructor |].
  cbn [numbered_from] in H. destruct H as (Hc & _ & Hrest).
  constructor; [exact Hc | exact (IH _ Hrest)].
Qed.

(** Once both slots hold a buffer they keep holding one. *)
Lemma unicam_isr_slots_filled (dev : unicam_device) (now : Z) :
  exists dev',
    unicam_isr dev now = Some (IRQ_HANDLED, dev')
    /\ (cur_frm dev <> None /\ next_frm dev <> None ->
        cur_frm dev' <> None /\ next_frm dev' <> None).
Proof.
  apply (unicam_isr_by_blocks
           (fun d d' => cur_frm d <> None /\ next_frm d <> None ->
                        cur_frm d' <> None /\ next_frm d' <> None)).
  - auto.
  - auto.
  - intros d v1 v2 H. exact H.
  - intros d t H.
    destruct (isr_timestamp_frame d t) as (T1 & T2 & _).
    cbv zeta in T1, T2. rewrite T1, T2. exact H.
  - intros d d'. unfold isr_complete.
    destruct (cur_frm d) as [a |] eqn:Hc;
      [| intros E; injection E as <-; rewrite Hc; auto].
    destruct (negb (ptr_eqb (Some a) (next_frm d)));
      [| intros E; injection E as <-; rewrite Hc; auto].
    unfold unicam_process_buffer_complete. rewrite Hc.
    intros E. injection E as <-. cbn. tauto.
  - intros d d'. unfold isr_next_buffer, unicam_schedule_next_buffer.
    destruct (dma_queue d) as [| x q]; [intros E; injection E as <-; auto |].
    destruct (ptr_eqb (cur_frm d) (next_frm d));
      [| intros E; injection E as <-; auto].
    intros E. injection E as <-. cbn. intros [H _].
    split; [exact H | discriminate].
  - intros d H.
    destruct (isr_leave_trigger_mode_frame d) as (L1 & L2 & _).
    cbv zeta in L1, L2. rewrite L1, L2. exact H.
Qed.

Lemma run_slots_filled (es : list event) :
  forall dev dev',
  run dev es = Some dev' ->
  cur_frm dev <> None /\ next_frm dev <> None ->
  cur_frm dev' <> None /\ next_frm dev' <> None.
Proof.
  induction es as [| e es IH]; intros dev dev' E H.
  - injection E as <-. exact H.
  - destruct e as [b | sta ista now]; cbn [run step bind] in E.
    + apply (IH _ _ E). exact H.
    + destruct (unicam_isr_slots_filled (raise_irq dev sta ista) now)
        as (d1 & E1 & H1).
      rewrite E1 in E. cbn [bind snd] in E.
      apply (IH _ _ E). apply H1. exact H.
Qed.

(** X22: a whole session returns every buffer exactly once.  A start
    whose collaborators succeed, any run of queueing and interrupts, and
    a stop: none of the three faults; with the buffers queued before the
    start and those submitted during the run pairwise distinct, each of
    them is handed back exactly once, either completed during the run,
    tagged Done and numbered from zero in the order of completion, or
    returned by the stop, tagged Error; and the driver holds no buffer
    afterwards. *)
Theorem session_returns_every_buffer (dev : unicam_device) (b : bufptr)
    (q : list bufptr) (es : list event) :
  dma_queue dev = b :: q ->
  start_conditions dev ->
  NoDup (b :: q ++ submitted es) ->
  exists dev1 dev2 dev3 completed handed_back,
    unicam_start_streaming dev = Some (0, dev1)
    /\ run dev1 es = Some dev2
    /\ unicam_stop_streaming dev2 = Some dev3
    /\ done dev3 = done dev ++ completed ++ handed_back
    /\ Forall (fun c => c_state c = VB2_BUF_STATE_DONE) completed
    /\ numbered_from 0 completed
    /\ Forall (fun c => c_state c = VB2_BUF_STATE_ERROR) handed_back
    /\ Permutation (b :: q ++ submitted es)
                   (map c_buf (completed ++ handed_back))
    /\ holdings dev3 = [].
Proof.
  intros Hq Hok Hnd.
  destruct (unicam_start_streaming_counts dev b q Hq)
    as (ret & dev1 & E1
        & [(_ & -> & F1 & F2 & F3 & F4 & _ & _ & _ & _ & _ & _ & _ & _ & _
            & _ & F5)
          | (Hno & _)]); [| contradiction].
  assert (Hh1 : holdings dev1 = b :: q).
  { unfold holdings, slots. rewrite F1, F2, F3, Nat.eqb_refl. reflexivity. }
  destruct (run_hands_over es dev1) as (dev2 & new & E2 & D2 & P2).
  { rewrite Hh1. exact Hnd. }
  destruct (run_numbered es dev1) as (dev2' & new' & E2' & D2' & N2).
  rewrite E2 in E2'. injection E2' as <-.
  rewrite D2 in D2'. apply app_inv_head in D2'. subst new'.
  rewrite F5 in N2.
  destruct (run_slots_filled es dev1 dev2 E2) as [Hc Hn];
    [rewrite F1, F2; split; discriminate |].
  destruct (cur_frm dev2) as [a |] eqn:Hcur; [| contradiction].
  destruct (next_frm dev2) as [b' |] eqn:Hnext; [| contradiction].
  destruct (unicam_stop_streaming_spec dev2 a b' Hcur Hnext)
    as (dev3 & E3 & D3 & C3 & N3 & Q3 & _).
  set (back := map (returned dev2 VB2_BUF_STATE_ERROR)
                 (dma_queue dev2 ++ (if Nat.eqb a b' then [a] else [a; b'])))
    in *.
  exists dev1, dev2, dev3, new, back.
  split; [exact E1 |]. split; [exact E2 |]. split; [exact E3 |].
  split; [rewrite D3, D2, F4, app_assoc; reflexivity |].
  split; [exact (numbered_from_done new 0 N2) |].
  split; [exact N2 |].
  split.
  { apply Forall_forall. intros c Hin. unfold back in Hin.
    apply in_map_iff in Hin. destruct Hin as (p & <- & _). reflexivity. }
  split.
  { rewrite Hh1 in P2. cbn [app] in P2.
    apply (Permutation_trans P2).
    rewrite map_app. apply Permutation_app_head.
    unfold back. rewrite map_map. cbn [returned c_buf]. rewrite map_id.
    unfold holdings, slots. rewrite Hcur, Hnext.
    apply Permutation_app_comm. }
  unfold holdings, slots. rewrite C3, N3, Q3. reflexivity.
Qed.

End WholeSession.

(** * The statements on concrete inputs *)

Section Concrete.

#[local] Existing Instance linux_uapi.
#[local] Existing Instance vc4_regs_unicam.
#[local] Existing Instance spec_core.

(** The scenario of the specification on the table of the driver: the
    pixel code YUYV answers to two entries, the first of them ambiguous;
    with a source that enumerates the transport code of the second only,
    the lookup returns the second. *)
Example find_format_by_pix_second_entry :
  find_format_by_pix dev_idle V4L2_PIX_FMT_YUYV = Some fmt_yuyv_1x16
  /\ find_format_by_pix dev_repeating V4L2_PIX_FMT_YUYV = Some fmt_yuyv_2x8.
Proof. split; vm_compute; reflexivity. Qed.

(** The same on a table of two ambiguous entries. *)
Example find_format_by_pix_two_ambiguous :
  find_format_by_pix_from
    [fmt_yuyv_2x8;
     {| fourcc := V4L2_PIX_FMT_YUYV; repacked_fourcc := 0;
        code := MEDIA_BUS_FMT_YUYV8_1X16; depth := 16; csi_dt := 0x1e;
        check_variants := 1 |}]
    dev_idle V4L2_PIX_FMT_YUYV
  = Some {| fourcc := V4L2_PIX_FMT_YUYV; repacked_fourcc := 0;
            code := MEDIA_BUS_FMT_YUYV8_1X16; depth := 16; csi_dt := 0x1e;
            check_variants := 1 |}.
Proof. vm_compute. reflexivity. Qed.

(** C7, on the table of the driver and [dev_idle], whose sensor
    enumerates the 1X16 code only: the first entry for YUYV is ambiguous
    and its 2X8 code is not produced, the next three entries do not answer
    to YUYV, and the fifth is returned. *)
Lemma ambiguous_format_resolution_witness :
  find_format_by_pix dev_idle V4L2_PIX_FMT_YUYV = Some fmt_yuyv_1x16.
Proof.
  apply (proj2 (proj2 (proj2
           (ambiguous_format_resolution dev_idle V4L2_PIX_FMT_YUYV)))
           [] fmt_yuyv_2x8 (firstn 3 (skipn 1 formats)) fmt_yuyv_1x16
           (skipn 5 formats)).
  - reflexivity.
  - intros g Hg. cbn [app firstn skipn formats In] in Hg.
    unfold matches_pix.
    repeat (destruct Hg as [Hg | Hg];
            [subst g; vm_compute; intros [H | H]; discriminate H |]).
    contradiction.
  - left. reflexivity.
  - discriminate.
  - left. reflexivity.
  - intros (i & Hi & He & _).
    unfold dev_idle, sensor_with_code in He. cbn [sensor enum_mbus_code] in He.
    destruct (i =? 0); vm_compute in He; discriminate He.
  - left. reflexivity.
Defined.

(** Three buffers queued at start: the start takes the first, the first
    frame start arms the second, and of three frame ends the first two
    complete buffers 1 and 2 with the sequence numbers 0 and 1. *)
Example three_buffer_run :
  match unicam_start_streaming
          (unicam_buffer_queue dev_two_queued 3%nat) with
  | Some (0, dev) =>
      match run dev [EvIrq sta_irq ista_frame_start 10;
                     EvIrq sta_irq ista_frame_end 20;
                     EvIrq sta_irq ista_frame_start 30;
                     EvIrq sta_irq ista_frame_end 40;
                     EvIrq sta_irq ista_frame_start 50;
                     EvIrq sta_irq ista_frame_end 60] with
      | Some dev' =>
          map (fun c => (c_buf c, vb_sequence (c_vb c))) (done dev')
          = [(1%nat, 0); (2%nat, 1)]
          /\ cur_frm dev' = Some 3%nat /\ next_frm dev' = Some 3%nat
      | None => False
      end
  | _ => False
  end.
Proof. vm_compute. repeat split. Qed.

(** C1, on [dev_starved] with a frame end. *)
Lemma starvation_drops_frame_witness :
  exists dev',
    unicam_isr (raise_irq dev_starved sta_irq ista_frame_end) 0
    = Some (IRQ_HANDLED, dev')
    /\ done dev' = []
    /\ cur_frm dev' = Some 1%nat
    /\ next_frm dev' = Some 1%nat.
Proof.
  destruct (starvation_drops_frame
              (raise_irq dev_starved sta_irq ista_frame_end) 0)
    as (dev' & E & H1 & H2 & H3 & _);
    [vm_compute; discriminate | reflexivity | reflexivity | reflexivity
    | reflexivity |].
  exists dev'. repeat split; assumption.
Defined.

(** C2 as the specification words it fails on the run [ev_first_end],
    [ev_between], [ev_second_end] from [dev_running]: one frame is dropped
    between the completions of buffers 1 and 2, whose sequence numbers are
    0 and 1. *)
Lemma sequence_gap_counterexample :
  ~ sequence_gap_as_specified dev_running ev_first_end ev_between
      ev_second_end.
Proof.
  intros H.
  specialize (H dev_after_first dev_after_between dev_after_second
                (nth 0 (done dev_after_first) blank_completion)
                (nth 1 (done dev_after_second) blank_completion)).
  specialize (H (step_state_or _ _ _) ltac:(vm_compute; reflexivity)
                (run_state_or _ _ _) ltac:(vm_compute; reflexivity)
                (step_state_or _ _ _) ltac:(vm_compute; reflexivity)).
  vm_compute in H. discriminate H.
Qed.

(** The run of that counterexample: one frame dropped between two
    completions numbered 0 and 1. *)
Example sequence_gap_run :
  drops dev_after_first ev_between = 1%nat
  /\ map (fun c => (c_buf c, vb_sequence (c_vb c))) (done dev_after_second)
     = [(1%nat, 0); (2%nat, 1)].
Proof. split; vm_compute; reflexivity. Qed.

(** C3, on [dev_two_queued]. *)
Lemma start_fills_both_slots_with_head_witness :
  exists dev',
    unicam_start_streaming dev_two_queued = Some (0, dev')
    /\ cur_frm dev' = Some 1%nat /\ next_frm dev' = Some 1%nat
    /\ dma_queue dev' = [2%nat].
Proof.
  destruct (start_fills_both_slots_with_head dev_two_queued 1%nat [2%nat])
    as (dev' & E & H1 & H2 & _ & H4 & _).
  - reflexivity.
  - unfold start_conditions. vm_compute. repeat split; discriminate.
  - exists dev'. repeat split; assumption.
Defined.

(** C3 as the specification words it fails on [dev_two_queued]: the
    second buffer stays in the queue. *)
Lemma start_pops_two_counterexample :
  ~ start_pops_two_as_specified dev_two_queued.
Proof.
  intros H.
  destruct (H 1%nat 2%nat [] eq_refl) as (dev' & E & _ & Hn & _).
  - unfold start_conditions. vm_compute. repeat split; discriminate.
  - destruct (unicam_start_streaming_outcome dev_two_queued 1%nat [2%nat]
                eq_refl)
      as (ret & dev'' & E' & [(_ & _ & _ & Hn' & _) | (_ & _ & Hn' & _)]);
      rewrite E' in E; injection E as _ <-; congruence.
Qed.



(** C5, on [dev_waiting]: a frame start, a buffer queued meanwhile, then a
    frame end. *)
Lemma starvation_recovery_witness :
  exists dev1 dev2 c,
    step dev_waiting (EvIrq sta_irq ista_frame_start 10) = Some dev1
    /\ next_frm dev1 = Some 2%nat
    /\ run dev1 (map EvQueue [3%nat] ++ [EvIrq sta_irq ista_frame_end 20])
       = Some dev2
    /\ done dev2 = [c] /\ c_buf c = 1%nat
    /\ cur_frm dev2 = Some 2%nat.
Proof.
  destruct (starvation_recovery dev_waiting 1%nat 2%nat [] [3%nat]
              sta_irq ista_frame_start 10 sta_irq ista_frame_end 20)
    as (dev1 & dev2 & c & E1 & _ & H2 & _ & _ & _ & _ & E2 & H3 & H4 & _ & _
        & H5);
    [vm_compute; discriminate | reflexivity | reflexivity | reflexivity
    | discriminate | reflexivity | reflexivity | reflexivity | reflexivity |].
  exists dev1, dev2, c. repeat split; assumption.
Defined.

(** C5 as the specification words it fails on [dev_waiting] with a frame
    end: the queued buffer is not moved into the next slot. *)
Lemma recovery_at_frame_end_counterexample :
  ~ recovery_at_frame_boundary_as_specified dev_waiting sta_irq
      ista_frame_end 10.
Proof.
  intros H.
  destruct (H 2%nat []) as (dev' & E & Hn & _).
  - vm_compute. discriminate.
  - reflexivity.
  - reflexivity.
  - reflexivity.
  - right. reflexivity.
  - assert (E' : option_map next_frm
                   (step dev_waiting (EvIrq sta_irq ista_frame_end 10))
                 = Some (Some 1%nat)) by (vm_compute; reflexivity).
    rewrite E in E'. cbn [option_map] in E'. congruence.
Qed.

(** C6, on [dev_waiting]: buffer 1 in both slots and buffer 2 queued. *)
Lemma stop_returns_every_buffer_witness :
  exists dev' new,
    unicam_stop_streaming dev_waiting = Some dev'
    /\ done dev' = new
    /\ Forall (fun c => c_state c = VB2_BUF_STATE_ERROR) new
    /\ map c_buf new = [2%nat; 1%nat].
Proof.
  destruct (stop_returns_every_buffer dev_waiting 1%nat 1%nat)
    as (dev' & new & E & H1 & H2 & H3 & _).
  - reflexivity.
  - reflexivity.
  - constructor; [intros [] | constructor].
  - intros [H | []]. discriminate H.
  - intros [H | []]. discriminate H.
  - exists dev', new. repeat split; assumption.
Defined.

(** C8 as the specification words it fails on a request of 17 bytes for a
    line that needs 16: the stride becomes 32. *)
Lemma stride_rule_counterexample :
  ~ stride_rule_as_specified fmt_sbggr8 pix_misaligned.
Proof.
  unfold stride_rule_as_specified. intros [_ H].
  assert (Hn : ~ (bytes_per_line
                    (width (unicam_calc_format_size_bpl fmt_sbggr8
                                                        pix_misaligned))
                    fmt_sbggr8 (pixelformat pix_misaligned)
                  < bytesperline pix_misaligned < MAX_BYTESPERLINE
                  /\ bytesperline pix_misaligned mod BPL_ALIGNMENT = 0)).
  { intros [_ Hal]. vm_compute in Hal. discriminate Hal. }
  specialize (H Hn). vm_compute in H. discriminate H.
Qed.

(** C9, on a 640x480 YUYV request. *)
Lemma stride_aligned_and_sufficient_witness :
  bytesperline (unicam_calc_format_size_bpl fmt_yuyv_1x16 pix_vga)
    mod BPL_ALIGNMENT = 0
  /\ 640 * 16 / 8
     <= bytesperline (unicam_calc_format_size_bpl fmt_yuyv_1x16 pix_vga).
Proof.
  destruct (stride_aligned_and_sufficient fmt_yuyv_1x16 pix_vga)
    as (H1 & H2).
  - unfold formats. do 4 right. left. reflexivity.
  - vm_compute. split; discriminate.
  - split; [exact H1 |].
    change (pixelformat pix_vga =? repacked_fourcc fmt_yuyv_1x16)
      with false in H2.
    exact (proj1 H2).
Defined.

(** C10 as the specification words it fails on a sensor that answers every
    index with a code of the table: the lookup returns at the first call,
    and the sensor never reports exhaustion. *)
Lemma fallback_termination_counterexample :
  ~ terminates_only_on_exhaustion dev_repeating 0.
Proof.
  intros H.
  destruct H as (i & Hi & [He | He]).
  - exists 1%nat, (Some fmt_yuyv_2x8). vm_compute. reflexivity.
  - vm_compute in He. discriminate He.
  - vm_compute in He. discriminate He.
Qed.

(** C9 as the specification words it fails on a 640-pixel line of the
    repacked 10-bit Bayer format: the line takes 800 bytes at 10 bits a
    pixel and twice that is 1600, while the stride is two bytes a pixel,
    1280. *)
Lemma stride_sufficiency_counterexample :
  ~ stride_sufficient_as_specified fmt_sbggr10p pix_vga_repacked.
Proof.
  unfold stride_sufficient_as_specified. intros H.
  destruct H as [_ H].
  - unfold formats. do 19 right. left. reflexivity.
  - vm_compute. split; discriminate.
  - vm_compute in H. apply H. reflexivity.
Qed.

(** Without repacking the minimum is the whole bytes of a line only: 26
    pixels of 10 bits are 260 bits, and the stride of 32 bytes holds
    256. *)
Example bytes_per_line_whole_bytes :
  bytes_per_line 26 fmt_sbggr10p V4L2_PIX_FMT_SBGGR10P = 32
  /\ line_bytes 26 (depth fmt_sbggr10p) = 33.
Proof. split; vm_compute; reflexivity. Qed.

(** C10, on a sensor that answers every index with the first code of the
    table: the lookup returns the entry of that code at the first call. *)
Lemma fallback_lookup_termination_witness :
  get_first_supported_format dev_repeating 0 1 = Some (Some fmt_yuyv_2x8).
Proof.
  apply (proj2 (proj2 (proj2 (fallback_lookup_termination dev_repeating 0)))).
  - vm_compute. discriminate.
  - vm_compute. discriminate.
  - intros k Hk. lia.
  - unfold supported_at. vm_compute. split; [discriminate | reflexivity].
Defined.

End Concrete.

(** * The further properties on concrete inputs *)

Section ConcreteMore.

#[local] Existing Instance linux_uapi.
#[local] Existing Instance vc4_regs_unicam.
#[local] Existing Instance spec_core.

(** X2, on the three-bit field at bits 4 to 6 of an all-ones word. *)
Lemma get_field_set_field_witness :
  get_field (set_field 0xffffffff 5 (Z.shiftl (Z.ones 3) 4))
            (Z.shiftl (Z.ones 3) 4)
  = 5.
Proof.
  apply (get_field_set_field 0xffffffff 5 4 3);
    [lia | lia | lia | split; [lia | reflexivity] | lia].
Defined.

(** X3, on the two nibbles of a byte. *)
Lemma set_field_disjoint_masks_witness :
  get_field (set_field 0xabcd 3 0xf0) 0x0f = get_field (u32 0xabcd) 0x0f
  /\ set_field (set_field 0xabcd 3 0xf0) 2 0x0f
     = set_field (set_field 0xabcd 2 0x0f) 3 0xf0.
Proof.
  apply set_field_disjoint_masks. reflexivity.
Defined.

(** X4, with the codes of the kernel headers, which are pairwise
    distinct. *)
Lemma find_format_by_code_round_trip_witness :
  find_format_by_code MEDIA_BUS_FMT_SBGGR8_1X8 = Some fmt_sbggr8
  <-> In fmt_sbggr8 formats
      /\ code fmt_sbggr8 = MEDIA_BUS_FMT_SBGGR8_1X8.
Proof.
  apply find_format_by_code_round_trip.
  apply distinct_codes_sound. vm_compute. reflexivity.
Defined.

(** X7, on a sensor whose second code is the first one of the table. *)
Lemma get_first_supported_format_result_witness :
  get_first_supported_format dev_second_code 0 2 = Some (Some fmt_sbggr8).
Proof.
  apply (get_first_supported_format_result dev_second_code 0 1).
  - vm_compute. discriminate.
  - vm_compute. discriminate.
  - intros k Hk. assert (k = O) by lia. subst k.
    unfold passed_at. vm_compute.
    repeat split; try discriminate. right. reflexivity.
  - unfold supported_at. vm_compute. split; [discriminate | reflexivity].
Defined.

(** X9, on [dev_idle], whose sensor enumerates one code. *)
Lemma enumerated_format_is_found_witness :
  exists f,
    find_format_by_pix dev_idle (snd (unicam_enum_fmt_vid_cap dev_idle 0 0))
    = Some f
    /\ matches_pix f (snd (unicam_enum_fmt_vid_cap dev_idle 0 0)).
Proof.
  apply enumerated_format_is_found.
  - intros k Hk. unfold dev_idle, sensor_with_code.
    cbn [sensor enum_mbus_code].
    destruct (k =? 0); cbn [fst]; [lia |].
    change (- EINVAL) with (-22). lia.
  - vm_compute. discriminate.
Defined.

(** X10, on a 640x480 YUYV request. *)
Lemma layout_within_limits_witness :
  let r := unicam_calc_format_size_bpl fmt_yuyv_1x16 pix_vga in
  0 <= bytesperline r <= MAX_BYTESPERLINE
  /\ sizeimage r = 16 * ((height r + 15) / 16) * bytesperline r
  /\ height r * bytesperline r <= sizeimage r
  /\ sizeimage r < 2 ^ 32.
Proof.
  apply (layout_within_limits fmt_yuyv_1x16 pix_vga).
  - unfold formats. do 4 right. left. reflexivity.
  - vm_compute. split; discriminate.
  - vm_compute. split; discriminate.
Defined.

(** X11, on the same request. *)
Lemma layout_idempotent_witness :
  unicam_calc_format_size_bpl fmt_yuyv_1x16
    (unicam_calc_format_size_bpl fmt_yuyv_1x16 pix_vga)
  = unicam_calc_format_size_bpl fmt_yuyv_1x16 pix_vga.
Proof.
  apply (layout_idempotent fmt_yuyv_1x16 pix_vga).
  vm_compute. reflexivity.
Defined.

(** X12, on a first request for one buffer with no plane named. *)
Lemma unicam_queue_setup_result_witness :
  exists ret nbuffers' nplanes' size0',
    unicam_queue_setup dev_idle 0 1 0 0
    = (ret, (nbuffers', nplanes', size0'))
    /\ 0 + nbuffers' = Z.max 3 (0 + 1)
    /\ 1 <= nbuffers'
    /\ (0 <> 0 /\ 0 < sizeimage (v_fmt dev_idle) ->
        ret = - EINVAL /\ nplanes' = 0 /\ size0' = 0)
    /\ (~ (0 <> 0 /\ 0 < sizeimage (v_fmt dev_idle)) ->
        ret = 0 /\ nplanes' = 1
        /\ sizeimage (v_fmt dev_idle) <= size0'
        /\ size0' = if 0 =? 0 then sizeimage (v_fmt dev_idle) else 0).
Proof.
  apply (unicam_queue_setup_result dev_idle 0 1 0 0);
    [lia | lia | reflexivity].
Defined.

(** X13, on [dev_running] with a frame end. *)
Lemma unicam_isr_conserves_buffers_witness :
  exists dev' new,
    unicam_isr (raise_irq dev_running sta_irq ista_frame_end) 0
    = Some (IRQ_HANDLED, dev')
    /\ done dev' = new
    /\ (length new <= 1)%nat
    /\ Permutation [1%nat; 2%nat] (map c_buf new ++ holdings dev').
Proof.
  destruct (unicam_isr_conserves_buffers
              (raise_irq dev_running sta_irq ista_frame_end) 0)
    as (dev' & new & E & D & L & _ & P & _).
  - change (NoDup [1%nat; 2%nat]).
    constructor; [intros [H | []]; discriminate H |].
    constructor; [intros [] | constructor].
  - exists dev', new. repeat split; assumption.
Defined.

(** X14, on the run from [dev_running] that drops a frame. *)
Lemma run_conserves_buffers_witness :
  exists dev' new,
    run dev_running ev_whole_run = Some dev'
    /\ done dev' = new
    /\ Permutation [1%nat; 2%nat; 3%nat] (map c_buf new ++ holdings dev')
    /\ NoDup (map c_buf new).
Proof.
  destruct (run_conserves_buffers dev_running ev_whole_run)
    as (dev' & new & E & D & P & N & _).
  - change (NoDup [1%nat; 2%nat; 3%nat]).
    constructor; [intros [H | [H | []]]; discriminate H |].
    constructor; [intros [H | []]; discriminate H |].
    constructor; [intros [] | constructor].
  - exists dev', new. repeat split; assumption.
Defined.

(** X15, with the register layout of the VC4 headers. *)
Lemma unicam_disable_stops_receiver_witness :
  Z.land (base (cfg (unicam_disable dev_idle)) UNICAM_CTRL) UNICAM_CPE = 0
  /\ Z.land (base (cfg (unicam_disable dev_idle)) UNICAM_CTRL) UNICAM_SOE <> 0
  /\ clk_gate_base (cfg (unicam_disable dev_idle)) = 0x5a000000.
Proof.
  destruct (unicam_disable_stops_receiver dev_idle)
    as (H1 & _ & H3 & _ & _ & _ & H7 & _).
  - vm_compute. split; reflexivity.
  - reflexivity.
  - reflexivity.
  - reflexivity.
  - repeat split; assumption.
Defined.

(** X16, on two active lanes: the clock lane and two data lanes. *)
Lemma unicam_start_rx_lane_clocks_witness :
  clk_gate_base (cfg (unicam_start_rx dev_two_lanes 0))
  = 0x5a000000 + (4 ^ (active_data_lanes dev_two_lanes + 1) - 1) / 3.
Proof.
  apply unicam_start_rx_lane_clocks. vm_compute. split; discriminate.
Defined.

(** X17, on [dev_two_queued]. *)
Lemma unicam_start_streaming_accounting_witness :
  exists dev',
    unicam_start_streaming dev_two_queued = Some (0, dev')
    /\ pm_usage dev' = 1 /\ clk_enabled dev' = 1
    /\ active_data_lanes dev' <= 2.
Proof.
  destruct (unicam_start_streaming_accounting dev_two_queued 1%nat [2%nat])
    as (ret & dev' & E & Hiff & Hok & _); [reflexivity | reflexivity |].
  assert (Hz : ret = 0).
  { apply Hiff. unfold start_conditions. vm_compute.
    repeat split; discriminate. }
  subst ret. destruct (Hok eq_refl) as (P & K & A & M).
  exists dev'. split; [exact E |].
  split; [exact P |]. split; [exact K |].
  rewrite M in A. exact A.
Defined.

(** X18, on [dev_two_queued]. *)
Lemma start_then_stop_witness :
  exists dev1 dev2,
    unicam_start_streaming dev_two_queued = Some (0, dev1)
    /\ unicam_stop_streaming dev1 = Some dev2
    /\ map c_buf (done dev2) = [2%nat; 1%nat]
    /\ pm_usage dev2 = 0 /\ clk_enabled dev2 = 0
    /\ streaming dev2 = 1.
Proof.
  destruct (start_then_stop dev_two_queued 1%nat [2%nat])
    as (dev1 & dev2 & E1 & E2 & D & _ & _ & _ & P & K & _ & S).
  - reflexivity.
  - unfold start_conditions. vm_compute. repeat split; discriminate.
  - exists dev1, dev2. split; [exact E1 |]. split; [exact E2 |].
    rewrite D. repeat split; assumption.
Defined.

(** X19, on [dev_two_queued] and one frame. *)
Lemma dma_window_follows_next_slot_witness :
  exists dev1 dev2,
    unicam_start_streaming dev_two_queued = Some (0, dev1)
    /\ run dev1 ev_one_frame = Some dev2
    /\ dma_window_on_next dev1
    /\ dma_window_on_next dev2.
Proof.
  destruct (dma_window_follows_next_slot dev_two_queued 1%nat [2%nat]
              ev_one_frame)
    as (dev1 & dev2 & E1 & E2 & _ & H1 & H2).
  - reflexivity.
  - unfold start_conditions. vm_compute. repeat split; discriminate.
  - exists dev1, dev2.
    split; [exact E1 |]. split; [exact E2 |]. split; [exact H1 | exact H2].
Defined.

(** X20, on [dev_running] with frame start and frame end in one
    interrupt: buffer 1 leaves with the time of that interrupt. *)
Lemma completed_buffer_stamp_witness :
  exists dev' c,
    unicam_isr (raise_irq dev_running sta_irq ista_start_and_end) 77
    = Some (IRQ_HANDLED, dev')
    /\ done dev' = [c]
    /\ c_buf c = 1%nat
    /\ vb_timestamp (c_vb c) = 77.
Proof.
  destruct (completed_buffer_stamp
              (raise_irq dev_running sta_irq ista_start_and_end) 77
              1%nat 2%nat)
    as (dev' & c & E & D & B & _ & _ & _ & T & _);
    [vm_compute; discriminate | reflexivity | reflexivity | reflexivity
    | reflexivity | discriminate |].
  exists dev', c. repeat split; assumption.
Defined.

(** X22, on [dev_two_queued], one frame and a buffer queued meanwhile. *)
Lemma session_returns_every_buffer_witness :
  exists dev1 dev2 dev3 completed handed_back,
    unicam_start_streaming dev_two_queued = Some (0, dev1)
    /\ run dev1 (EvQueue 3%nat :: ev_one_frame) = Some dev2
    /\ unicam_stop_streaming dev2 = Some dev3
    /\ done dev3 = completed ++ handed_back
    /\ numbered_from 0 completed
    /\ Permutation [1%nat; 2%nat; 3%nat]
                   (map c_buf (completed ++ handed_back))
    /\ holdings dev3 = [].
Proof.
  destruct (session_returns_every_buffer dev_two_queued 1%nat [2%nat]
              (EvQueue 3%nat :: ev_one_frame))
    as (dev1 & dev2 & dev3 & completed & back & E1 & E2 & E3 & D & _ & N & _
        & P & H).
  - reflexivity.
  - unfold start_conditions. vm_compute. repeat split; discriminate.
  - change (NoDup [1%nat; 2%nat; 3%nat]).
    constructor; [intros [H | [H | []]]; discriminate H |].
    constructor; [intros [H | []]; discriminate H |].
    constructor; [intros [] | constructor].
  - exists dev1, dev2, dev3, completed, back.
    split; [exact E1 |]. split; [exact E2 |]. split; [exact E3 |].
    split; [exact D |]. split; [exact N |]. split; [exact P | exact H].
Defined.

End ConcreteMore.
